(** * RavenDB Node.js client: the document query layer

    A shallow embedding of the classes [DocumentQueryBase] and
    [DocumentQuery] of Documents/Session, together with the properties of
    their parameter binding, value transform, result conversion and
    terminal methods. *)

From Stdlib Require Import ZArith.
From stdpp Require Import gmap strings list fin_maps pretty.

Open Scope string_scope.
Open Scope list_scope.

(** ** JavaScript values

    The values a caller can hand to a filter method.  The query layer
    never computes with a number or with the instant of a [Date]; it only
    inspects the runtime type, so a number carries an integer payload, a
    [Date] its time value, a function and a symbol a name.  [undefined] is
    left out: what the query does with it is decided by [TypeUtil.isNull],
    which is not part of the sources at hand. *)

#[local] Unset Elimination Schemes.
Inductive JsValue : Type :=
| JNull
| JBool (b : bool)
| JNumber (n : Z)
| JString (s : string)
| JDate (time : Z)
| JArray (items : list JsValue)
| JObject (props : list (string * JsValue))
| JFunction (name : string)
| JSymbol (description : string).
#[local] Set Elimination Schemes.

(** [typeof value] *)
Definition typeof (value : JsValue) : string :=
  match value with
  | JBool _ => "boolean"
  | JNumber _ => "number"
  | JString _ => "string"
  | JNull | JDate _ | JArray _ | JObject _ => "object"
  | JFunction _ => "function"
  | JSymbol _ => "symbol"
  end.

(** [s === value] for a string literal [s] *)
Definition strictEqualsString (s : string) (value : JsValue) : bool :=
  match value with JString s' => bool_decide (s = s') | _ => false end.

(** Modelled from the spec: [TypeUtil.isNull], [TypeUtil.isArray]
    (Utility/TypeUtil is not part of the sources at hand); the spec speaks of
    a "null" value or endpoint and of "nested arrays". *)
Module TypeUtil.
Definition isNull (value : JsValue) : bool :=
  match value with JNull => true | _ => false end.

Definition isArray (value : JsValue) : bool :=
  match value with JArray _ => true | _ => false end.

(** Modelled from the spec: the "unbounded sentinel" used as default
    [take]; by its name the largest 32-bit signed integer. *)
Definition MAX_INT32 : Z := 2147483647%Z.
End TypeUtil.

(** ** Exceptions and completions *)

Inductive RavenException : Type :=
| InvalidArgumentException (message : string)
| InvalidOperationException (message : string)
| ErrorResponseException (message : string)
| OtherException (message : string).

(** The outcome of running a piece of synchronous code. *)
Inductive Completion (A : Type) : Type :=
| Normal (a : A)
| Throw (e : RavenException).
Arguments Normal {A} a.
Arguments Throw {A} e.

(** Synchronous code over a mutable object of type [S]: a [throw] keeps
    the mutations made before it. *)
Definition M (S A : Type) : Type := S → Completion A * S.

#[global] Instance M_ret {S} : MRet (M S) := λ A a s, (Normal a, s).
#[global] Instance M_bind {S} : MBind (M S) := λ A B f c s,
  match c s with
  | (Normal a, s') => f a s'
  | (Throw e, s') => (Throw e, s')
  end.

Definition get {S} : M S S := λ s, (Normal s, s).
Definition modify {S} (f : S → S) : M S unit := λ s, (Normal tt, f s).

(** A computation that does not touch the object. *)
Definition lift {S A} (c : Completion A) : M S A := λ s, (c, s).

(** ** The query builder, seen from the query

    Only the interface [IQueryBuilder] is at hand; the query hands the
    builder field names, parameter names and flags.  The builder is
    represented by the sequence of calls it has received. *)

Record IParametrizedWhereParams : Type := {
  pw_fieldName : string;
  pw_parameterName : string;
  pw_exact : option bool;
  pw_allowWildcards : option bool
}.

(** Modelled from the spec: the enumerations of Query/QueryLanguage and
    Query/Spatial (not part of the sources at hand).  The query hands
    their values on to the builder as it gets them; the search operator
    has "an OR/AND operator default of OR", the others are represented by
    the name of the value. *)
Inductive SearchOperator : Type := SearchOr | SearchAnd.

Definition QueryOperator : Type := string.
Definition OrderingType : Type := string.
Definition SpatialUnit : Type := string.
Definition SpatialRelation : Type := string.

(** Modelled from the spec: a [SpatialCriteria] (Query/Spatial is not part
    of the sources at hand), as far as the query meets it: "a callback is
    supplied to the builder so that any parameter values the criteria
    needs are still registered through the same parameter table (the
    builder must not invent parameters itself)".  A criteria is
    represented by the values the builder passes to that callback, in the
    order in which it passes them. *)
Record SpatialCriteria : Type := {
  criteriaValues : list JsValue
}.

Inductive BuilderCall : Type :=
| BSelectFields (fields : list string) (projections : option (list string))
| BWhereEquals (params : IParametrizedWhereParams)
| BWhereNotEquals (params : IParametrizedWhereParams)
| BOpenSubclause
| BCloseSubclause
| BNegateNext
| BWhereIn (fieldName parameterName : string) (exact : option bool)
| BWhereAllIn (fieldName parameterName : string)
| BWhereStartsWith (fieldName parameterName : string)
| BWhereEndsWith (fieldName parameterName : string)
| BWhereBetween (fieldName fromParameterName toParameterName : string)
    (exact : option bool)
| BWhereGreaterThan (fieldName parameterName : string) (exact : option bool)
| BWhereGreaterThanOrEqual (fieldName parameterName : string)
    (exact : option bool)
| BWhereLessThan (fieldName parameterName : string) (exact : option bool)
| BWhereLessThanOrEqual (fieldName parameterName : string)
    (exact : option bool)
| BRawQuery (query : string)
| BRandomOrdering (seed : option string)
| BCustomSortUsing (typeName : string) (descending : option bool)
| BInclude (path : string)
| BUsingDefaultOperator (operator : QueryOperator)
| BWhereExists (fieldName : string)
| BAndAlso
| BOrElse
| BBoost (boost : Z)
| BFuzzy (fuzzy : Z)
| BProximity (proximity : Z)
| BOrderBy (field : string) (ordering : option OrderingType)
| BOrderByDescending (field : string) (ordering : option OrderingType)
| BOrderByScore
| BOrderByScoreDescending
| BSearch (fieldName searchTermsParameterName : string)
    (operator : SearchOperator)
| BIntersect
| BDistinct
| BGroupBy (fieldNames : list string)
| BGroupByKey (fieldName : string) (projectedName : option string)
| BGroupBySum (fieldName : string) (projectedName : option string)
| BGroupByCount (projectedName : option string)
| BWhereTrue
| BWithinRadiusOf (fieldName radiusParameterName latitudeParameterName
    longitudeParameterName : string) (radiusUnits : option SpatialUnit)
    (distErrorPercent : option Z)
| BSpatial (fieldName shapeWktParameterName : string)
    (relation : option SpatialRelation) (distErrorPercent : option Z)
| BSpatialCriteria (fieldName : string) (criteria : SpatialCriteria)
    (parameterNames : list string)
| BOrderByDistance (fieldName latitudeOrShapeWktParameterName : string)
    (longitudeParameterName : option string)
| BOrderByDistanceDescending
    (fieldName latitudeOrShapeWktParameterName : string)
    (longitudeParameterName : option string).

(** Modelled from the spec: [WhereParams] (Query/WhereParams is not part
    of the sources at hand), the structured form of a filter request:
    [from] keeps the members it is given and [parametrize] puts a parameter
    name in the place of the value. *)
Record WhereParams : Type := {
  fieldName : string;
  value : JsValue;
  exact : option bool;
  allowWildcards : option bool
}.

Definition parametrize (whereParams : WhereParams) (parameterName : string)
  : IParametrizedWhereParams :=
  {| pw_fieldName := fieldName whereParams;
     pw_parameterName := parameterName;
     pw_exact := exact whereParams;
     pw_allowWildcards := allowWildcards whereParams |}.

(** ** The query object *)

Record DocumentQuery : Type := mkDocumentQuery {
  indexQueryOptions : gmap string JsValue;
  withStatistics : option bool;
  documentType : option string;
  queryParameters : gmap string JsValue;
  nestedObjectTypes : gmap string string;
  _indexName : option string;
  _collectionName : option string;
  _take : option Z;
  _skip : option Z;
  _builder : list BuilderCall
}.

Definition set_queryParameters (f : gmap string JsValue → gmap string JsValue)
  (q : DocumentQuery) : DocumentQuery :=
  mkDocumentQuery (indexQueryOptions q) (withStatistics q) (documentType q)
    (f (queryParameters q)) (nestedObjectTypes q) (_indexName q)
    (_collectionName q) (_take q) (_skip q) (_builder q).

Definition set_builder (f : list BuilderCall → list BuilderCall)
  (q : DocumentQuery) : DocumentQuery :=
  mkDocumentQuery (indexQueryOptions q) (withStatistics q) (documentType q)
    (queryParameters q) (nestedObjectTypes q) (_indexName q)
    (_collectionName q) (_take q) (_skip q) (f (_builder q)).

Definition set_take (take : option Z) (q : DocumentQuery) : DocumentQuery :=
  mkDocumentQuery (indexQueryOptions q) (withStatistics q) (documentType q)
    (queryParameters q) (nestedObjectTypes q) (_indexName q)
    (_collectionName q) take (_skip q) (_builder q).

Definition set_skip (skip : option Z) (q : DocumentQuery) : DocumentQuery :=
  mkDocumentQuery (indexQueryOptions q) (withStatistics q) (documentType q)
    (queryParameters q) (nestedObjectTypes q) (_indexName q)
    (_collectionName q) (_take q) skip (_builder q).

Definition set_withStatistics (b : option bool) (q : DocumentQuery)
  : DocumentQuery :=
  mkDocumentQuery (indexQueryOptions q) b (documentType q)
    (queryParameters q) (nestedObjectTypes q) (_indexName q)
    (_collectionName q) (_take q) (_skip q) (_builder q).

(** The state a constructor leaves for a collection query. *)
Definition newQuery (collection : string) : DocumentQuery :=
  {| indexQueryOptions := ∅; withStatistics := Some false;
     documentType := None; queryParameters := ∅; nestedObjectTypes := ∅;
     _indexName := None; _collectionName := Some collection;
     _take := None; _skip := None; _builder := [] |}.

(** A call [this._builder.m(...)]. *)
Definition builderCall (c : BuilderCall) : M DocumentQuery unit :=
  modify (set_builder (λ calls, calls ++ [c])).

(** ** Parameter binding and the value transform *)

Definition parameterName (index : nat) : string := "p" +:+ pretty index.

(** [addQueryParameter]: the name is made from the current size of the
    table, then the value is stored under it. *)
Definition addQueryParameter (valueOrValues : JsValue)
  : M DocumentQuery string := λ q,
  let name := parameterName (size (queryParameters q)) in
  (Normal name, set_queryParameters (λ ps, <[name := valueOrValues]> ps) q).

Definition invalidValueMessage : string :=
  "Invalid value passed to query condition. Only integer / number / string and null values are supported".

Section ValueTransform.
(** [DateUtil.stringify], the canonical string form of a date
    (Utility/DateUtil is not part of the sources at hand). *)
Variable stringify : Z → string.

Definition transformValue (whereParams : WhereParams)
  : Completion JsValue :=
  let value := value whereParams in
  if TypeUtil.isNull value then Normal JNull
  else if strictEqualsString "" value then Normal (JString "")
  else match value with
       | JDate time => Normal (JString (stringify time))
       | _ =>
         if bool_decide (typeof value ∈ ["boolean"; "number"; "string"])
         then Normal value
         else Throw (InvalidArgumentException invalidValueMessage)
       end.

(** [unpackValuesArray]: one round of the loop appends either the
    unpacked nested array or the value itself.  [unpackNested value] is
    the recursive call [this.unpackValuesArray(value)] on a value that
    is an array. *)
Fixpoint unpackNested (value : JsValue) : list JsValue :=
  match value with
  | JArray items => foldl (λ result v, result ++ unpackNested v) [] items
  | _ => [value]
  end.

Definition unpackValuesArray (values : list JsValue) : list JsValue :=
  foldl (λ result value,
           if TypeUtil.isArray value then result ++ unpackNested value
           else result ++ [value])
        [] values.

(** The loop of [transformValuesArray], from the values still to visit
    and the [result] built so far. *)
Fixpoint transformValuesLoop (fieldName : string) (unpacked : list JsValue)
    (result : list JsValue) : Completion (list JsValue) :=
  match unpacked with
  | [] => Normal result
  | value :: rest =>
    let nestedWhereParams :=
      {| fieldName := fieldName; value := value; exact := None;
         allowWildcards := Some true |} in
    match transformValue nestedWhereParams with
    | Normal transformed =>
      transformValuesLoop fieldName rest (result ++ [transformed])
    | Throw e => Throw e
    end
  end.

Definition transformValuesArray (fieldName : string)
    (values : list JsValue) : Completion (list JsValue) :=
  let unpacked := unpackValuesArray values in
  transformValuesLoop fieldName unpacked [].

(** ** The fluent filter surface *)

(** The two ways of calling [whereEquals] and [whereNotEquals]. *)
Inductive WhereArgs : Type :=
| WherePositional (fieldName : string) (value : JsValue)
    (exact : option bool)
| WhereStructured (whereParams : WhereParams).

(** The positional form calls the method again with the structured form;
    [exact] has the default value [false]. *)
Definition toWhereParams (args : WhereArgs) : WhereParams :=
  match args with
  | WherePositional fieldName value exact =>
    {| fieldName := fieldName; value := value;
       exact := Some (default false exact); allowWildcards := None |}
  | WhereStructured whereParams => whereParams
  end.

Definition selectFields (fields : list string)
    (projections : option (list string)) : M DocumentQuery unit :=
  builderCall (BSelectFields fields None).

Definition whereEquals (args : WhereArgs) : M DocumentQuery unit :=
  let whereParams := toWhereParams args in
  transformedValue ← lift (transformValue whereParams);
  name ← addQueryParameter transformedValue;
  builderCall (BWhereEquals (parametrize whereParams name)).

Definition whereNotEquals (args : WhereArgs) : M DocumentQuery unit :=
  let whereParams := toWhereParams args in
  transformedValue ← lift (transformValue whereParams);
  name ← addQueryParameter transformedValue;
  builderCall (BWhereNotEquals (parametrize whereParams name)).

Definition openSubclause : M DocumentQuery unit :=
  builderCall BOpenSubclause.

Definition closeSubclause : M DocumentQuery unit :=
  builderCall BCloseSubclause.

Definition negateNext : M DocumentQuery unit :=
  builderCall BNegateNext.

Definition whereIn (fieldName : string) (values : list JsValue)
    (exact : option bool) : M DocumentQuery unit :=
  transformedValues ← lift (transformValuesArray fieldName values);
  name ← addQueryParameter (JArray values);
  builderCall (BWhereIn fieldName name exact).

Definition whereStartsWith (fieldName : string) (value : JsValue)
  : M DocumentQuery unit :=
  transformedValue ← lift (transformValue
    {| fieldName := fieldName; value := value; exact := None;
       allowWildcards := Some true |});
  name ← addQueryParameter transformedValue;
  builderCall (BWhereStartsWith fieldName name).

Definition whereEndsWith (fieldName : string) (value : JsValue)
  : M DocumentQuery unit :=
  transformedValue ← lift (transformValue
    {| fieldName := fieldName; value := value; exact := None;
       allowWildcards := Some true |});
  name ← addQueryParameter transformedValue;
  builderCall (BWhereEndsWith fieldName name).

(** The value bound for an endpoint: the preset [sentinel] when the
    endpoint is null, its transform otherwise. *)
Definition transformOr (sentinel : string) (fieldName : string)
    (value : JsValue) (exact : option bool) : M DocumentQuery JsValue :=
  if TypeUtil.isNull value then mret (JString sentinel)
  else lift (transformValue
    {| fieldName := fieldName; value := value; exact := exact;
       allowWildcards := None |}).

Definition whereBetween (fieldName : string) (start end_ : JsValue)
    (exact : option bool) : M DocumentQuery unit :=
  transformedFrom ← transformOr "*" fieldName start exact;
  transformedTo ← transformOr "NULL" fieldName end_ exact;
  fromName ← addQueryParameter transformedFrom;
  toName ← addQueryParameter transformedTo;
  builderCall (BWhereBetween fieldName fromName toName exact).

Definition whereGreaterThan (fieldName : string) (value : JsValue)
    (exact : option bool) : M DocumentQuery unit :=
  transformedValue ← transformOr "*" fieldName value exact;
  name ← addQueryParameter transformedValue;
  builderCall (BWhereGreaterThan fieldName name exact).

Definition whereGreaterThanOrEqual (fieldName : string) (value : JsValue)
    (exact : option bool) : M DocumentQuery unit :=
  transformedValue ← transformOr "*" fieldName value exact;
  name ← addQueryParameter transformedValue;
  builderCall (BWhereGreaterThanOrEqual fieldName name exact).

Definition whereLessThan (fieldName : string) (value : JsValue)
    (exact : option bool) : M DocumentQuery unit :=
  transformedValue ← transformOr "NULL" fieldName value exact;
  name ← addQueryParameter transformedValue;
  builderCall (BWhereLessThan fieldName name exact).

Definition whereLessThanOrEqual (fieldName : string) (value : JsValue)
    (exact : option bool) : M DocumentQuery unit :=
  transformedValue ← transformOr "NULL" fieldName value exact;
  name ← addQueryParameter transformedValue;
  builderCall (BWhereLessThanOrEqual fieldName name exact).

Definition containsAny (fieldName : string) (values : list JsValue)
  : M DocumentQuery unit :=
  transformedValues ← lift (transformValuesArray fieldName values);
  if bool_decide (length transformedValues ≠ 0) then
    name ← addQueryParameter (JArray transformedValues);
    builderCall (BWhereIn fieldName name None)
  else mret tt.

Definition containsAll (fieldName : string) (values : list JsValue)
  : M DocumentQuery unit :=
  transformedValues ← lift (transformValuesArray fieldName values);
  if bool_decide (length transformedValues ≠ 0) then
    name ← addQueryParameter (JArray transformedValues);
    builderCall (BWhereAllIn fieldName name)
  else mret tt.
End ValueTransform.

(** ** Promises

    A terminal method hands back a promise.  One query is driven by one
    call chain at a time, so a promise is represented by the way it
    settles, and the handlers of a chain run in the order of the chain. *)

Inductive Settled (A : Type) : Type :=
| Fulfilled (a : A)
| Rejected (e : RavenException).
Arguments Fulfilled {A} a.
Arguments Rejected {A} e.

(** [p.then(onFulfilled)]: the handler runs when [p] is fulfilled; it
    returns a value or a promise, and a [throw] inside it rejects the
    promise of the chain. *)
Definition promise_then {S A B} (p : Settled A)
    (onFulfilled : A → M S (Settled B)) : M S (Settled B) := λ s,
  match p with
  | Fulfilled a =>
    match onFulfilled a s with
    | (Normal r, s') => (Normal r, s')
    | (Throw e, s') => (Normal (Rejected e), s')
    end
  | Rejected e => (Normal (Rejected e), s)
  end.

(** [p.catch(onRejected)] *)
Definition promise_catch {S A} (p : Settled A)
    (onRejected : RavenException → M S (Settled A)) : M S (Settled A) := λ s,
  match p with
  | Fulfilled a => (Normal (Fulfilled a), s)
  | Rejected e =>
    match onRejected e s with
    | (Normal r, s') => (Normal r, s')
    | (Throw e', s') => (Normal (Rejected e'), s')
    end
  end.

(** [p.finally(handler)]: the handler runs however [p] has settled, and
    the outcome of [p] is kept unless the handler throws. *)
Definition promise_finally {S A} (p : Settled A) (handler : M S unit)
  : M S (Settled A) := λ s,
  match handler s with
  | (Normal _, s') => (Normal p, s')
  | (Throw e, s') => (Normal (Rejected e), s')
  end.

(** An [async] method: whatever its body throws before it returns becomes
    the rejection of the promise the caller gets. *)
Definition async {S A} (body : M S (Settled A)) (s : S) : Settled A * S :=
  match body s with
  | (Normal p, s') => (p, s')
  | (Throw e, s') => (Rejected e, s')
  end.

(** ** Responses and the query descriptor *)

Record IRavenResponse : Type := {
  Results : list JsValue;
  Includes : list JsValue;
  TotalResults : option Z;
  IsStale : option bool
}.

Record IndexQuery : Type := {
  iq_query : string;
  iq_queryParameters : gmap string JsValue;
  iq_take : Z;
  iq_skip : Z;
  iq_options : gmap string JsValue
}.

(** [DocumentQueryParameters.toJson]: every entry of the map is copied
    into a fresh object. *)
Definition toJson (parameters : gmap string JsValue) : gmap string JsValue :=
  foldr (λ entry result, <[entry.1 := entry.2]> result) ∅
        (map_to_list parameters).

Definition noResultsMessage : string :=
  "There's no results corresponding to given query criteria.".

Definition moreThanOneResultMessage : string :=
  "There's more than one result corresponding to given query criteria.".

Definition staleIndexMessage : string :=
  "The index is still stale after reached the timeout".

Section QueryBase.
(** The shape of the entities of the query. *)
Context {T : Type}.

(** Modelled from the spec: the conversion result of the conventions
    collaborator (Documents/Conventions is not part of the sources at
    hand): the typed entity, its originating raw document and the
    conversion metadata. *)
Record IDocumentConversionResult : Type := {
  document : T;
  rawEntity : JsValue;
  metadata : JsValue
}.

(** The conventions collaborator, at its interface.  A conversion can
    fail. *)
Record DocumentConventions : Type := {
  tryFetchResults : IRavenResponse → list JsValue;
  tryFetchIncludes : IRavenResponse → list JsValue;
  convertToDocument : JsValue → option string → gmap string string →
                      Completion IDocumentConversionResult;
  checkIsProjection : JsValue → bool
}.

(** What a run of the query does to the world around it: the
    notifications it emits, the command it submits and what it delivers
    to the optional callback. *)
Inductive Effect : Type :=
| EmitDocumentsQueried
| EmitDocumentFetched (conversionResult : IDocumentConversionResult)
| EmitIncludesFetched (includes : list JsValue)
| ExecuteCommand (query : IndexQuery)
| CallbackEntity (result : option T)
| CallbackCount (result : Z)
| CallbackError (error : RavenException).

Record QueryRun : Type := {
  this : DocumentQuery;
  effects : list Effect
}.

Definition update (f : DocumentQuery → DocumentQuery) : M QueryRun unit :=
  modify (λ w, {| this := f (this w); effects := effects w |}).

Definition perform (e : Effect) : M QueryRun unit :=
  modify (λ w, {| this := this w; effects := effects w ++ [e] |}).

(** What [convertResponseToDocuments] returns: a plain sequence or the
    pair [{results, response}] ([QueryResultsWithStatistics]). *)
Inductive QueryResults : Type :=
| PlainResults (results : list T)
| ResultsWithStatistics (results : list T) (response : IRavenResponse).

(** The session's conventions, the builder's [toString] (it can throw)
    and the request executor, which settles the promise of a command. *)
Variable conventions : DocumentConventions.
Variable builderToString : list BuilderCall → Completion string.
Variable execute : IndexQuery → Settled (option IRavenResponse).

Definition getIndexQuery : M QueryRun IndexQuery :=
  w ← get;
  let skip := 0%Z in
  let take := TypeUtil.MAX_INT32 in
  query ← lift (builderToString (_builder (this w)));
  let queryParams := toJson (queryParameters (this w)) in
  let skip := match _skip (this w) with Some n => n | None => skip end in
  let take := match _take (this w) with Some n => n | None => take end in
  mret {| iq_query := query; iq_queryParameters := queryParams;
          iq_take := take; iq_skip := skip;
          iq_options := indexQueryOptions (this w) |}.

Definition emptyEnvelope : IRavenResponse :=
  {| Results := []; Includes := []; TotalResults := None;
     IsStale := None |}.

Definition executeQuery : M QueryRun (Settled IRavenResponse) :=
  perform EmitDocumentsQueried;;
  query ← getIndexQuery;
  perform (ExecuteCommand query);;
  promise_then (execute query) (λ response,
    match response with
    | None => mret (Fulfilled emptyEnvelope)
    | Some response =>
      if bool_decide (IsStale response = Some true)
      then mret (Rejected (ErrorResponseException staleIndexMessage))
      else mret (Fulfilled response)
    end).

(** The [forEach] of [convertResponseToDocuments], from the raw results
    still to visit and the [results] collected so far. *)
Fixpoint convertEach (responseResults : list JsValue) (results : list T)
  : M QueryRun (list T) :=
  match responseResults with
  | [] => mret results
  | result :: rest =>
    w ← get;
    conversionResult ← lift (convertToDocument conventions result
      (documentType (this w)) (nestedObjectTypes (this w)));
    let results := results ++ [document conversionResult] in
    (if negb (checkIsProjection conventions result)
     then perform (EmitDocumentFetched conversionResult)
     else mret tt);;
    convertEach rest results
  end.

Definition convertResponseToDocuments (response : IRavenResponse)
  : M QueryRun QueryResults :=
  let result := PlainResults [] in
  let responseResults := tryFetchResults conventions response in
  if bool_decide (0 < length responseResults)%nat then
    let responseIncludes := tryFetchIncludes conventions response in
    results ← convertEach responseResults [];
    (if bool_decide (length responseIncludes ≠ 0%nat)
     then perform (EmitIncludesFetched responseIncludes)
     else mret tt);;
    w ← get;
    if bool_decide (withStatistics (this w) = Some true)
    then mret (ResultsWithStatistics results response)
    else mret (PlainResults results)
  else mret result.

(** Modelled from the spec: [PromiseResolver] (Utility/PromiseResolver
    is not part of the sources at hand): the optional callback of a
    terminal method receives the same outcome as the promise; [reject]
    hands back a promise rejected with the error.  [callback] tells
    whether the caller gave one. *)
Definition PromiseResolver_resolve (delivery : Effect) (callback : bool)
  : M QueryRun unit :=
  if callback then perform delivery else mret tt.

Definition PromiseResolver_reject {A} (error : RavenException)
    (callback : bool) : M QueryRun (Settled A) :=
  (if callback then perform (CallbackError error) else mret tt);;
  mret (Rejected error).

(** [results.length] and [_.first(results)] where [results] is the
    value of [convertResponseToDocuments] read as an array: the pair
    [{results, response}] has no [length]. *)
Definition lengthOf (results : QueryResults) : option nat :=
  match results with
  | PlainResults l => Some (length l)
  | ResultsWithStatistics _ _ => None
  end.

Definition firstOf (results : QueryResults) : option T :=
  match results with
  | PlainResults l => head l
  | ResultsWithStatistics _ _ => None
  end.

Definition truthyLength (n : option nat) : bool :=
  match n with Some (S _) => true | _ => false end.

(** [length > bound], false when [length] is undefined. *)
Definition exceeds (bound : nat) (n : option nat) : bool :=
  match n with Some n => bool_decide (bound < n)%nat | None => false end.

(** The handler [single] passes to [then]. *)
Definition single_then (callback : bool) (response : IRavenResponse)
  : M QueryRun (Settled (option T)) :=
  results ← convertResponseToDocuments response;
  let result :=
    if truthyLength (lengthOf results) then firstOf results else None in
  if bool_decide (lengthOf results ≠ Some 1%nat) then
    let errorMessage :=
      if exceeds 1 (lengthOf results)
      then moreThanOneResultMessage else noResultsMessage in
    mret (Rejected (InvalidOperationException errorMessage))
  else
    PromiseResolver_resolve (CallbackEntity result) callback;;
    mret (Fulfilled result).

Definition single (callback : bool)
  : QueryRun → Settled (option T) * QueryRun :=
  async (
    w ← get;
    let take := _take (this w) in
    let skip := _skip (this w) in
    let statistics := withStatistics (this w) in
    update (set_take (Some 2%Z));;
    update (set_skip (Some 0%Z));;
    update (set_withStatistics (Some false));;
    p ← executeQuery;
    p ← promise_then p (single_then callback);
    p ← promise_catch p (λ error, PromiseResolver_reject error callback);
    promise_finally p (
      update (set_take take);;
      update (set_skip skip);;
      update (set_withStatistics statistics))).

(** The handler [first] passes to [then]. *)
Definition first_then (callback : bool) (response : IRavenResponse)
  : M QueryRun (Settled (option T)) :=
  results ← convertResponseToDocuments response;
  let result :=
    if truthyLength (lengthOf results) then firstOf results else None in
  PromiseResolver_resolve (CallbackEntity result) callback;;
  mret (Fulfilled result).

Definition first (callback : bool)
  : QueryRun → Settled (option T) * QueryRun :=
  async (
    w ← get;
    let take := _take (this w) in
    let skip := _skip (this w) in
    let statistics := withStatistics (this w) in
    update (set_take (Some 1%Z));;
    update (set_skip (Some 0%Z));;
    update (set_withStatistics (Some false));;
    p ← executeQuery;
    p ← promise_then p (first_then callback);
    p ← promise_catch p (λ error, PromiseResolver_reject error callback);
    promise_finally p (
      update (set_take take);;
      update (set_skip skip);;
      update (set_withStatistics statistics))).

(** The handler [count] passes to [then]. *)
Definition count_then (callback : bool) (response : IRavenResponse)
  : M QueryRun (Settled Z) :=
  let result := default 0%Z (TotalResults response) in
  PromiseResolver_resolve (CallbackCount result) callback;;
  mret (Fulfilled result).

Definition count (callback : bool) : QueryRun → Settled Z * QueryRun :=
  async (
    w ← get;
    let take := _take (this w) in
    let skip := _skip (this w) in
    update (set_take (Some 0%Z));;
    update (set_skip (Some 0%Z));;
    p ← executeQuery;
    p ← promise_then p (count_then callback);
    p ← promise_catch p (λ error, PromiseResolver_reject error callback);
    promise_finally p (
      update (set_take take);;
      update (set_skip skip))).
End QueryBase.

Arguments IDocumentConversionResult : clear implicits.
Arguments DocumentConventions : clear implicits.
Arguments Effect : clear implicits.
Arguments QueryRun : clear implicits.
Arguments QueryResults : clear implicits.

(** ** The rest of the query base

    Construction, paging, freshness options and [all]. *)

Definition set_indexQueryOptions
    (f : gmap string JsValue → gmap string JsValue) (q : DocumentQuery)
  : DocumentQuery :=
  mkDocumentQuery (f (indexQueryOptions q)) (withStatistics q) (documentType q)
    (queryParameters q) (nestedObjectTypes q) (_indexName q)
    (_collectionName q) (_take q) (_skip q) (_builder q).

(** A string in a condition: null, undefined and the empty string are
    falsy. *)
Definition truthyString (s : option string) : bool :=
  match s with
  | Some s => negb (bool_decide (s = ""))
  | None => false
  end.

(** [s || fallback] for a string or null *)
Definition stringOr (s : option string) (fallback : option string)
  : option string :=
  if truthyString s then s else fallback.

(** The options object of the factory; an absent member is [None]. *)
Record IDocumentQueryOptions : Type := {
  opt_withStatistics : option bool;
  opt_nestedObjectTypes : option (gmap string string);
  opt_collection : option string;
  opt_indexName : option string;
  opt_documentType : option string;
  opt_indexQueryOptions : option (gmap string JsValue)
}.

(** What the constructor hands to [new QueryBuilder(...)]. *)
Record QueryBuilderArguments : Type := {
  qb_indexName : option string;
  qb_collectionName : option string;
  qb_idPropertyName : string
}.

Module DocumentQueryBase.
Section Construction.
(** The conventions members the constructor asks, and the two string
    helpers it uses to name a document type after a collection
    ([pluralize.singular], [StringUtil.capitalize]); none of them is part
    of the sources at hand. *)
Variable getIdPropertyName : string → string.
Variable emptyCollection : string.
Variable singular : string → string.
Variable capitalize : string → string.

(** The constructor.  [withStatistics] has the default value [false],
    which stands in for an omitted argument only: [None] is the omitted
    argument, [Some None] is null. *)
Definition new (collection indexName documentType : option string)
    (nestedObjectTypes : option (gmap string string))
    (withStatistics : option (option bool))
    (indexQueryOptions : option (gmap string JsValue))
  : DocumentQuery * QueryBuilderArguments :=
  let withStatistics := default (Some false) withStatistics in
  let indexQueryOptions := default ∅ indexQueryOptions in
  let idPropertyName := "id" in
  let '(_indexName, _collectionName) :=
    if truthyString indexName then (indexName, None)
    else (None, stringOr collection (Some "@all_docs")) in
  let '(idPropertyName, documentType) :=
    if truthyString documentType
    then (getIdPropertyName (default "" documentType), documentType)
    else if truthyString collection
            && negb (bool_decide (Some "@all_docs" = collection))
            && negb (bool_decide (Some emptyCollection = collection))
    then (idPropertyName,
          Some (capitalize (singular (default "" collection))))
    else (idPropertyName, documentType) in
  ({| indexQueryOptions := indexQueryOptions;
      withStatistics := withStatistics;
      documentType := documentType;
      queryParameters := ∅;
      nestedObjectTypes := default ∅ nestedObjectTypes;
      _indexName := _indexName;
      _collectionName := _collectionName;
      _take := None;
      _skip := None;
      _builder := [] |},
   {| qb_indexName := _indexName;
      qb_collectionName := _collectionName;
      qb_idPropertyName := idPropertyName |}).

(** The factory [create]: every member of the options goes through
    [|| fallback] before it reaches the constructor. *)
Definition create (options : option IDocumentQueryOptions)
  : DocumentQuery * QueryBuilderArguments :=
  let '(withStatistics, indexName, collection, documentType,
        indexQueryOptions, nestedObjectTypes) :=
    match options with
    | Some options =>
      (if bool_decide (opt_withStatistics options = Some true)
       then Some true else None,
       stringOr (opt_indexName options) None,
       stringOr (opt_collection options) (Some "@all_docs"),
       stringOr (opt_documentType options) None,
       default ∅ (opt_indexQueryOptions options),
       default ∅ (opt_nestedObjectTypes options))
    | None => (None, None, None, None, ∅, ∅)
    end in
  new collection indexName documentType (Some nestedObjectTypes)
    (Some withStatistics) (Some indexQueryOptions).
End Construction.

Definition take (docsCount : Z) : M DocumentQuery unit :=
  modify (set_take (Some docsCount)).

Definition skip (skipCount : Z) : M DocumentQuery unit :=
  modify (set_skip (Some skipCount)).

Section Freshness.
(** [IndexQuery.DefaultTimeout] (Database/Indexes/IndexQuery is not part
    of the sources at hand). *)
Variable DefaultTimeout : JsValue.

(** [waitTimeout || IndexQuery.DefaultTimeout]: an omitted timeout and
    the timeout 0 are falsy. *)
Definition timeoutOr (waitTimeout : option Z) : JsValue :=
  match waitTimeout with
  | Some n => if bool_decide (n = 0%Z) then DefaultTimeout else JNumber n
  | None => DefaultTimeout
  end.

(** [_.assign(this.indexQueryOptions, source)]: the members of [source]
    are written over the options. *)
Definition assignOptions (source : list (string * JsValue))
  : M DocumentQuery unit :=
  modify (set_indexQueryOptions
            (λ options, foldl (λ o entry, <[entry.1 := entry.2]> o)
                              options source)).

Definition waitForNonStaleResults : M DocumentQuery unit :=
  assignOptions
    [("cutOffEtag", JNull);
     ("waitForNonStaleResults", JBool true);
     ("waitForNonStaleResultsTimeout", DefaultTimeout)].

Definition waitForNonStaleResultsAsOf (cutOffEtag : Z)
    (waitTimeout : option Z) : M DocumentQuery unit :=
  assignOptions
    [("cutOffEtag", JNumber cutOffEtag);
     ("waitForNonStaleResults", JBool true);
     ("waitForNonStaleResultsTimeout", timeoutOr waitTimeout)].

Definition waitForNonStaleResultsAsOfNow (waitTimeout : option Z)
  : M DocumentQuery unit :=
  assignOptions
    [("cutOffEtag", JNull);
     ("waitForNonStaleResults", JBool true);
     ("waitForNonStaleResultsAsOfNow", JBool true);
     ("waitForNonStaleResultsTimeout", timeoutOr waitTimeout)].
End Freshness.

Section All.
Context {T : Type}.
Variable conventions : DocumentConventions T.
Variable builderToString : list BuilderCall → Completion string.
Variable execute : IndexQuery → Settled (option IRavenResponse).

(** A run of [all]: beside the effects of the query, what the callback
    of [all] is handed on success, a plain sequence or a pair. *)
Record AllRun : Type := {
  run : QueryRun T;
  delivered : list (QueryResults T)
}.

(** A step of the query inside a run of [all]. *)
Definition onRun {A} (c : M (QueryRun T) A) : M AllRun A := λ s,
  let '(r, w) := c (run s) in (r, {| run := w; delivered := delivered s |}).

(** The handler [all] passes to [then]. *)
Definition all_then (callback : bool) (response : IRavenResponse)
  : M AllRun (Settled (QueryResults T)) :=
  result ← onRun (convertResponseToDocuments conventions response);
  (if callback
   then modify (λ s, {| run := run s; delivered := delivered s ++ [result] |})
   else mret tt);;
  mret (Fulfilled result).

Definition all (callback : bool)
  : AllRun → Settled (QueryResults T) * AllRun :=
  async (
    p ← onRun (executeQuery builderToString execute);
    p ← promise_then p (all_then callback);
    promise_catch p (λ error, onRun (PromiseResolver_reject error callback))).
End All.
End DocumentQueryBase.

Arguments DocumentQueryBase.AllRun : clear implicits.

(** [not]: reading the property negates the next clause. *)
Definition not_ : M DocumentQuery unit := negateNext.

(** ** The rest of the fluent surface

    The methods of [DocumentQuery] that hand their arguments to the
    builder as they are, and the methods that bind a value without the
    value transform.  A value that is bound is any value a caller can
    pass; a number that only travels to the builder is an integer. *)

Definition randomOrdering (seed : option string) : M DocumentQuery unit :=
  builderCall (BRandomOrdering seed).

Definition customSortUsing (typeName : string) (descending : option bool)
  : M DocumentQuery unit :=
  builderCall (BCustomSortUsing typeName descending).

Definition include (path : string) : M DocumentQuery unit :=
  builderCall (BInclude path).

Definition usingDefaultOperator (operator : QueryOperator)
  : M DocumentQuery unit :=
  builderCall (BUsingDefaultOperator operator).

Definition whereExists (fieldName : string) : M DocumentQuery unit :=
  builderCall (BWhereExists fieldName).

Definition andAlso : M DocumentQuery unit := builderCall BAndAlso.

Definition orElse : M DocumentQuery unit := builderCall BOrElse.

Definition boost (boost : Z) : M DocumentQuery unit :=
  builderCall (BBoost boost).

Definition fuzzy (fuzzy : Z) : M DocumentQuery unit :=
  builderCall (BFuzzy fuzzy).

Definition proximity (proximity : Z) : M DocumentQuery unit :=
  builderCall (BProximity proximity).

Definition orderBy (field : string) (ordering : option OrderingType)
  : M DocumentQuery unit :=
  builderCall (BOrderBy field ordering).

Definition orderByDescending (field : string)
    (ordering : option OrderingType) : M DocumentQuery unit :=
  builderCall (BOrderByDescending field ordering).

Definition orderByScore : M DocumentQuery unit := builderCall BOrderByScore.

Definition orderByScoreDescending : M DocumentQuery unit :=
  builderCall BOrderByScoreDescending.

(** [search]: the terms are bound as they come; [operator] has the
    default value [SearchOperators.Or]. *)
Definition search (fieldName : string) (searchTerms : JsValue)
    (operator : option SearchOperator) : M DocumentQuery unit :=
  name ← addQueryParameter searchTerms;
  builderCall (BSearch fieldName name (default SearchOr operator)).

Definition intersect : M DocumentQuery unit := builderCall BIntersect.

Definition distinct : M DocumentQuery unit := builderCall BDistinct.

(** [groupBy]: the builder is applied to [[fieldName].concat(fieldNames)]. *)
Definition groupBy (fieldName : string) (fieldNames : list string)
  : M DocumentQuery unit :=
  builderCall (BGroupBy ([fieldName] ++ fieldNames)).

Definition groupByKey (fieldName : string) (projectedName : option string)
  : M DocumentQuery unit :=
  builderCall (BGroupByKey fieldName projectedName).

Definition groupBySum (fieldName : string) (projectedName : option string)
  : M DocumentQuery unit :=
  builderCall (BGroupBySum fieldName projectedName).

Definition groupByCount (projectedName : option string)
  : M DocumentQuery unit :=
  builderCall (BGroupByCount projectedName).

Definition whereTrue : M DocumentQuery unit := builderCall BWhereTrue.

(** [withinRadiusOf]: the arguments of the builder call are evaluated
    from left to right, so radius, latitude and longitude are bound in
    this order. *)
Definition withinRadiusOf (fieldName : string)
    (radius latitude longitude : JsValue) (radiusUnits : option SpatialUnit)
    (distErrorPercent : option Z) : M DocumentQuery unit :=
  radiusName ← addQueryParameter radius;
  latitudeName ← addQueryParameter latitude;
  longitudeName ← addQueryParameter longitude;
  builderCall (BWithinRadiusOf fieldName radiusName latitudeName
                 longitudeName radiusUnits distErrorPercent).

(** Modelled from the spec: [QueryBuilder.spatial] with a criteria object
    (the class is not part of the sources at hand): the builder asks the
    generator it is handed for a name for each parameter value the
    criteria needs, and invents no parameter itself. *)
Fixpoint generateNames
    (parameterNameGenerator : JsValue → M DocumentQuery string)
    (values : list JsValue) : M DocumentQuery (list string) :=
  match values with
  | [] => mret []
  | parameterValue :: rest =>
    name ← parameterNameGenerator parameterValue;
    names ← generateNames parameterNameGenerator rest;
    mret (name :: names)
  end.

Definition QueryBuilder_spatial (fieldName : string)
    (criteria : SpatialCriteria)
    (parameterNameGenerator : JsValue → M DocumentQuery string)
  : M DocumentQuery unit :=
  names ← generateNames parameterNameGenerator (criteriaValues criteria);
  builderCall (BSpatialCriteria fieldName criteria names).

(** The second argument of [spatial]: [instanceof SpatialCriteria] tells
    a criteria object from anything else, which is taken for the shape. *)
Inductive SpatialArgument : Type :=
| ShapeWkt (shapeWkt : JsValue)
| Criteria (criteria : SpatialCriteria).

Definition spatial (fieldName : string)
    (shapeWktOrCriteria : SpatialArgument)
    (relation : option SpatialRelation) (distErrorPercent : option Z)
  : M DocumentQuery unit :=
  match shapeWktOrCriteria with
  | Criteria criteria =>
    QueryBuilder_spatial fieldName criteria
      (λ parameterValue, addQueryParameter parameterValue)
  | ShapeWkt shapeWkt =>
    name ← addQueryParameter shapeWkt;
    builderCall (BSpatial fieldName name relation distErrorPercent)
  end.

(** [TypeUtil.isNull(longitude)] for an argument that can be left out. *)
Definition isNullOrOmitted (argument : option JsValue) : bool :=
  match argument with
  | Some value => TypeUtil.isNull value
  | None => true
  end.

Definition orderByDistance (fieldName : string)
    (latitudeOrShapeWkt : JsValue) (longitude : option JsValue)
  : M DocumentQuery unit :=
  let shapeWkt := latitudeOrShapeWkt in
  let latitude := latitudeOrShapeWkt in
  if isNullOrOmitted longitude then
    name ← addQueryParameter shapeWkt;
    builderCall (BOrderByDistance fieldName name None)
  else
    latitudeName ← addQueryParameter latitude;
    longitudeName ← addQueryParameter (default JNull longitude);
    builderCall (BOrderByDistance fieldName latitudeName (Some longitudeName)).

Definition orderByDistanceDescending (fieldName : string)
    (latitudeOrShapeWkt : JsValue) (longitude : option JsValue)
  : M DocumentQuery unit :=
  let shapeWkt := latitudeOrShapeWkt in
  let latitude := latitudeOrShapeWkt in
  if isNullOrOmitted longitude then
    name ← addQueryParameter shapeWkt;
    builderCall (BOrderByDistanceDescending fieldName name None)
  else
    latitudeName ← addQueryParameter latitude;
    longitudeName ← addQueryParameter (default JNull longitude);
    builderCall (BOrderByDistanceDescending fieldName latitudeName
                   (Some longitudeName)).

(** ** Raw queries *)

(** [RawDocumentQuery.addParameter]: the value goes into the table under
    the name the caller chose, as it is. *)
Definition addParameter (name : string) (value : JsValue)
  : M DocumentQuery unit :=
  modify (set_queryParameters (λ ps, <[name := value]> ps)).

(** ** Commands

    The class [RavenCommand].  The values of its query-string parameters
    and of its payload are any values ([V]); a server node is an object,
    a set of nodes holds references. *)

Module RavenCommand.
(** [String.prototype.replace(pattern, '')] with a string pattern: the
    first occurrence of the pattern is taken out. *)
Fixpoint stripPrefix (pattern s : string) : option string :=
  match pattern, s with
  | EmptyString, _ => Some s
  | String a pattern', String b s' =>
    if bool_decide (a = b) then stripPrefix pattern' s' else None
  | String _ _, EmptyString => None
  end.

Fixpoint removeFirst (pattern s : string) : string :=
  match stripPrefix pattern s with
  | Some rest => rest
  | None =>
    match s with
    | EmptyString => EmptyString
    | String c s' => String c (removeFirst pattern s')
    end
  end.

Record ServerNode : Type := {
  ref : nat;
  url : string
}.

(** Modelled from the spec: [RequestMethods.Get] (Http/Request is not
    part of the sources at hand), "HTTP method (default GET)". *)
Definition Get : string := "GET".

Section Command.
Context {V Response : Type}.

Record t : Type := mk {
  _method : string;
  endPoint : string;
  params : gmap string V;
  payload : option (gmap string V);
  headers : gmap string string;
  failedNodes : gset nat;
  _lastResponse : option Response
}.

(** The constructor: [method] and [headers] have default values,
    [params || {}]. *)
Definition new (endPoint : string) (method : option string)
    (params payload : option (gmap string V))
    (headers : option (gmap string string)) : t :=
  {| _method := default Get method;
     endPoint := endPoint;
     params := default ∅ params;
     payload := payload;
     headers := default ∅ headers;
     failedNodes := ∅;
     _lastResponse := None |}.

Definition serverResponse (c : t) : option Response := _lastResponse c.

Definition method (c : t) : string := _method c.

Definition wasFailed (c : t) : bool :=
  let nodes := failedNodes c in
  bool_decide (0 < size nodes).

Definition addFailedNode (node : ServerNode) : M t unit :=
  modify (λ c, mk (_method c) (endPoint c) (params c) (payload c)
                  (headers c) ({[ref node]} ∪ failedNodes c)
                  (_lastResponse c)).

Definition wasFailedWithNode (node : ServerNode) (c : t) : bool :=
  let nodes := failedNodes c in
  wasFailed c && bool_decide (ref node ∈ nodes).

Definition pathWithNode (node : ServerNode) (c : t) : string :=
  removeFirst (url node) (endPoint c).

(** The options handed to the transport. *)
Record RequestOptions : Type := {
  json : bool;
  uri : string;
  ro_method : string;
  ro_headers : gmap string string;
  resolveWithFullResponse : bool;
  arrayFormat : string;
  strictNullHandling : bool;
  qs : option (gmap string V);
  body : option (gmap string V)
}.

(** [!TypeUtil.isNull(target) && !_.isEmpty(target)] *)
Definition check (target : option (gmap string V)) : bool :=
  match target with
  | Some target => negb (bool_decide (target = ∅))
  | None => false
  end.

Definition toRequestOptions (c : t) : RequestOptions :=
  let params := params c in
  let payload := payload c in
  {| json := true;
     uri := endPoint c;
     ro_method := _method c;
     ro_headers := headers c;
     resolveWithFullResponse := true;
     arrayFormat := "repeat";
     strictNullHandling := true;
     qs := if check (Some params) then Some params else None;
     body := if check payload then payload else None |}.

(** The validation of a response ([ExceptionsFactory.throwFrom]), its
    body and the truth value of a body; none of them is part of the
    sources at hand. *)
Variable throwFrom : Response → option RavenException.
Variable bodyOf : Response → V.
Variable truthy : V → bool.

(** [setResponse]: the response is stored while the argument of
    [throwFrom] is evaluated. *)
Definition setResponse (response : Response) : M t (option V) :=
  modify (λ c, mk (_method c) (endPoint c) (params c) (payload c)
                  (headers c) (failedNodes c) (Some response));;
  match throwFrom response with
  | Some e => lift (Throw e)
  | None =>
    if truthy (bodyOf response) then mret (Some (bodyOf response))
    else mret None
  end.

(** The first argument of [addParams]: null, a name or an object. *)
Inductive ParamsArgument : Type :=
| NoParams
| ParamName (name : string)
| ParamsObject (object : gmap string V).

Definition set_params (f : gmap string V → gmap string V) (c : t) : t :=
  mk (_method c) (endPoint c) (f (params c)) (payload c) (headers c)
     (failedNodes c) (_lastResponse c).

Definition addParams (params : ParamsArgument) (value : V) : M t unit :=
  match params with
  | NoParams => mret tt
  | ParamName name => modify (set_params (λ ps, {[name := value]} ∪ ps))
  | ParamsObject object => modify (set_params (λ ps, object ∪ ps))
  end.

(** The first argument of [removeParams]: an array of names or a name. *)
Inductive NamesArgument : Type :=
| NameArray (names : list string)
| OneName (name : string).

Definition removeParams (params : NamesArgument) (otherParams : list string)
  : M t unit :=
  let paramsToRemove :=
    match params with
    | NameArray names => names
    | OneName name => [name] ++ otherParams
    end in
  modify (set_params (λ ps, foldl (λ ps param, delete param ps)
                                  ps paramsToRemove)).
End Command.

Arguments t : clear implicits.
Arguments RequestOptions : clear implicits.
Arguments ParamsArgument : clear implicits.
End RavenCommand.

(** ** Notions for the statements *)

(** Induction over values that goes through nested arrays. *)
Section JsValueInduction.
Variable P : JsValue → Prop.
Hypothesis Hleaf : ∀ value, TypeUtil.isArray value = false → P value.
Hypothesis Harray : ∀ items, Forall P items → P (JArray items).

Fixpoint JsValue_array_ind (value : JsValue) : P value :=
  match value with
  | JArray items =>
    Harray items
      ((fix all (l : list JsValue) : Forall P l :=
          match l with
          | [] => List.Forall_nil P
          | x :: rest =>
            List.Forall_cons P x rest (JsValue_array_ind x) (all rest)
          end) items)
  | JNull => Hleaf JNull eq_refl
  | JBool b => Hleaf (JBool b) eq_refl
  | JNumber n => Hleaf (JNumber n) eq_refl
  | JString s => Hleaf (JString s) eq_refl
  | JDate t => Hleaf (JDate t) eq_refl
  | JObject props => Hleaf (JObject props) eq_refl
  | JFunction name => Hleaf (JFunction name) eq_refl
  | JSymbol description => Hleaf (JSymbol description) eq_refl
  end.
End JsValueInduction.

(** The table of a typed query holds exactly the names [p0], [p1], ...
    up to its size: [addQueryParameter] is its only writer. *)
Definition params_wf (ps : gmap string JsValue) : Prop :=
  dom ps = list_to_set (parameterName <$> seq 0 (size ps)).

#[global] Instance params_wf_dec ps : Decision (params_wf ps).
Proof. unfold params_wf. apply _. Defined.

(** The values the transform accepts: null, booleans, numbers, strings
    and dates. *)
Definition isConditionValue (value : JsValue) : bool :=
  match value with
  | JNull | JBool _ | JNumber _ | JString _ | JDate _ => true
  | JArray _ | JObject _ | JFunction _ | JSymbol _ => false
  end.

(** Unfolds a method of the fluent surface into its steps. *)
Ltac run_method :=
  unfold whereEquals, whereNotEquals, whereIn, whereStartsWith, whereEndsWith,
    whereBetween, whereGreaterThan, whereGreaterThanOrEqual, whereLessThan,
    whereLessThanOrEqual, containsAny, containsAll, selectFields,
    transformOr, addQueryParameter, builderCall, modify, lift,
    mbind, M_bind, mret, M_ret; simpl.

(** The query after [addQueryParameter(v)] has run on it. *)
Definition bound (v : JsValue) (q : DocumentQuery) : DocumentQuery :=
  set_queryParameters
    (λ ps, <[parameterName (size (queryParameters q)) := v]> ps) q.

(** The query after the builder has received [call]. *)
Definition called (call : BuilderCall) (q : DocumentQuery) : DocumentQuery :=
  set_builder (λ calls, calls ++ [call]) q.

(** What a range method binds for an endpoint: the preset sentinel for a
    null endpoint, the transform of any other endpoint. *)
Inductive bound_as (stringify : Z → string) (sentinel fieldName : string)
    (exact : option bool) : JsValue → JsValue → Prop :=
| bound_as_sentinel :
    bound_as stringify sentinel fieldName exact JNull (JString sentinel)
| bound_as_transform (value transformed : JsValue) :
    value ≠ JNull →
    transformValue stringify
      {| fieldName := fieldName; value := value; exact := exact;
         allowWildcards := None |} = Normal transformed →
    bound_as stringify sentinel fieldName exact value transformed.

(** The descriptor [getIndexQuery] builds from the rendered [text]. *)
Definition indexQueryOf (text : string) (q : DocumentQuery) : IndexQuery :=
  {| iq_query := text;
     iq_queryParameters := toJson (queryParameters q);
     iq_take := default TypeUtil.MAX_INT32 (_take q);
     iq_skip := default 0%Z (_skip q);
     iq_options := indexQueryOptions q |}.

(** The query while a terminal method runs: paging and statistics are
    overwritten. *)
Definition forced (take : Z) (statistics : option bool) (q : DocumentQuery)
  : DocumentQuery :=
  set_withStatistics statistics (set_skip (Some 0%Z) (set_take (Some take) q)).

(** The run after [effects'] have been added to its effects. *)
Definition after {T} (effects' : list (Effect T)) (w : QueryRun T)
  : QueryRun T :=
  {| this := this w; effects := effects w ++ effects' |}.

(** The run with another query object. *)
Definition with_this {T} (q : DocumentQuery) (w : QueryRun T) : QueryRun T :=
  {| this := q; effects := effects w |}.

(** What [executeQuery] makes of the answer of the request executor. *)
Definition envelopeOf (answer : Settled (option IRavenResponse))
  : Settled IRavenResponse :=
  match answer with
  | Fulfilled None =>
    Fulfilled {| Results := []; Includes := []; TotalResults := None;
                 IsStale := None |}
  | Fulfilled (Some response) =>
    if bool_decide (IsStale response = Some true)
    then Rejected (ErrorResponseException staleIndexMessage)
    else Fulfilled response
  | Rejected e => Rejected e
  end.

(** The conversion results of the raw documents that are not projections,
    in the order of the documents. *)
Definition fetchedDocuments {T} (conventions : DocumentConventions T)
    (docs : list JsValue) (convs : list (IDocumentConversionResult T))
  : list (IDocumentConversionResult T) :=
  (filter (λ rc, checkIsProjection conventions rc.1 = false) (zip docs convs)).*2.

(** A computation that leaves the query object alone. *)
Definition preserves_this {T A} (c : M (QueryRun T) A) : Prop :=
  ∀ w, this (c w).2 = this w.

(** Every raw document of [docs] converts, to the conversion result at
    the same place in [convs]. *)
Definition converted {T} (conventions : DocumentConventions T)
    (q : DocumentQuery) (docs : list JsValue)
    (convs : list (IDocumentConversionResult T)) : Prop :=
  Forall2 (λ raw c, convertToDocument conventions raw (documentType q)
                      (nestedObjectTypes q) = Normal c) docs convs.

(** The notification for the side-loaded documents. *)
Definition includesFetched {T} (includes : list JsValue) : list (Effect T) :=
  if bool_decide (includes ≠ []) then [EmitIncludesFetched includes] else [].

(** The outcome of [single] by the number of entities. *)
Definition singleOutcome {T} (results : list T) : Settled (option T) :=
  match results with
  | [] => Rejected (InvalidOperationException noResultsMessage)
  | [entity] => Fulfilled (Some entity)
  | _ :: _ :: _ => Rejected (InvalidOperationException moreThanOneResultMessage)
  end.

(** A call of a chainable member of the typed query, the members it
    inherits from the query base included, to speak of every method at
    once and of chains of calls. *)
Inductive FluentCall : Type :=
| CallWaitForNonStaleResults
| CallWaitForNonStaleResultsAsOf (cutOffEtag : Z) (waitTimeout : option Z)
| CallWaitForNonStaleResultsAsOfNow (waitTimeout : option Z)
| CallTake (docsCount : Z)
| CallSkip (skipCount : Z)
| CallNot
| CallSelectFields (fields : list string) (projections : option (list string))
| CallRandomOrdering (seed : option string)
| CallCustomSortUsing (typeName : string) (descending : option bool)
| CallInclude (path : string)
| CallUsingDefaultOperator (operator : QueryOperator)
| CallWhereEquals (args : WhereArgs)
| CallWhereNotEquals (args : WhereArgs)
| CallOpenSubclause
| CallCloseSubclause
| CallNegateNext
| CallWhereIn (fieldName : string) (values : list JsValue)
    (exact : option bool)
| CallWhereStartsWith (fieldName : string) (value : JsValue)
| CallWhereEndsWith (fieldName : string) (value : JsValue)
| CallWhereBetween (fieldName : string) (start end_ : JsValue)
    (exact : option bool)
| CallWhereGreaterThan (fieldName : string) (value : JsValue)
    (exact : option bool)
| CallWhereGreaterThanOrEqual (fieldName : string) (value : JsValue)
    (exact : option bool)
| CallWhereLessThan (fieldName : string) (value : JsValue)
    (exact : option bool)
| CallWhereLessThanOrEqual (fieldName : string) (value : JsValue)
    (exact : option bool)
| CallWhereExists (fieldName : string)
| CallAndAlso
| CallOrElse
| CallBoost (boost : Z)
| CallFuzzy (fuzzy : Z)
| CallProximity (proximity : Z)
| CallOrderBy (field : string) (ordering : option OrderingType)
| CallOrderByDescending (field : string) (ordering : option OrderingType)
| CallOrderByScore
| CallOrderByScoreDescending
| CallSearch (fieldName : string) (searchTerms : JsValue)
    (operator : option SearchOperator)
| CallIntersect
| CallDistinct
| CallContainsAny (fieldName : string) (values : list JsValue)
| CallContainsAll (fieldName : string) (values : list JsValue)
| CallGroupBy (fieldName : string) (fieldNames : list string)
| CallGroupByKey (fieldName : string) (projectedName : option string)
| CallGroupBySum (fieldName : string) (projectedName : option string)
| CallGroupByCount (projectedName : option string)
| CallWhereTrue
| CallWithinRadiusOf (fieldName : string) (radius latitude longitude : JsValue)
    (radiusUnits : option SpatialUnit) (distErrorPercent : option Z)
| CallSpatial (fieldName : string) (shapeWktOrCriteria : SpatialArgument)
    (relation : option SpatialRelation) (distErrorPercent : option Z)
| CallOrderByDistance (fieldName : string) (latitudeOrShapeWkt : JsValue)
    (longitude : option JsValue)
| CallOrderByDistanceDescending (fieldName : string)
    (latitudeOrShapeWkt : JsValue) (longitude : option JsValue).

Section Chains.
Variable stringify : Z → string.
Variable DefaultTimeout : JsValue.

Definition runCall (c : FluentCall) : M DocumentQuery unit :=
  match c with
  | CallWaitForNonStaleResults =>
    DocumentQueryBase.waitForNonStaleResults DefaultTimeout
  | CallWaitForNonStaleResultsAsOf etag timeout =>
    DocumentQueryBase.waitForNonStaleResultsAsOf DefaultTimeout etag timeout
  | CallWaitForNonStaleResultsAsOfNow timeout =>
    DocumentQueryBase.waitForNonStaleResultsAsOfNow DefaultTimeout timeout
  | CallTake n => DocumentQueryBase.take n
  | CallSkip n => DocumentQueryBase.skip n
  | CallNot => not_
  | CallSelectFields fields projections => selectFields fields projections
  | CallRandomOrdering seed => randomOrdering seed
  | CallCustomSortUsing typeName descending =>
    customSortUsing typeName descending
  | CallInclude path => include path
  | CallUsingDefaultOperator operator => usingDefaultOperator operator
  | CallWhereEquals args => whereEquals stringify args
  | CallWhereNotEquals args => whereNotEquals stringify args
  | CallOpenSubclause => openSubclause
  | CallCloseSubclause => closeSubclause
  | CallNegateNext => negateNext
  | CallWhereIn f values e => whereIn stringify f values e
  | CallWhereStartsWith f v => whereStartsWith stringify f v
  | CallWhereEndsWith f v => whereEndsWith stringify f v
  | CallWhereBetween f s e x => whereBetween stringify f s e x
  | CallWhereGreaterThan f v x => whereGreaterThan stringify f v x
  | CallWhereGreaterThanOrEqual f v x =>
    whereGreaterThanOrEqual stringify f v x
  | CallWhereLessThan f v x => whereLessThan stringify f v x
  | CallWhereLessThanOrEqual f v x => whereLessThanOrEqual stringify f v x
  | CallWhereExists f => whereExists f
  | CallAndAlso => andAlso
  | CallOrElse => orElse
  | CallBoost n => boost n
  | CallFuzzy n => fuzzy n
  | CallProximity n => proximity n
  | CallOrderBy f o => orderBy f o
  | CallOrderByDescending f o => orderByDescending f o
  | CallOrderByScore => orderByScore
  | CallOrderByScoreDescending => orderByScoreDescending
  | CallSearch f terms operator => search f terms operator
  | CallIntersect => intersect
  | CallDistinct => distinct
  | CallContainsAny f values => containsAny stringify f values
  | CallContainsAll f values => containsAll stringify f values
  | CallGroupBy f fs => groupBy f fs
  | CallGroupByKey f p => groupByKey f p
  | CallGroupBySum f p => groupBySum f p
  | CallGroupByCount p => groupByCount p
  | CallWhereTrue => whereTrue
  | CallWithinRadiusOf f radius latitude longitude units percent =>
    withinRadiusOf f radius latitude longitude units percent
  | CallSpatial f argument relation percent =>
    spatial f argument relation percent
  | CallOrderByDistance f latitudeOrShapeWkt longitude =>
    orderByDistance f latitudeOrShapeWkt longitude
  | CallOrderByDistanceDescending f latitudeOrShapeWkt longitude =>
    orderByDistanceDescending f latitudeOrShapeWkt longitude
  end.

(** A chain [query.m1(...).m2(...)...]: the first call that throws ends
    it. *)
Fixpoint runCalls (cs : list FluentCall) : M DocumentQuery unit :=
  match cs with
  | [] => mret tt
  | c :: cs => runCall c;; runCalls cs
  end.
End Chains.

(** The calls that set the paging, and those that set the freshness
    options. *)
Definition isTake (c : FluentCall) : bool :=
  match c with CallTake _ => true | _ => false end.

Definition isSkip (c : FluentCall) : bool :=
  match c with CallSkip _ => true | _ => false end.

Definition isFreshness (c : FluentCall) : bool :=
  match c with
  | CallWaitForNonStaleResults | CallWaitForNonStaleResultsAsOf _ _
  | CallWaitForNonStaleResultsAsOfNow _ => true
  | _ => false
  end.

(** The methods of the query base among the calls. *)
Definition isBaseCall (c : FluentCall) : bool :=
  isTake c || isSkip c || isFreshness c.

(** The parameter names a builder call refers to. *)
Definition operands (c : BuilderCall) : list string :=
  match c with
  | BWhereEquals p | BWhereNotEquals p => [pw_parameterName p]
  | BWhereIn _ n _ | BWhereAllIn _ n | BWhereStartsWith _ n
  | BWhereEndsWith _ n | BWhereGreaterThan _ n _
  | BWhereGreaterThanOrEqual _ n _ | BWhereLessThan _ n _
  | BWhereLessThanOrEqual _ n _ | BSearch _ n _ | BSpatial _ n _ _ => [n]
  | BWhereBetween _ a b _ => [a; b]
  | BWithinRadiusOf _ a b c _ _ => [a; b; c]
  | BSpatialCriteria _ _ names => names
  | BOrderByDistance _ a b | BOrderByDistanceDescending _ a b =>
    a :: option_list b
  | BSelectFields _ _ | BOpenSubclause | BCloseSubclause | BNegateNext
  | BRawQuery _ | BRandomOrdering _ | BCustomSortUsing _ _ | BInclude _
  | BUsingDefaultOperator _ | BWhereExists _ | BAndAlso | BOrElse
  | BBoost _ | BFuzzy _ | BProximity _ | BOrderBy _ _
  | BOrderByDescending _ _ | BOrderByScore | BOrderByScoreDescending
  | BIntersect | BDistinct | BGroupBy _ | BGroupByKey _ _
  | BGroupBySum _ _ | BGroupByCount _ | BWhereTrue => []
  end.

(** Every parameter name the builder has been handed is bound in the
    table. *)
Definition operands_bound (q : DocumentQuery) : Prop :=
  ∀ c n, c ∈ _builder q → n ∈ operands c →
         is_Some (queryParameters q !! n).

(** The members of the query that no chainable method writes. *)
Definition fixedSettings (q : DocumentQuery)
  : option bool * option string * gmap string string
    * option string * option string :=
  (withStatistics q, documentType q, nestedObjectTypes q, _indexName q,
   _collectionName q).

(** The query after [addQueryParameter] has run on each of [vs] in turn,
    and the names these runs hand back. *)
Definition boundAll (vs : list JsValue) (q : DocumentQuery) : DocumentQuery :=
  foldl (λ q v, bound v q) q vs.

Fixpoint boundNames (vs : list JsValue) (q : DocumentQuery) : list string :=
  match vs with
  | [] => []
  | v :: vs => parameterName (size (queryParameters q))
                 :: boundNames vs (bound v q)
  end.

(** What one call of a method of the typed query itself can make of the
    query [q]: nothing, or one builder call over fresh bindings, whose
    names are the operands of the builder call. *)
Inductive call_outcome (q : DocumentQuery)
  : Completion unit * DocumentQuery → Prop :=
| outcome_throw :
    call_outcome q (Throw (InvalidArgumentException invalidValueMessage), q)
| outcome_skip : call_outcome q (Normal tt, q)
| outcome_binds c vs :
    operands c = boundNames vs q →
    call_outcome q (Normal tt, called c (boundAll vs q)).

(** The values the transform hands back: null, booleans, numbers and
    strings. *)
Definition isPrimitiveOrNull (value : JsValue) : bool :=
  match value with
  | JNull | JBool _ | JNumber _ | JString _ => true
  | _ => false
  end.

(** ** Collaborators to run the definitions with *)

(** Modelled from the spec: [QueryBuilder.toString] (the class is not part
    of the sources at hand), as far as the spec describes it: "subclause
    nesting depth (must return to zero before render)" and "unbalanced
    nesting is a caller error surfaced at render time".  The text of a well
    nested query is left to [text]. *)
Definition clauseDepth (calls : list BuilderCall) : Z :=
  foldl (λ depth call,
           match call with
           | BOpenSubclause => (depth + 1)%Z
           | BCloseSubclause => (depth - 1)%Z
           | _ => depth
           end) 0%Z calls.

Definition QueryBuilder_toString (text : list BuilderCall → string)
    (calls : list BuilderCall) : Completion string :=
  if bool_decide (clauseDepth calls = 0%Z) then Normal (text calls)
  else Throw (InvalidOperationException "A clause was not closed correctly within this query").

(** A date printed as its time value, and a text that only names the
    number of calls: enough to evaluate the query layer. *)
Definition exampleStringify (time : Z) : string := pretty time.

Definition exampleText (calls : list BuilderCall) : string :=
  "from @all_docs /" +:+ pretty (length calls).

(** Entities that are the property lists of their raw documents. *)
Definition exampleEntity : Type := list (string * JsValue).

(** Conventions over these entities: a raw document converts when it is
    an object, and it is a projection when it carries the property
    [@projection]. *)
Definition exampleConventions : DocumentConventions exampleEntity :=
  {| tryFetchResults := Results;
     tryFetchIncludes := Includes;
     convertToDocument := λ raw _ _,
       match raw with
       | JObject props =>
         Normal {| document := props; rawEntity := raw; metadata := JNull |}
       | _ => Throw (OtherException "Cannot convert a value that is not an object")
       end;
     checkIsProjection := λ raw,
       match raw with
       | JObject props => bool_decide ("@projection" ∈ props.*1)
       | _ => false
       end |}.

(** A run that starts on the query [q] with nothing emitted yet. *)
Definition exampleRun (q : DocumentQuery) : QueryRun exampleEntity :=
  {| this := q; effects := [] |}.

(** Two raw documents, the second one a projection. *)
Definition rex : JsValue := JObject [("name", JString "Rex")].
Definition bo : JsValue :=
  JObject [("@projection", JBool true); ("name", JString "Bo")].

(** An execution layer that holds [docs] and answers a query with the
    page it asks for. *)
Definition exampleServer (docs includes : list JsValue) (query : IndexQuery)
  : Settled (option IRavenResponse) :=
  Fulfilled (Some
    {| Results := take (Z.to_nat (iq_take query))
                       (drop (Z.to_nat (iq_skip query)) docs);
       Includes := includes;
       TotalResults := Some (Z.of_nat (length docs));
       IsStale := Some false |}).

(** * Properties *)

(** ** Nested arrays *)

Lemma unpack_foldl_app (f : JsValue → list JsValue) (values acc : list JsValue) :
  foldl (λ result v, result ++ f v) acc values
  = acc ++ foldl (λ result v, result ++ f v) [] values.
Proof.
  revert acc. induction values as [|v values IH]; intros acc; simpl.
  - by rewrite app_nil_r.
  - rewrite IH, (IH (f v)). by rewrite app_assoc.
Qed.

Lemma unpackValuesArray_nested (values : list JsValue) :
  unpackValuesArray values
  = foldl (λ result v, result ++ unpackNested v) [] values.
Proof.
  unfold unpackValuesArray.
  cut (∀ acc,
    foldl (λ result value,
             if TypeUtil.isArray value then result ++ unpackNested value
             else result ++ [value]) acc values
    = foldl (λ result v, result ++ unpackNested v) acc values); [done|].
  induction values as [|v values IH]; intros acc; simpl; [done|].
  rewrite <- IH. by destruct v.
Qed.

(** The recursive call on a nested array is [unpackValuesArray] itself. *)
Lemma unpackNested_array (items : list JsValue) :
  unpackNested (JArray items) = unpackValuesArray items.
Proof. by rewrite unpackValuesArray_nested. Qed.

Lemma unpackNested_leaf (value : JsValue) :
  TypeUtil.isArray value = false → unpackNested value = [value].
Proof. by destruct value. Qed.

Lemma unpackValuesArray_cons (value : JsValue) (values : list JsValue) :
  unpackValuesArray (value :: values)
  = unpackNested value ++ unpackValuesArray values.
Proof.
  rewrite !unpackValuesArray_nested. simpl.
  by rewrite unpack_foldl_app.
Qed.

Lemma unpackNested_flat (value : JsValue) :
  Forall (λ v, TypeUtil.isArray v = false) (unpackNested value).
Proof.
  induction value as [value Hv|items IH] using JsValue_array_ind.
  - rewrite unpackNested_leaf by done. by constructor.
  - rewrite unpackNested_array.
    induction IH as [|x rest Hx _ IHrest]; [by constructor|].
    rewrite unpackValuesArray_cons. by apply Forall_app.
Qed.

(** No array is left in the unpacked list, however deep the nesting. *)
Lemma unpackValuesArray_flat (values : list JsValue) :
  Forall (λ v, TypeUtil.isArray v = false) (unpackValuesArray values).
Proof. rewrite <- unpackNested_array. apply unpackNested_flat. Qed.

(** Values without nested arrays are left as they are. *)
Lemma unpackValuesArray_of_flat (values : list JsValue) :
  Forall (λ v, TypeUtil.isArray v = false) values →
  unpackValuesArray values = values.
Proof.
  induction 1 as [|v values Hv _ IH]; [done|].
  rewrite unpackValuesArray_cons, IH, unpackNested_leaf; done.
Qed.

(** ** The parameter table *)

#[global] Instance parameterName_inj : Inj (=) (=) parameterName.
Proof.
  intros i j H. unfold parameterName in H. simpl in H.
  injection H as H. by apply (inj pretty).
Qed.

Lemma params_wf_empty : params_wf ∅.
Proof. unfold params_wf. by rewrite dom_empty_L, map_size_empty. Qed.

Lemma params_wf_lookup (ps : gmap string JsValue) (name : string) :
  params_wf ps →
  is_Some (ps !! name) ↔ ∃ i, (i < size ps)%nat ∧ name = parameterName i.
Proof.
  intros Hwf. rewrite <- elem_of_dom, Hwf, elem_of_list_to_set,
    list_elem_of_fmap.
  split.
  - intros (i & -> & Hi). apply elem_of_seq in Hi. exists i. split; [lia|done].
  - intros (i & Hi & ->). exists i. split; [done|]. apply elem_of_seq. lia.
Qed.

(** The next name is not in use. *)
Lemma params_wf_fresh (ps : gmap string JsValue) :
  params_wf ps → ps !! parameterName (size ps) = None.
Proof.
  intros Hwf. apply eq_None_not_Some. intros Hsome.
  apply params_wf_lookup in Hsome as (i & Hi & Heq); [|done].
  apply (inj parameterName) in Heq. lia.
Qed.

Lemma params_wf_insert (ps : gmap string JsValue) (v : JsValue) :
  params_wf ps →
  size (<[parameterName (size ps) := v]> ps) = S (size ps) ∧
  params_wf (<[parameterName (size ps) := v]> ps).
Proof.
  intros Hwf. pose proof (params_wf_fresh ps Hwf) as Hfresh.
  assert (Hsize : size (<[parameterName (size ps) := v]> ps) = S (size ps))
    by by apply map_size_insert_None.
  split; [done|]. unfold params_wf.
  rewrite Hsize, dom_insert_L, Hwf, seq_S, fmap_app, list_to_set_app_L.
  simpl. rewrite (right_id_L ∅ (∪)). apply (comm_L (∪)).
Qed.

(** ** The value transform *)

Section ValueTransformFacts.
Variable stringify : Z → string.

Lemma transformValue_null (wp : WhereParams) :
  value wp = JNull → transformValue stringify wp = Normal JNull.
Proof. unfold transformValue. by intros ->. Qed.

Lemma transformValue_empty_string (wp : WhereParams) :
  value wp = JString "" → transformValue stringify wp = Normal (JString "").
Proof. unfold transformValue. by intros ->. Qed.

Lemma transformValue_date (wp : WhereParams) (time : Z) :
  value wp = JDate time →
  transformValue stringify wp = Normal (JString (stringify time)).
Proof. unfold transformValue. by intros ->. Qed.

Lemma transformValue_primitive (wp : WhereParams) :
  typeof (value wp) ∈ ["boolean"; "number"; "string"] →
  transformValue stringify wp = Normal (value wp).
Proof.
  unfold transformValue. intros Htype.
  rewrite !elem_of_cons, elem_of_nil in Htype.
  destruct (value wp) as [|b|n|s|t|items|props|name|description]; simpl in *;
    try done; try by intuition discriminate.
  by destruct s.
Qed.

Lemma transformValue_invalid (wp : WhereParams) :
  isConditionValue (value wp) = false →
  transformValue stringify wp
  = Throw (InvalidArgumentException invalidValueMessage).
Proof. unfold transformValue. by destruct (value wp). Qed.

Lemma transformValue_valid (wp : WhereParams) :
  isConditionValue (value wp) = true →
  ∃ transformed, transformValue stringify wp = Normal transformed
                 ∧ isConditionValue transformed = true.
Proof.
  unfold transformValue.
  destruct (value wp) as [|b|n|s|t|items|props|name|description]; try done; eauto.
  intros _. destruct s; simpl; eauto.
Qed.

(** The transform knows one error only. *)
Lemma transformValue_error (wp : WhereParams) (e : RavenException) :
  transformValue stringify wp = Throw e →
  e = InvalidArgumentException invalidValueMessage.
Proof.
  destruct (isConditionValue (value wp)) eqn:Hv.
  - apply transformValue_valid in Hv as (t & -> & _). done.
  - rewrite transformValue_invalid by done. congruence.
Qed.

(** One unsupported value among the unpacked ones makes the whole
    transform fail. *)
Lemma transformValuesLoop_invalid (fieldName : string)
    (unpacked result : list JsValue) (v : JsValue) :
  v ∈ unpacked → isConditionValue v = false →
  transformValuesLoop stringify fieldName unpacked result
  = Throw (InvalidArgumentException invalidValueMessage).
Proof.
  intros Hin Hv. revert result.
  induction unpacked as [|x unpacked IH]; intros result;
    [by apply elem_of_nil in Hin|].
  simpl. destruct (transformValue _ _) as [t|e] eqn:Ht.
  - apply elem_of_cons in Hin as [->|Hin]; [|by apply IH].
    rewrite transformValue_invalid in Ht; done.
  - by apply transformValue_error in Ht as ->.
Qed.

Lemma transformValuesArray_invalid (fieldName : string)
    (values : list JsValue) (v : JsValue) :
  v ∈ unpackValuesArray values → isConditionValue v = false →
  transformValuesArray stringify fieldName values
  = Throw (InvalidArgumentException invalidValueMessage).
Proof. apply transformValuesLoop_invalid. Qed.

End ValueTransformFacts.

(** ** Filter methods *)

Section FilterMethods.
Variable stringify : Z → string.

#[local] Abbreviation invalidValue :=
  (InvalidArgumentException invalidValueMessage).

(** An endpoint of a range either is null, or its transform fails, or
    its transform succeeds. *)
Lemma transformOr_cases (sentinel fieldName : string) (value : JsValue)
    (exact : option bool) (q : DocumentQuery) :
  (∃ r, transformOr stringify sentinel fieldName value exact q = (Normal r, q))
  ∨ transformOr stringify sentinel fieldName value exact q
    = (Throw invalidValue, q).
Proof.
  unfold transformOr. destruct (TypeUtil.isNull value); [left; by eexists|].
  unfold lift. destruct (transformValue _ _) as [r|e] eqn:Ht.
  - left. by eexists.
  - right. by apply transformValue_error in Ht as ->.
Qed.

Lemma transformOr_invalid (sentinel fieldName : string) (value : JsValue)
    (exact : option bool) (q : DocumentQuery) :
  isConditionValue value = false →
  transformOr stringify sentinel fieldName value exact q
  = (Throw invalidValue, q).
Proof.
  intros Hv. unfold transformOr, lift.
  rewrite transformValue_invalid by done. by destruct value.
Qed.

(** C6 (as the code has it).  A value that is neither null nor a
    boolean, a number, a string or a date makes each of the twelve
    methods that take a condition value fail with the invalid-value
    error, and the query is left exactly as it was: no parameter is
    registered and the builder receives no call.  For the set methods
    the values in question are those of the unpacked array.  The other
    methods that take a value, [search], [withinRadiusOf], [spatial] with
    a shape and the [orderByDistance] pair, do not run the transform:
    they bind what they are given under the next free name and hand the
    name to the builder, without an error.  The transform hands back null
    for null, the empty string for the empty string, the canonical string
    of a date, and booleans, numbers and strings unchanged. *)
Theorem invalid_value_fails_without_mutation (v : JsValue)
    (Hv : isConditionValue v = false) :
  (∀ wp, value wp = v → transformValue stringify wp = Throw invalidValue) ∧
  (∀ (q : DocumentQuery) (f : string) (other : JsValue) (e : option bool),
     whereEquals stringify (WherePositional f v e) q = (Throw invalidValue, q) ∧
     whereNotEquals stringify (WherePositional f v e) q
       = (Throw invalidValue, q) ∧
     (∀ wp, value wp = v →
        whereEquals stringify (WhereStructured wp) q = (Throw invalidValue, q) ∧
        whereNotEquals stringify (WhereStructured wp) q
          = (Throw invalidValue, q)) ∧
     whereStartsWith stringify f v q = (Throw invalidValue, q) ∧
     whereEndsWith stringify f v q = (Throw invalidValue, q) ∧
     whereBetween stringify f v other e q = (Throw invalidValue, q) ∧
     whereBetween stringify f other v e q = (Throw invalidValue, q) ∧
     whereGreaterThan stringify f v e q = (Throw invalidValue, q) ∧
     whereGreaterThanOrEqual stringify f v e q = (Throw invalidValue, q) ∧
     whereLessThan stringify f v e q = (Throw invalidValue, q) ∧
     whereLessThanOrEqual stringify f v e q = (Throw invalidValue, q) ∧
     (∀ values, v ∈ unpackValuesArray values →
        whereIn stringify f values e q = (Throw invalidValue, q) ∧
        containsAny stringify f values q = (Throw invalidValue, q) ∧
        containsAll stringify f values q = (Throw invalidValue, q))) ∧
  (∀ (q : DocumentQuery) (f : string) (operator : option SearchOperator)
     (latitude longitude : JsValue) (units : option SpatialUnit)
     (relation : option SpatialRelation) (percent : option Z),
     let name := parameterName (size (queryParameters q)) in
     search f v operator q
     = (Normal tt,
        called (BSearch f name (default SearchOr operator)) (bound v q)) ∧
     withinRadiusOf f v latitude longitude units percent q
     = (Normal tt,
        called
          (BWithinRadiusOf f name
             (parameterName (size (queryParameters (bound v q))))
             (parameterName
                (size (queryParameters (bound latitude (bound v q)))))
             units percent)
          (bound longitude (bound latitude (bound v q)))) ∧
     spatial f (ShapeWkt v) relation percent q
     = (Normal tt, called (BSpatial f name relation percent) (bound v q)) ∧
     orderByDistance f v None q
     = (Normal tt, called (BOrderByDistance f name None) (bound v q)) ∧
     orderByDistanceDescending f v None q
     = (Normal tt,
        called (BOrderByDistanceDescending f name None) (bound v q)) ∧
     queryParameters (bound v q) !! name = Some v) ∧
  (∀ wp, value wp = JNull → transformValue stringify wp = Normal JNull) ∧
  (∀ wp, value wp = JString "" →
     transformValue stringify wp = Normal (JString "")) ∧
  (∀ wp time, value wp = JDate time →
     transformValue stringify wp = Normal (JString (stringify time))) ∧
  (∀ wp, typeof (value wp) ∈ ["boolean"; "number"; "string"] →
     transformValue stringify wp = Normal (value wp)).
Proof.
  split; [|split; [|split]]; [| | |auto using transformValue_null,
    transformValue_empty_string, transformValue_date,
    transformValue_primitive]; [| |intros; repeat split; apply lookup_insert_eq].
  { intros wp <-. by apply transformValue_invalid. }
  intros q f other e.
  repeat split.
  - run_method. by rewrite transformValue_invalid.
  - run_method. by rewrite transformValue_invalid.
  - run_method. rewrite transformValue_invalid; congruence.
  - run_method. rewrite transformValue_invalid; congruence.
  - run_method. by rewrite transformValue_invalid.
  - run_method. by rewrite transformValue_invalid.
  - unfold whereBetween, mbind, M_bind.
    by rewrite transformOr_invalid.
  - unfold whereBetween, mbind, M_bind.
    destruct (transformOr_cases "*" f other e q) as [[r ->]| ->]; [|done].
    by rewrite transformOr_invalid.
  - unfold whereGreaterThan, mbind, M_bind. by rewrite transformOr_invalid.
  - unfold whereGreaterThanOrEqual, mbind, M_bind.
    by rewrite transformOr_invalid.
  - unfold whereLessThan, mbind, M_bind. by rewrite transformOr_invalid.
  - unfold whereLessThanOrEqual, mbind, M_bind.
    by rewrite transformOr_invalid.
  - run_method. by erewrite transformValuesArray_invalid.
  - run_method. by erewrite transformValuesArray_invalid.
  - run_method. by erewrite transformValuesArray_invalid.
Qed.
End FilterMethods.

Lemma invalid_value_fails_without_mutation_witness :
  isConditionValue (JObject [("name", JString "x")]) = false ∧
  whereEquals exampleStringify
    (WherePositional "owner" (JObject [("name", JString "x")]) None)
    (newQuery "Dogs")
  = (Throw (InvalidArgumentException invalidValueMessage), newQuery "Dogs").
Proof.
  split; [reflexivity|].
  destruct (invalid_value_fails_without_mutation exampleStringify
              (JObject [("name", JString "x")]) eq_refl) as (_ & Hmethods & _).
  apply (Hmethods (newQuery "Dogs") "owner" JNull None).
Defined.

(** C6, as the claim words it, fails for [search]: an object passed as
    the search terms raises no error, is registered in the table under
    [p0], and the builder receives the clause. *)
Lemma search_invalid_value_counterexample :
  isConditionValue (JObject [("name", JString "x")]) = false ∧
  search "notes" (JObject [("name", JString "x")]) None (newQuery "Dogs")
  ≠ (Throw (InvalidArgumentException invalidValueMessage), newQuery "Dogs") ∧
  (search "notes" (JObject [("name", JString "x")]) None
     (newQuery "Dogs")).1 = Normal tt ∧
  queryParameters
    (search "notes" (JObject [("name", JString "x")]) None
       (newQuery "Dogs")).2 !! "p0"
  = Some (JObject [("name", JString "x")]) ∧
  _builder
    (search "notes" (JObject [("name", JString "x")]) None
       (newQuery "Dogs")).2
  = [BSearch "notes" "p0" SearchOr].
Proof.
  split; [reflexivity|]. split; [discriminate|]. split; [reflexivity|].
  split; [|reflexivity]. vm_compute. reflexivity.
Qed.

Section RangeAndSetMethods.
Variable stringify : Z → string.

Lemma transformOr_bound_as (sentinel f : string) (e : option bool)
    (v r : JsValue) (q : DocumentQuery) :
  bound_as stringify sentinel f e v r →
  transformOr stringify sentinel f v e q = (Normal r, q).
Proof.
  intros [|v' r' Hnull Ht]; unfold transformOr; [done|].
  unfold lift. rewrite Ht. by destruct v'.
Qed.

Lemma addQueryParameter_bound (v : JsValue) (q : DocumentQuery) :
  addQueryParameter v q
  = (Normal (parameterName (size (queryParameters q))), bound v q).
Proof. done. Qed.

Lemma bound_lookup (v : JsValue) (q : DocumentQuery) :
  queryParameters (bound v q) !! parameterName (size (queryParameters q))
  = Some v.
Proof. apply lookup_insert_eq. Qed.

Lemma bound_lookup_ne (v : JsValue) (q : DocumentQuery) (name : string) :
  name ≠ parameterName (size (queryParameters q)) →
  queryParameters (bound v q) !! name = queryParameters q !! name.
Proof. intros Hne. by apply lookup_insert_ne. Qed.

Lemma bound_size (v : JsValue) (q : DocumentQuery) :
  params_wf (queryParameters q) →
  size (queryParameters (bound v q)) = S (size (queryParameters q)) ∧
  params_wf (queryParameters (bound v q)).
Proof. apply params_wf_insert. Qed.

(** C1 (as the code has it).  A null lower bound is bound as the string
    ['*'] and a null upper bound as the string ['NULL']; any other endpoint
    is bound as its transform.  [whereBetween] registers the lower operand
    under the next free name and the upper operand under the name after
    it and hands both names to the builder, so the clause has two
    operands.  [whereGreaterThan] and [whereGreaterThanOrEqual] bind ['*']
    for a null value, [whereLessThan] and [whereLessThanOrEqual] bind
    ['NULL']. *)
Theorem range_methods_bind_sentinels (q : DocumentQuery) (f : string)
    (start end_ from to : JsValue) (e : option bool)
    (Hwf : params_wf (queryParameters q))
    (Hfrom : bound_as stringify "*" f e start from)
    (Hto : bound_as stringify "NULL" f e end_ to) :
  let n := size (queryParameters q) in
  whereBetween stringify f start end_ e q
  = (Normal tt,
     called (BWhereBetween f (parameterName n) (parameterName (S n)) e)
       (bound to (bound from q))) ∧
  queryParameters (bound to (bound from q)) !! parameterName n = Some from ∧
  queryParameters (bound to (bound from q)) !! parameterName (S n) = Some to ∧
  params_wf (queryParameters (bound to (bound from q))) ∧
  whereGreaterThan stringify f start e q
  = (Normal tt, called (BWhereGreaterThan f (parameterName n) e)
                  (bound from q)) ∧
  whereGreaterThanOrEqual stringify f start e q
  = (Normal tt, called (BWhereGreaterThanOrEqual f (parameterName n) e)
                  (bound from q)) ∧
  whereLessThan stringify f end_ e q
  = (Normal tt, called (BWhereLessThan f (parameterName n) e) (bound to q)) ∧
  whereLessThanOrEqual stringify f end_ e q
  = (Normal tt, called (BWhereLessThanOrEqual f (parameterName n) e)
                  (bound to q)).
Proof.
  intros n. destruct (bound_size from q Hwf) as [Hsize _].
  repeat split.
  - unfold whereBetween, mbind, M_bind.
    rewrite (transformOr_bound_as _ _ _ _ _ _ Hfrom),
      (transformOr_bound_as _ _ _ _ _ _ Hto).
    rewrite !addQueryParameter_bound. by rewrite Hsize.
  - rewrite bound_lookup_ne; [apply bound_lookup|].
    rewrite Hsize. intros Heq. apply (inj parameterName) in Heq. lia.
  - pose proof (bound_lookup to (bound from q)) as Hlookup.
    by rewrite Hsize in Hlookup.
  - apply bound_size. by apply bound_size.
  - unfold whereGreaterThan, mbind, M_bind.
    by rewrite (transformOr_bound_as _ _ _ _ _ _ Hfrom).
  - unfold whereGreaterThanOrEqual, mbind, M_bind.
    by rewrite (transformOr_bound_as _ _ _ _ _ _ Hfrom).
  - unfold whereLessThan, mbind, M_bind.
    by rewrite (transformOr_bound_as _ _ _ _ _ _ Hto).
  - unfold whereLessThanOrEqual, mbind, M_bind.
    by rewrite (transformOr_bound_as _ _ _ _ _ _ Hto).
Qed.
End RangeAndSetMethods.

Lemma range_methods_bind_sentinels_witness :
  params_wf (queryParameters (newQuery "Users")) ∧
  bound_as exampleStringify "*" "age" None JNull (JString "*") ∧
  bound_as exampleStringify "NULL" "age" None (JNumber 30) (JNumber 30) ∧
  whereBetween exampleStringify "age" JNull (JNumber 30) None (newQuery "Users")
  = (Normal tt,
     called (BWhereBetween "age" "p0" "p1" None)
       (bound (JNumber 30) (bound (JString "*") (newQuery "Users")))).
Proof.
  assert (H1 : params_wf (queryParameters (newQuery "Users")))
    by (vm_compute; reflexivity).
  assert (H2 : bound_as exampleStringify "*" "age" None JNull (JString "*"))
    by constructor.
  assert (H3 : bound_as exampleStringify "NULL" "age" None (JNumber 30)
                 (JNumber 30))
    by (constructor; [discriminate | reflexivity]).
  split; [exact H1|]. split; [exact H2|]. split; [exact H3|].
  exact (proj1 (range_methods_bind_sentinels exampleStringify
                  (newQuery "Users") "age" JNull (JNumber 30)
                  (JString "*") (JNumber 30) None H1 H2 H3)).
Defined.

(** C1, as the claim words it, fails: with a null lower bound the lower
    operand is not ['NULL'], and with a null upper bound the upper operand
    is not ['*']. *)
Lemma whereBetween_sentinels_counterexample :
  queryParameters
    (whereBetween exampleStringify "age" JNull (JNumber 30) None
       (newQuery "Users")).2 !! "p0" ≠ Some (JString "NULL") ∧
  queryParameters
    (whereBetween exampleStringify "age" (JNumber 18) JNull None
       (newQuery "Users")).2 !! "p1" ≠ Some (JString "*").
Proof. split; vm_compute; discriminate. Qed.

Section SetMethods.
Variable stringify : Z → string.

(** The loop transforms the unpacked values one by one and keeps their
    order. *)
Lemma transformValuesLoop_Forall2 (f : string)
    (unpacked result ts : list JsValue) :
  transformValuesLoop stringify f unpacked result = Normal ts →
  ∃ ts', ts = result ++ ts' ∧
    Forall2 (λ v t, transformValue stringify
                      {| fieldName := f; value := v; exact := None;
                         allowWildcards := Some true |} = Normal t)
            unpacked ts'.
Proof.
  revert result. induction unpacked as [|v unpacked IH]; intros result; simpl.
  - intros [= <-]. exists []. by rewrite app_nil_r.
  - destruct (transformValue _ _) as [t|e] eqn:Ht; [|done].
    intros (ts' & -> & Hall)%IH. exists (t :: ts'). split.
    + by rewrite <- app_assoc.
    + by constructor.
Qed.

(** [transformValuesArray] yields the transforms of the unpacked values:
    a flat list. *)
Lemma transformValuesArray_Forall2 (f : string) (values ts : list JsValue) :
  transformValuesArray stringify f values = Normal ts →
  Forall2 (λ v t, transformValue stringify
                    {| fieldName := f; value := v; exact := None;
                       allowWildcards := Some true |} = Normal t)
          (unpackValuesArray values) ts.
Proof.
  intros (ts' & -> & Hall)%transformValuesLoop_Forall2. done.
Qed.

(** [whereIn] when the values transform without error. *)
Lemma whereIn_normal (q : DocumentQuery) (f : string)
    (values ts : list JsValue) (e : option bool) :
  transformValuesArray stringify f values = Normal ts →
  whereIn stringify f values e q
  = (Normal tt,
     called (BWhereIn f (parameterName (size (queryParameters q))) e)
       (bound (JArray values) q)).
Proof. intros Ht. unfold whereIn, mbind, M_bind, lift. by rewrite Ht. Qed.

(** C2, where the code departs from it.  Whenever the values transform
    without error, [whereIn] registers the array it was given, nested as
    it is, and not the flat transformed list [ts] that it has computed;
    [containsAny] and [containsAll] register [ts]. *)
Theorem whereIn_binds_values_as_given (q : DocumentQuery) (f : string)
    (values ts : list JsValue) (e : option bool)
    (Ht : transformValuesArray stringify f values = Normal ts) :
  let n := size (queryParameters q) in
  whereIn stringify f values e q
  = (Normal tt, called (BWhereIn f (parameterName n) e)
                  (bound (JArray values) q)) ∧
  queryParameters (whereIn stringify f values e q).2 !! parameterName n
  = Some (JArray values) ∧
  (ts ≠ [] →
   containsAny stringify f values q
   = (Normal tt, called (BWhereIn f (parameterName n) None)
                   (bound (JArray ts) q)) ∧
   containsAll stringify f values q
   = (Normal tt, called (BWhereAllIn f (parameterName n))
                   (bound (JArray ts) q))).
Proof.
  intros n. pose proof (whereIn_normal q f values ts e Ht) as Hin.
  split; [done|]. split.
  - rewrite Hin. apply bound_lookup.
  - intros Hts. unfold containsAny, containsAll, mbind, M_bind, lift.
    rewrite Ht. by destruct ts.
Qed.

(** C3 (as the code has it).  When the unpacked values are empty,
    [containsAny] and [containsAll] leave the query as it was: no clause,
    no parameter.  [whereIn] has no such test: it registers a parameter
    under the next name and hands the builder an in-clause that refers to
    it. *)
Theorem empty_values_skip_clause (q : DocumentQuery) (f : string)
    (values : list JsValue) (e : option bool)
    (Hempty : unpackValuesArray values = []) :
  let n := size (queryParameters q) in
  containsAny stringify f values q = (Normal tt, q) ∧
  containsAll stringify f values q = (Normal tt, q) ∧
  ∃ q', whereIn stringify f values e q = (Normal tt, q') ∧
        _builder q' = _builder q ++ [BWhereIn f (parameterName n) e] ∧
        is_Some (queryParameters q' !! parameterName n).
Proof.
  intros n.
  assert (Ht : transformValuesArray stringify f values = Normal [])
    by (unfold transformValuesArray; by rewrite Hempty).
  repeat split.
  - unfold containsAny, mbind, M_bind, lift. by rewrite Ht.
  - unfold containsAll, mbind, M_bind, lift. by rewrite Ht.
  - eexists. split; [by apply (whereIn_normal q f values [])|].
    split; [done|].
    eexists. apply bound_lookup.
Qed.
End SetMethods.

Lemma whereIn_binds_values_as_given_witness :
  transformValuesArray exampleStringify "x"
    [JArray [JNumber 1; JNumber 2]; JNumber 3]
  = Normal [JNumber 1; JNumber 2; JNumber 3] ∧
  queryParameters
    (whereIn exampleStringify "x" [JArray [JNumber 1; JNumber 2]; JNumber 3]
       None (newQuery "Users")).2 !! parameterName 0
  = Some (JArray [JArray [JNumber 1; JNumber 2]; JNumber 3]).
Proof.
  split; [reflexivity|].
  exact (proj1 (proj2 (whereIn_binds_values_as_given exampleStringify
    (newQuery "Users") "x" [JArray [JNumber 1; JNumber 2]; JNumber 3]
    [JNumber 1; JNumber 2; JNumber 3] None eq_refl))).
Defined.

Lemma empty_values_skip_clause_witness :
  unpackValuesArray [JArray []; JArray [JArray []]] = [] ∧
  containsAny exampleStringify "x" [JArray []; JArray [JArray []]]
    (newQuery "Users")
  = (Normal tt, newQuery "Users").
Proof.
  split; [reflexivity|].
  exact (proj1 (empty_values_skip_clause exampleStringify (newQuery "Users")
    "x" [JArray []; JArray [JArray []]] None eq_refl)).
Defined.

(** C3, as the claim words it, fails for [whereIn]: with an empty array
    the builder has received a clause and the table holds a parameter. *)
Lemma whereIn_empty_counterexample :
  _builder (whereIn exampleStringify "x" [] None (newQuery "Users")).2
  ≠ _builder (newQuery "Users") ∧
  queryParameters (whereIn exampleStringify "x" [] None (newQuery "Users")).2
  ≠ queryParameters (newQuery "Users").
Proof.
  split.
  - vm_compute. discriminate.
  - intros H. apply (f_equal (λ ps, ps !! "p0")) in H. vm_compute in H.
    discriminate.
Qed.

(** C10.  The second argument of [selectFields] is dropped: with or
    without projections the query changes in the same way, and the call
    the builder receives carries the fields only. *)
Theorem selectFields_drops_projections (q : DocumentQuery)
    (fields projections : list string) :
  selectFields fields (Some projections) q = selectFields fields None q ∧
  selectFields fields (Some projections) q
  = (Normal tt, called (BSelectFields fields None) q).
Proof. done. Qed.

(** ** Execution *)

Lemma toJson_id (ps : gmap string JsValue) : toJson ps = ps.
Proof. apply list_to_map_to_list. Qed.

Lemma set_restore (q : DocumentQuery) (take : Z) (statistics : option bool) :
  set_withStatistics (withStatistics q)
    (set_skip (_skip q) (set_take (_take q) (forced take statistics q))) = q.
Proof. by destruct q. Qed.

Section Execution.
Context {T : Type}.
Variable conventions : DocumentConventions T.
Variable builderToString : list BuilderCall → Completion string.
Variable execute : IndexQuery → Settled (option IRavenResponse).

#[local] Abbreviation executeQuery' :=
  (executeQuery (T:=T) builderToString execute).

Lemma getIndexQuery_normal (w : QueryRun T) (text : string) :
  builderToString (_builder (this w)) = Normal text →
  getIndexQuery builderToString w = (Normal (indexQueryOf text (this w)), w).
Proof.
  intros H. unfold getIndexQuery, mbind, M_bind, get, lift. by rewrite H.
Qed.

Lemma getIndexQuery_throw (w : QueryRun T) (e : RavenException) :
  builderToString (_builder (this w)) = Throw e →
  getIndexQuery builderToString w = (Throw e, w).
Proof.
  intros H. unfold getIndexQuery, mbind, M_bind, get, lift. by rewrite H.
Qed.

(** Once the query text is rendered, [executeQuery] announces the query,
    submits the command and settles as [envelopeOf] tells. *)
Lemma executeQuery_normal (w : QueryRun T) (text : string) :
  builderToString (_builder (this w)) = Normal text →
  executeQuery' w
  = (Normal (envelopeOf (execute (indexQueryOf text (this w)))),
     after [EmitDocumentsQueried; ExecuteCommand (indexQueryOf text (this w))]
       w).
Proof.
  intros H. unfold executeQuery, mbind, M_bind, perform, modify. simpl.
  rewrite (getIndexQuery_normal _ text) by done. simpl.
  unfold promise_then, after, envelopeOf. simpl. rewrite <- app_assoc. simpl.
  destruct (execute _) as [[r|]|e]; try done.
  unfold mret, M_ret. by destruct (bool_decide _).
Qed.

(** When rendering the query text throws, so does [executeQuery]: no
    promise comes back. *)
Lemma executeQuery_throw (w : QueryRun T) (e : RavenException) :
  builderToString (_builder (this w)) = Throw e →
  executeQuery' w = (Throw e, after [EmitDocumentsQueried] w).
Proof.
  intros H. unfold executeQuery, mbind, M_bind, perform, modify. simpl.
  by rewrite (getIndexQuery_throw _ e).
Qed.

(** C5.  Once the command is submitted: a null answer of the execution
    layer resolves to the empty envelope (no results, no includes); an
    answer flagged stale fails with the staleness error; any other answer
    is passed on as it is. *)
Theorem executeQuery_outcomes (w : QueryRun T) (text : string)
    (Hrender : builderToString (_builder (this w)) = Normal text) :
  let query := indexQueryOf text (this w) in
  let w' := after [EmitDocumentsQueried; ExecuteCommand query] w in
  (execute query = Fulfilled None →
   executeQuery' w = (Normal (Fulfilled emptyEnvelope), w') ∧
   Results emptyEnvelope = [] ∧ Includes emptyEnvelope = []) ∧
  (∀ response, execute query = Fulfilled (Some response) →
     IsStale response = Some true →
     executeQuery' w
     = (Normal (Rejected (ErrorResponseException staleIndexMessage)), w')) ∧
  (∀ response, execute query = Fulfilled (Some response) →
     IsStale response ≠ Some true →
     executeQuery' w = (Normal (Fulfilled response), w')).
Proof.
  intros query w'. rewrite (executeQuery_normal w text Hrender).
  fold query. fold w'. split; [|split].
  - intros Hnull. by rewrite Hnull.
  - intros response -> Hstale. simpl. by rewrite bool_decide_eq_true_2.
  - intros response -> Hstale. simpl. by rewrite bool_decide_eq_false_2.
Qed.
End Execution.

(** ** Conversion *)

Section Conversion.
Context {T : Type}.
Variable conventions : DocumentConventions T.

Lemma convertEach_this (docs : list JsValue) (results : list T) :
  preserves_this (convertEach conventions docs results).
Proof.
  revert results. induction docs as [|raw docs IH]; intros results w; [done|].
  simpl. unfold mbind, M_bind, get, lift. simpl.
  destruct (convertToDocument _ _ _ _) as [c|e]; [|done].
  destruct (checkIsProjection conventions raw); simpl; by rewrite IH.
Qed.

Lemma convertEach_normal (docs : list JsValue)
    (convs : list (IDocumentConversionResult T)) (results : list T)
    (w : QueryRun T) :
  converted conventions (this w) docs convs →
  convertEach conventions docs results w
  = (Normal (results ++ (document <$> convs)),
     after (EmitDocumentFetched <$> fetchedDocuments conventions docs convs) w).
Proof.
  revert convs results w.
  induction docs as [|raw docs IH]; intros convs results w Hconv.
  - apply Forall2_nil_inv_l in Hconv as ->. simpl.
    unfold mret, M_ret, after. simpl. rewrite !app_nil_r. by destruct w.
  - apply Forall2_cons_inv_l in Hconv as (c & convs' & Hc & Hconv & ->).
    simpl. unfold mbind, M_bind, get, lift. simpl. rewrite Hc.
    unfold fetchedDocuments. simpl. rewrite filter_cons. simpl.
    destruct (checkIsProjection conventions raw) eqn:Hp; simpl.
    + rewrite (IH convs') by done. by rewrite <- app_assoc.
    + rewrite (IH convs') by done.
      unfold after. simpl. by rewrite <- !app_assoc.
Qed.

Lemma convertResponseToDocuments_this (response : IRavenResponse) :
  preserves_this (convertResponseToDocuments conventions response).
Proof.
  intros w. unfold convertResponseToDocuments.
  destruct (bool_decide _); [|done].
  unfold mbind, M_bind.
  pose proof (convertEach_this (tryFetchResults conventions response) [] w)
    as Hthis.
  destruct (convertEach _ _ _ w) as [[results|e] w1]; simpl in *; [|done].
  destruct (bool_decide (length _ ≠ 0%nat)); simpl;
    by destruct (bool_decide (withStatistics _ = Some true)).
Qed.

(** The number of document-fetched notifications is the number of raw
    documents that are not projections. *)
Lemma fetchedDocuments_length (docs : list JsValue)
    (convs : list (IDocumentConversionResult T)) :
  length docs = length convs →
  length (fetchedDocuments conventions docs convs)
  = length (filter (λ raw, checkIsProjection conventions raw = false) docs).
Proof.
  unfold fetchedDocuments. rewrite length_fmap.
  revert convs. induction docs as [|raw docs IH]; intros [|c convs] Hlen;
    try done.
  simpl. rewrite !filter_cons. simpl.
  destruct (decide _); simpl; rewrite IH; auto.
Qed.

(** A conversion that succeeds on a non-empty result set. *)
Lemma convertResponseToDocuments_normal (response : IRavenResponse)
    (convs : list (IDocumentConversionResult T)) (w : QueryRun T) :
  tryFetchResults conventions response ≠ [] →
  converted conventions (this w) (tryFetchResults conventions response) convs →
  convertResponseToDocuments conventions response w
  = (Normal (if bool_decide (withStatistics (this w) = Some true)
             then ResultsWithStatistics (document <$> convs) response
             else PlainResults (document <$> convs)),
     after ((EmitDocumentFetched <$>
               fetchedDocuments conventions
                 (tryFetchResults conventions response) convs)
            ++ includesFetched (tryFetchIncludes conventions response)) w).
Proof.
  intros Hne Hconv. unfold convertResponseToDocuments.
  rewrite bool_decide_eq_true_2
    by (destruct (tryFetchResults conventions response); [done|simpl; lia]).
  unfold mbind, M_bind. rewrite (convertEach_normal _ convs) by done.
  simpl. unfold includesFetched.
  destruct (tryFetchIncludes conventions response) as [|i includes]; simpl.
  - unfold mret, M_ret, get, after. simpl. rewrite !app_nil_r.
    by destruct (bool_decide (withStatistics _ = Some true)).
  - unfold perform, modify, get, after. simpl. rewrite <- !app_assoc.
    by destruct (bool_decide (withStatistics _ = Some true)).
Qed.

(** On an empty result set nothing is converted and nothing emitted. *)
Lemma convertResponseToDocuments_empty (response : IRavenResponse)
    (w : QueryRun T) :
  tryFetchResults conventions response = [] →
  convertResponseToDocuments conventions response w
  = (Normal (PlainResults []), w).
Proof. intros H. unfold convertResponseToDocuments. by rewrite H. Qed.

(** C8, where the code departs from it.  On a response without results
    the conversion emits no notification and returns the empty sequence;
    it does so in statistics mode too, where the claim has the pair of the
    empty results and the response. *)
Theorem empty_results_convert_to_plain_sequence (response : IRavenResponse)
    (w : QueryRun T)
    (Hempty : tryFetchResults conventions response = [])
    (Hstatistics : withStatistics (this w) = Some true) :
  convertResponseToDocuments conventions response w
  = (Normal (PlainResults []), w) ∧
  (convertResponseToDocuments conventions response w).1
  ≠ Normal (ResultsWithStatistics [] response).
Proof.
  rewrite convertResponseToDocuments_empty by done. split; [done|]. simpl.
  discriminate.
Qed.

(** C9.  On a non-empty result set whose documents all convert, the
    conversion emits, in the order of the documents, one document-fetched
    notification with the conversion result of each document that is not
    a projection and none for a projection; after them it emits one
    includes-fetched notification with the whole batch when there are
    includes, and none otherwise. *)
Theorem conversion_notifications (response : IRavenResponse)
    (convs : list (IDocumentConversionResult T)) (w : QueryRun T)
    (Hnonempty : tryFetchResults conventions response ≠ [])
    (Hconv : converted conventions (this w)
               (tryFetchResults conventions response) convs) :
  let docs := tryFetchResults conventions response in
  let includes := tryFetchIncludes conventions response in
  let fetched :=
    (filter (λ rc, checkIsProjection conventions rc.1 = false)
            (zip docs convs)).*2 in
  effects (convertResponseToDocuments conventions response w).2
  = effects w ++ (EmitDocumentFetched <$> fetched)
      ++ (if bool_decide (includes ≠ []) then [EmitIncludesFetched includes]
          else []) ∧
  length fetched
  = length (filter (λ raw, checkIsProjection conventions raw = false) docs) ∧
  this (convertResponseToDocuments conventions response w).2 = this w.
Proof.
  intros docs includes fetched.
  rewrite (convertResponseToDocuments_normal response convs) by done.
  repeat split.
  apply fetchedDocuments_length. by eapply Forall2_length.
Qed.
End Conversion.

(** ** Terminal methods *)

Section TerminalMethods.
Context {T : Type}.
Variable conventions : DocumentConventions T.
Variable builderToString : list BuilderCall → Completion string.
Variable execute : IndexQuery → Settled (option IRavenResponse).

#[local] Abbreviation single' := (single conventions builderToString execute).
#[local] Abbreviation first' := (first conventions builderToString execute).
#[local] Abbreviation count' :=
  (count (T:=T) builderToString execute).

Lemma promise_then_this {A B} (p : Settled A)
    (h : A → M (QueryRun T) (Settled B)) (w : QueryRun T) :
  (∀ a, preserves_this (h a)) →
  ∃ p' w', promise_then p h w = (Normal p', w') ∧ this w' = this w.
Proof.
  intros Hh. unfold promise_then. destruct p as [a|e]; [|by eauto].
  specialize (Hh a w). destruct (h a w) as [[r|e] w']; eauto.
Qed.

Lemma promise_catch_this {A} (p : Settled A)
    (h : RavenException → M (QueryRun T) (Settled A)) (w : QueryRun T) :
  (∀ e, preserves_this (h e)) →
  ∃ p' w', promise_catch p h w = (Normal p', w') ∧ this w' = this w.
Proof.
  intros Hh. unfold promise_catch. destruct p as [a|e]; [by eauto|].
  specialize (Hh e w). destruct (h e w) as [[r|e'] w']; eauto.
Qed.

Lemma PromiseResolver_reject_this {A} (error : RavenException)
    (callback : bool) :
  preserves_this (PromiseResolver_reject (T:=T) (A:=A) error callback).
Proof. intros w. by destruct callback. Qed.

Lemma single_then_this (callback : bool) (response : IRavenResponse) :
  preserves_this (single_then conventions callback response).
Proof.
  intros w. unfold single_then, mbind, M_bind.
  pose proof (convertResponseToDocuments_this conventions response w) as H.
  destruct (convertResponseToDocuments _ _ w) as [[results|e] w1];
    simpl in *; [|done].
  destruct (bool_decide _); simpl; [done|].
  by destruct callback.
Qed.

Lemma first_then_this (callback : bool) (response : IRavenResponse) :
  preserves_this (first_then conventions callback response).
Proof.
  intros w. unfold first_then, mbind, M_bind.
  pose proof (convertResponseToDocuments_this conventions response w) as H.
  destruct (convertResponseToDocuments _ _ w) as [[results|e] w1];
    simpl in *; [|done].
  by destruct callback.
Qed.

Lemma count_then_this (callback : bool) (response : IRavenResponse) :
  preserves_this (count_then (T:=T) callback response).
Proof. intros w. unfold count_then. by destruct callback. Qed.

(** The chain [executeQuery().then(h).catch(...).finally(restore)] of a
    terminal method, once the query text is rendered: every handler runs
    and the chain hands back a promise. *)
Lemma chain_run {B} (h : IRavenResponse → M (QueryRun T) (Settled B))
    (callback : bool) (restore : M (QueryRun T) unit) (w w1 w2 : QueryRun T)
    (text : string) (p1 p2 : Settled B) :
  builderToString (_builder (this w)) = Normal text →
  promise_then (envelopeOf (execute (indexQueryOf text (this w)))) h
    (after [EmitDocumentsQueried; ExecuteCommand (indexQueryOf text (this w))]
       w)
  = (Normal p1, w1) →
  promise_catch p1 (λ error, PromiseResolver_reject error callback) w1
  = (Normal p2, w2) →
  (p ← executeQuery builderToString execute;
   p ← promise_then p h;
   p ← promise_catch p (λ error, PromiseResolver_reject error callback);
   promise_finally p restore) w
  = promise_finally p2 restore w2.
Proof.
  intros Hrender Hthen Hcatch. unfold mbind at 1, M_bind at 1.
  rewrite (executeQuery_normal _ _ _ text) by done.
  unfold mbind at 1, M_bind at 1. rewrite Hthen.
  unfold mbind at 1, M_bind at 1. by rewrite Hcatch.
Qed.

(** When the text cannot be rendered the chain is never built. *)
Lemma chain_throw {B} (h : IRavenResponse → M (QueryRun T) (Settled B))
    (callback : bool) (restore : M (QueryRun T) unit) (w : QueryRun T)
    (e : RavenException) :
  builderToString (_builder (this w)) = Throw e →
  (p ← executeQuery builderToString execute;
   p ← promise_then p h;
   p ← promise_catch p (λ error, PromiseResolver_reject error callback);
   promise_finally p restore) w
  = (Throw e, after [EmitDocumentsQueried] w).
Proof.
  intros Hrender. unfold mbind at 1, M_bind at 1.
  by rewrite (executeQuery_throw _ _ _ e).
Qed.

(** What the [catch] of a terminal method does: the error goes to the
    callback, when there is one, and the promise stays as it was. *)
Lemma promise_catch_reject {B} (p : Settled B) (callback : bool)
    (w : QueryRun T) :
  promise_catch p (λ error, PromiseResolver_reject error callback) w
  = (Normal p,
     match p with
     | Rejected e => if callback then after [CallbackError e] w else w
     | Fulfilled _ => w
     end).
Proof.
  destruct p as [a|e]; [done|]. unfold promise_catch, PromiseResolver_reject.
  destruct callback; simpl; [done|]. by destruct w.
Qed.

Lemma single_unfold (callback : bool) (w : QueryRun T) :
  single' callback w
  = async (p ← executeQuery builderToString execute;
           p ← promise_then p (single_then conventions callback);
           p ← promise_catch p (λ error, PromiseResolver_reject error callback);
           promise_finally p (
             update (set_take (_take (this w)));;
             update (set_skip (_skip (this w)));;
             update (set_withStatistics (withStatistics (this w)))))
      (with_this (forced 2 (Some false) (this w)) w).
Proof. done. Qed.

Lemma first_unfold (callback : bool) (w : QueryRun T) :
  first' callback w
  = async (p ← executeQuery builderToString execute;
           p ← promise_then p (first_then conventions callback);
           p ← promise_catch p (λ error, PromiseResolver_reject error callback);
           promise_finally p (
             update (set_take (_take (this w)));;
             update (set_skip (_skip (this w)));;
             update (set_withStatistics (withStatistics (this w)))))
      (with_this (forced 1 (Some false) (this w)) w).
Proof. done. Qed.

Lemma count_unfold (callback : bool) (w : QueryRun T) :
  count' callback w
  = async (p ← executeQuery builderToString execute;
           p ← promise_then p (count_then callback);
           p ← promise_catch p (λ error, PromiseResolver_reject error callback);
           promise_finally p (
             update (set_take (_take (this w)));;
             update (set_skip (_skip (this w)))))
      (with_this (forced 0 (withStatistics (this w)) (this w)) w).
Proof. by destruct w as [[] ?]. Qed.

(** The final step of [single] and [first] on a run whose query is still
    the overwritten one. *)
Lemma finally_restores {B} (p : Settled B) (q : DocumentQuery) (take : Z)
    (w : QueryRun T) :
  this w = forced take (Some false) q →
  promise_finally p (
    update (set_take (_take q));;
    update (set_skip (_skip q));;
    update (set_withStatistics (withStatistics q))) w
  = (Normal p, with_this q w).
Proof.
  intros Hthis. unfold promise_finally, mbind, M_bind, update, modify,
    with_this. simpl.
  rewrite Hthis. by rewrite set_restore.
Qed.

Lemma finally_restores_paging {B} (p : Settled B) (q : DocumentQuery)
    (w : QueryRun T) :
  this w = forced 0 (withStatistics q) q →
  promise_finally p (
    update (set_take (_take q));;
    update (set_skip (_skip q))) w
  = (Normal p, with_this q w).
Proof.
  intros Hthis. unfold promise_finally, mbind, M_bind, update, modify,
    with_this. simpl.
  rewrite Hthis. by destruct q.
Qed.

(** Once the command has been submitted, the three methods put the
    paging and statistics settings back however the promise settles:
    answer or rejection of the execution layer, stale index, failing
    conversion. *)
Lemma terminal_methods_restore_after_submission (callback : bool)
    (w : QueryRun T) (text : string) :
  builderToString (_builder (this w)) = Normal text →
  this (single' callback w).2 = this w ∧
  this (first' callback w).2 = this w ∧
  this (count' callback w).2 = this w.
Proof.
  intros Hrender. repeat split.
  - rewrite single_unfold. unfold async.
    set (w0 := with_this (forced 2 (Some false) (this w)) w).
    destruct (promise_then_this
      (envelopeOf (execute (indexQueryOf text (this w0))))
      (single_then conventions callback)
      (after [EmitDocumentsQueried;
              ExecuteCommand (indexQueryOf text (this w0))] w0)
      (single_then_this callback)) as (p1 & w1 & Hthen & Hw1).
    destruct (promise_catch_this p1
      (λ error, PromiseResolver_reject error callback) w1
      (λ error, PromiseResolver_reject_this error callback))
      as (p2 & w2 & Hcatch & Hw2).
    erewrite chain_run; [|exact Hrender|exact Hthen|exact Hcatch].
    rewrite (finally_restores _ (this w) 2); [done|].
    by rewrite Hw2, Hw1.
  - rewrite first_unfold. unfold async.
    set (w0 := with_this (forced 1 (Some false) (this w)) w).
    destruct (promise_then_this
      (envelopeOf (execute (indexQueryOf text (this w0))))
      (first_then conventions callback)
      (after [EmitDocumentsQueried;
              ExecuteCommand (indexQueryOf text (this w0))] w0)
      (first_then_this callback)) as (p1 & w1 & Hthen & Hw1).
    destruct (promise_catch_this p1
      (λ error, PromiseResolver_reject error callback) w1
      (λ error, PromiseResolver_reject_this error callback))
      as (p2 & w2 & Hcatch & Hw2).
    erewrite chain_run; [|exact Hrender|exact Hthen|exact Hcatch].
    rewrite (finally_restores _ (this w) 1); [done|].
    by rewrite Hw2, Hw1.
  - rewrite count_unfold. unfold async.
    set (w0 := with_this (forced 0 (withStatistics (this w)) (this w)) w).
    destruct (promise_then_this
      (envelopeOf (execute (indexQueryOf text (this w0))))
      (count_then callback)
      (after [EmitDocumentsQueried;
              ExecuteCommand (indexQueryOf text (this w0))] w0)
      (count_then_this callback)) as (p1 & w1 & Hthen & Hw1).
    destruct (promise_catch_this p1
      (λ error, PromiseResolver_reject error callback) w1
      (λ error, PromiseResolver_reject_this error callback))
      as (p2 & w2 & Hcatch & Hw2).
    erewrite chain_run; [|exact Hrender|exact Hthen|exact Hcatch].
    rewrite finally_restores_paging; [done|].
    by rewrite Hw2, Hw1.
Qed.

(** C7, where the code departs from it.  The settings are put back by the
    [finally] of the promise chain, and [executeQuery] runs before there
    is a chain: when it throws while it renders the query text, the
    method hands back a rejected promise and the query keeps the
    overwritten take, skip and statistics. *)
Theorem terminal_methods_keep_overwritten_paging (callback : bool)
    (w : QueryRun T) (e : RavenException)
    (Hrender : builderToString (_builder (this w)) = Throw e) :
  single' callback w
  = (Rejected e,
     after [EmitDocumentsQueried]
       (with_this (forced 2 (Some false) (this w)) w)) ∧
  first' callback w
  = (Rejected e,
     after [EmitDocumentsQueried]
       (with_this (forced 1 (Some false) (this w)) w)) ∧
  count' callback w
  = (Rejected e,
     after [EmitDocumentsQueried]
       (with_this (forced 0 (withStatistics (this w)) (this w)) w)) ∧
  _take (this (single' callback w).2) = Some 2%Z ∧
  _skip (this (single' callback w).2) = Some 0%Z ∧
  withStatistics (this (single' callback w).2) = Some false.
Proof.
  assert (Hsingle : single' callback w
    = (Rejected e, after [EmitDocumentsQueried]
                     (with_this (forced 2 (Some false) (this w)) w))).
  { rewrite single_unfold. unfold async. by rewrite (chain_throw _ _ _ _ e). }
  split; [done|]. split; [|split].
  - rewrite first_unfold. unfold async. by rewrite (chain_throw _ _ _ _ e).
  - rewrite count_unfold. unfold async. by rewrite (chain_throw _ _ _ _ e).
  - by rewrite Hsingle.
Qed.

(** Outside statistics mode a conversion that succeeds yields the plain
    sequence of the entities. *)
Lemma convertResponseToDocuments_plain (response : IRavenResponse)
    (convs : list (IDocumentConversionResult T)) (w : QueryRun T) :
  withStatistics (this w) ≠ Some true →
  converted conventions (this w) (tryFetchResults conventions response) convs →
  ∃ more, convertResponseToDocuments conventions response w
          = (Normal (PlainResults (document <$> convs)), after more w).
Proof.
  intros Hstat Hconv.
  destruct (tryFetchResults conventions response) as [|raw docs] eqn:Hdocs.
  - apply Forall2_nil_inv_l in Hconv as ->.
    exists []. rewrite convertResponseToDocuments_empty by done.
    unfold after. rewrite app_nil_r. by destruct w.
  - eexists. rewrite (convertResponseToDocuments_normal _ _ convs);
      [|by rewrite Hdocs|by rewrite Hdocs].
    by rewrite bool_decide_eq_false_2.
Qed.

Lemma single_then_run (callback : bool) (response : IRavenResponse)
    (convs : list (IDocumentConversionResult T)) (w : QueryRun T) :
  withStatistics (this w) ≠ Some true →
  converted conventions (this w) (tryFetchResults conventions response) convs →
  ∃ more, single_then conventions callback response w
          = (Normal (singleOutcome (document <$> convs)), after more w).
Proof.
  intros Hstat Hconv.
  destruct (convertResponseToDocuments_plain response convs w Hstat Hconv)
    as (more & Hrun).
  unfold single_then, mbind, M_bind. rewrite Hrun.
  destruct convs as [|c [|c' convs]]; simpl.
  - by exists more.
  - destruct callback; simpl.
    + exists (more ++ [CallbackEntity (Some (document c))]).
      unfold after. simpl. by rewrite app_assoc.
    + by exists more.
  - by exists more.
Qed.

(** C4.  [single] runs the query with take 2, skip 0 and statistics off.
    When the execution layer answers and the answer is not stale, the
    outcome goes by the size of the result set: the invalid-operation
    error for no result on size 0, the one entity on size 1, the
    invalid-operation error for more than one result on size 2 or more,
    and the two messages differ.  Afterwards take, skip and statistics
    are what they were before the call. *)
Theorem single_requires_exactly_one (callback : bool) (w : QueryRun T)
    (text : string) (answer : option IRavenResponse)
    (response : IRavenResponse)
    (convs : list (IDocumentConversionResult T))
    (Hrender : builderToString (_builder (this w)) = Normal text)
    (Hexecute : execute (indexQueryOf text (forced 2 (Some false) (this w)))
                = Fulfilled answer)
    (Hresponse : response = default emptyEnvelope answer)
    (Hfresh : IsStale response ≠ Some true)
    (Hconv : converted conventions (this w)
               (tryFetchResults conventions response) convs) :
  let query := indexQueryOf text (forced 2 (Some false) (this w)) in
  (iq_take query = 2%Z ∧ iq_skip query = 0%Z) ∧
  length convs = length (tryFetchResults conventions response) ∧
  (single' callback w).1
  = match convs with
    | [] => Rejected (InvalidOperationException noResultsMessage)
    | [c] => Fulfilled (Some (document c))
    | _ :: _ :: _ =>
      Rejected (InvalidOperationException moreThanOneResultMessage)
    end ∧
  noResultsMessage ≠ moreThanOneResultMessage ∧
  ExecuteCommand query ∈ effects (single' callback w).2 ∧
  this (single' callback w).2 = this w.
Proof.
  intros query. split; [done|]. split; [symmetry; by eapply Forall2_length|].
  set (w0 := with_this (forced 2 (Some false) (this w)) w).
  set (w1 := after [EmitDocumentsQueried; ExecuteCommand query] w0).
  destruct (single_then_run callback response convs w1) as (more & Hthen);
    [done|exact Hconv|].
  assert (Henvelope : envelopeOf (execute query) = Fulfilled response).
  { unfold query. rewrite Hexecute, Hresponse. destruct answer as [r|]; simpl.
    - rewrite bool_decide_eq_false_2; [done|]. by rewrite Hresponse in Hfresh.
    - done. }
  assert (Hthen' :
    promise_then (envelopeOf (execute (indexQueryOf text (this w0))))
      (single_then conventions callback)
      (after [EmitDocumentsQueried;
              ExecuteCommand (indexQueryOf text (this w0))] w0)
    = (Normal (singleOutcome (document <$> convs)), after more w1)).
  { change (indexQueryOf text (this w0)) with query. rewrite Henvelope.
    unfold promise_then. fold w1. by rewrite Hthen. }
  assert (Hrun : single' callback w
    = (singleOutcome (document <$> convs),
       with_this (this w)
         (match singleOutcome (document <$> convs) with
          | Rejected e =>
            if callback then after [CallbackError e] (after more w1)
            else after more w1
          | Fulfilled _ => after more w1
          end))).
  { rewrite single_unfold. unfold async. fold w0.
    rewrite (chain_run _ _ _ w0 _ _ text _ _ Hrender Hthen'
               (promise_catch_reject _ _ _)).
    rewrite (finally_restores _ (this w) 2); [done|].
    destruct (singleOutcome _); [done|]. by destruct callback. }
  rewrite Hrun. simpl. split; [by destruct convs as [|c [|c' convs]]|].
  split; [done|]. split; [|done].
  assert (Hin : ExecuteCommand query ∈ effects (after more w1)).
  { simpl. rewrite !elem_of_app, !elem_of_cons. auto. }
  destruct (singleOutcome _); [done|]. destruct callback; [|done].
  simpl. apply elem_of_app. by left.
Qed.
End TerminalMethods.

(** ** The theorems at work *)

Lemma executeQuery_outcomes_witness :
  QueryBuilder_toString exampleText (_builder (this (exampleRun (newQuery "Dogs"))))
  = Normal "from @all_docs /0" ∧
  executeQuery (QueryBuilder_toString exampleText) (λ _, Fulfilled None)
    (exampleRun (newQuery "Dogs"))
  = (Normal (Fulfilled emptyEnvelope),
     after [EmitDocumentsQueried;
            ExecuteCommand (indexQueryOf "from @all_docs /0" (newQuery "Dogs"))]
       (exampleRun (newQuery "Dogs"))).
Proof.
  split; [reflexivity|].
  destruct (executeQuery_outcomes (T:=exampleEntity)
    (QueryBuilder_toString exampleText) (λ _, Fulfilled None)
    (exampleRun (newQuery "Dogs")) "from @all_docs /0" eq_refl)
    as (Hnull & _).
  exact (proj1 (Hnull eq_refl)).
Defined.

Lemma single_requires_exactly_one_witness :
  QueryBuilder_toString exampleText
    (_builder (this (exampleRun (set_take (Some 10%Z) (newQuery "Dogs")))))
  = Normal "from @all_docs /0" ∧
  (single exampleConventions (QueryBuilder_toString exampleText)
     (exampleServer [rex] []) false
     (exampleRun (set_take (Some 10%Z) (newQuery "Dogs")))).1
  = Fulfilled (Some [("name", JString "Rex")]) ∧
  (single exampleConventions (QueryBuilder_toString exampleText)
     (exampleServer [rex; bo] []) false
     (exampleRun (set_take (Some 10%Z) (newQuery "Dogs")))).1
  = Rejected (InvalidOperationException moreThanOneResultMessage) ∧
  this (single exampleConventions (QueryBuilder_toString exampleText)
          (exampleServer [rex] []) false
          (exampleRun (set_take (Some 10%Z) (newQuery "Dogs")))).2
  = set_take (Some 10%Z) (newQuery "Dogs").
Proof.
  split; [reflexivity|].
  destruct (single_requires_exactly_one exampleConventions
    (QueryBuilder_toString exampleText) (exampleServer [rex] []) false
    (exampleRun (set_take (Some 10%Z) (newQuery "Dogs")))
    "from @all_docs /0"
    (Some {| Results := [rex]; Includes := []; TotalResults := Some 1%Z;
             IsStale := Some false |})
    {| Results := [rex]; Includes := []; TotalResults := Some 1%Z;
       IsStale := Some false |}
    [{| document := [("name", JString "Rex")]; rawEntity := rex;
        metadata := JNull |}]
    eq_refl eq_refl eq_refl ltac:(discriminate)
    ltac:(repeat constructor)) as (_ & _ & Hone & _ & _ & Hthis).
  destruct (single_requires_exactly_one exampleConventions
    (QueryBuilder_toString exampleText) (exampleServer [rex; bo] []) false
    (exampleRun (set_take (Some 10%Z) (newQuery "Dogs")))
    "from @all_docs /0"
    (Some {| Results := [rex; bo]; Includes := []; TotalResults := Some 2%Z;
             IsStale := Some false |})
    {| Results := [rex; bo]; Includes := []; TotalResults := Some 2%Z;
       IsStale := Some false |}
    [{| document := [("name", JString "Rex")]; rawEntity := rex;
        metadata := JNull |};
     {| document := [("@projection", JBool true); ("name", JString "Bo")];
        rawEntity := bo; metadata := JNull |}]
    eq_refl eq_refl eq_refl ltac:(discriminate)
    ltac:(repeat constructor)) as (_ & _ & Htwo & _).
  split; [exact Hone|]. split; [exact Htwo|exact Hthis].
Defined.

Lemma terminal_methods_keep_overwritten_paging_witness :
  let w := exampleRun (set_take (Some 10%Z) (openSubclause (newQuery "Dogs")).2) in
  QueryBuilder_toString exampleText (_builder (this w))
  = Throw (InvalidOperationException "A clause was not closed correctly within this query") ∧
  _take (this w) = Some 10%Z ∧
  _take (this (single exampleConventions (QueryBuilder_toString exampleText)
                 (exampleServer [rex] []) false w).2) = Some 2%Z.
Proof.
  intros w. split; [reflexivity|]. split; [reflexivity|].
  destruct (terminal_methods_keep_overwritten_paging exampleConventions
    (QueryBuilder_toString exampleText) (exampleServer [rex] []) false w
    (InvalidOperationException "A clause was not closed correctly within this query")
    eq_refl) as (_ & _ & _ & Htake & _).
  exact Htake.
Defined.

Lemma empty_results_convert_to_plain_sequence_witness :
  let w := exampleRun (set_withStatistics (Some true) (newQuery "Dogs")) in
  let response := {| Results := []; Includes := []; TotalResults := Some 0%Z;
                     IsStale := Some false |} in
  withStatistics (this w) = Some true ∧
  convertResponseToDocuments exampleConventions response w
  = (Normal (PlainResults []), w).
Proof.
  intros w response. split; [reflexivity|].
  exact (proj1 (empty_results_convert_to_plain_sequence exampleConventions
                  response w eq_refl eq_refl)).
Defined.

Lemma conversion_notifications_witness :
  let w := exampleRun (newQuery "Dogs") in
  let response := {| Results := [rex; bo]; Includes := [JString "owners/1"];
                     TotalResults := Some 2%Z; IsStale := Some false |} in
  tryFetchResults exampleConventions response ≠ [] ∧
  effects (convertResponseToDocuments exampleConventions response w).2
  = [EmitDocumentFetched
       {| document := [("name", JString "Rex")]; rawEntity := rex;
          metadata := JNull |};
     EmitIncludesFetched [JString "owners/1"]].
Proof.
  intros w response. split; [discriminate|].
  exact (proj1 (conversion_notifications exampleConventions response
    [{| document := [("name", JString "Rex")]; rawEntity := rex;
        metadata := JNull |};
     {| document := [("@projection", JBool true); ("name", JString "Bo")];
        rawEntity := bo; metadata := JNull |}]
    w ltac:(discriminate) ltac:(repeat constructor))).
Defined.

(** * Further properties *)

(** ** Unpacking and transforming values *)

(** X1.  [unpackValuesArray] leaves no array in its result, whatever the
    depth of the nesting, and unpacking a second time changes nothing. *)
Theorem unpackValuesArray_flattens (values : list JsValue) :
  Forall (λ v, TypeUtil.isArray v = false) (unpackValuesArray values) ∧
  unpackValuesArray (unpackValuesArray values) = unpackValuesArray values.
Proof.
  split; [apply unpackValuesArray_flat|].
  apply unpackValuesArray_of_flat, unpackValuesArray_flat.
Qed.

Lemma unpackValuesArray_app (values values' : list JsValue) :
  unpackValuesArray (values ++ values')
  = unpackValuesArray values ++ unpackValuesArray values'.
Proof.
  induction values as [|v values IH]; [done|].
  simpl. rewrite !unpackValuesArray_cons, IH. by rewrite app_assoc.
Qed.

(** X2.  Unpacking keeps the values in their order: it goes through a
    concatenation part by part, a nested array gives its own unpacking
    in its place, and any other value stays where it is. *)
Theorem unpackValuesArray_keeps_order (values values' items : list JsValue)
    (v : JsValue) :
  unpackValuesArray (values ++ values')
  = unpackValuesArray values ++ unpackValuesArray values' ∧
  unpackValuesArray (values ++ JArray items :: values')
  = unpackValuesArray values ++ unpackValuesArray items
      ++ unpackValuesArray values' ∧
  (TypeUtil.isArray v = false →
   unpackValuesArray (values ++ v :: values')
   = unpackValuesArray values ++ v :: unpackValuesArray values').
Proof.
  split; [apply unpackValuesArray_app|]. split.
  - by rewrite unpackValuesArray_app, unpackValuesArray_cons,
      unpackNested_array.
  - intros Hv. by rewrite unpackValuesArray_app, unpackValuesArray_cons,
      unpackNested_leaf.
Qed.

Section TransformProperties.
Variable stringify : Z → string.

(** X3.  What the transform hands back is null, a boolean, a number or a
    string, never a date, and the transform leaves it as it is when it
    is transformed again. *)
Theorem transformValue_idempotent (wp wp' : WhereParams)
    (transformed : JsValue)
    (Ht : transformValue stringify wp = Normal transformed)
    (Hwp' : value wp' = transformed) :
  isPrimitiveOrNull transformed = true ∧
  transformValue stringify wp' = Normal transformed.
Proof.
  unfold transformValue in *. rewrite Hwp'.
  destruct (value wp) as [|b|n|s|t|items|props|name|description];
    simpl in Ht; try discriminate; try (injection Ht as <-; by split).
  - destruct s; simpl in Ht; injection Ht as <-; by split.
  - injection Ht as <-. split; [done|]. simpl. by destruct (stringify t).
Qed.

Lemma transformValuesLoop_valid (f : string)
    (unpacked result : list JsValue) :
  Forall (λ v, isConditionValue v = true) unpacked →
  ∃ ts, transformValuesLoop stringify f unpacked result = Normal ts.
Proof.
  intros Hall. revert result.
  induction Hall as [|v unpacked Hv _ IH]; intros result; simpl; [by eexists|].
  destruct (transformValue_valid stringify
    {| fieldName := f; value := v; exact := None;
       allowWildcards := Some true |} Hv) as (t & -> & _).
  apply IH.
Qed.

(** X4.  [transformValuesArray] succeeds exactly when every unpacked
    value is null, a boolean, a number, a string or a date; its result
    then holds the transform of each unpacked value, in order. *)
Theorem transformValuesArray_succeeds_iff (f : string)
    (values : list JsValue) :
  ((∃ ts, transformValuesArray stringify f values = Normal ts) ↔
   Forall (λ v, isConditionValue v = true) (unpackValuesArray values)) ∧
  (∀ ts, transformValuesArray stringify f values = Normal ts →
     length ts = length (unpackValuesArray values) ∧
     Forall2 (λ v t, transformValue stringify
                       {| fieldName := f; value := v; exact := None;
                          allowWildcards := Some true |} = Normal t)
             (unpackValuesArray values) ts).
Proof.
  split; [split|].
  - intros [ts Hts]. apply Forall_forall. intros v Hv.
    destruct (isConditionValue v) eqn:Hcv; [done|].
    rewrite (transformValuesArray_invalid stringify f values v) in Hts; try done.
  - intros Hall. by apply transformValuesLoop_valid.
  - intros ts Hts. apply transformValuesArray_Forall2 in Hts.
    split; [symmetry; by eapply Forall2_length|done].
Qed.
End TransformProperties.

Lemma transformValue_idempotent_witness :
  transformValue exampleStringify
    {| fieldName := "born"; value := JDate 5; exact := None;
       allowWildcards := None |} = Normal (JString "5") ∧
  transformValue exampleStringify
    {| fieldName := "born"; value := JString "5"; exact := None;
       allowWildcards := None |} = Normal (JString "5").
Proof.
  split; [reflexivity|].
  exact (proj2 (transformValue_idempotent exampleStringify
    {| fieldName := "born"; value := JDate 5; exact := None;
       allowWildcards := None |}
    {| fieldName := "born"; value := JString "5"; exact := None;
       allowWildcards := None |}
    (JString "5") eq_refl eq_refl)).
Defined.

(** ** Chains of fluent calls *)

Section FluentCalls.
Variable stringify : Z → string.
Variable DefaultTimeout : JsValue.

#[local] Abbreviation invalidValue :=
  (InvalidArgumentException invalidValueMessage).
#[local] Abbreviation runCall' := (runCall stringify DefaultTimeout).
#[local] Abbreviation runCalls' := (runCalls stringify DefaultTimeout).

Lemma transformValuesArray_error (f : string) (values : list JsValue)
    (e : RavenException) :
  transformValuesArray stringify f values = Throw e → e = invalidValue.
Proof.
  unfold transformValuesArray. generalize (@nil JsValue) at 1.
  induction (unpackValuesArray values) as [|v unpacked IH]; intros result;
    simpl; [done|].
  destruct (transformValue _ _) as [t|e'] eqn:Ht; [apply IH|].
  intros [= <-]. by apply transformValue_error in Ht.
Qed.

(** The generator of [spatial] run over the values of a criteria. *)
Lemma generateNames_bound (vs : list JsValue) (q : DocumentQuery) :
  generateNames (λ parameterValue, addQueryParameter parameterValue) vs q
  = (Normal (boundNames vs q), boundAll vs q).
Proof.
  revert q. induction vs as [|v vs IH]; intros q; [done|].
  simpl. unfold mbind, M_bind. rewrite addQueryParameter_bound.
  by rewrite (IH (bound v q)).
Qed.

(** One value through the transform, then one binding and one call. *)
Lemma bind_one_outcome (wp : WhereParams) (call : string → BuilderCall)
    (q : DocumentQuery) :
  (∀ n, operands (call n) = [n]) →
  call_outcome q
    ((transformedValue ← lift (transformValue stringify wp);
      name ← addQueryParameter transformedValue;
      builderCall (call name)) q).
Proof.
  intros Hcall. unfold mbind, M_bind, lift.
  destruct (transformValue stringify wp) as [t|e] eqn:Ht.
  - by apply (outcome_binds q
                (call (parameterName (size (queryParameters q)))) [t]).
  - apply transformValue_error in Ht as ->. constructor.
Qed.

Lemma bind_endpoint_outcome (sentinel f : string) (v : JsValue)
    (x : option bool) (call : string → BuilderCall) (q : DocumentQuery) :
  (∀ n, operands (call n) = [n]) →
  call_outcome q
    ((transformedValue ← transformOr stringify sentinel f v x;
      name ← addQueryParameter transformedValue;
      builderCall (call name)) q).
Proof.
  intros Hcall. unfold mbind, M_bind.
  destruct (transformOr_cases stringify sentinel f v x q) as [[r ->]| ->].
  - by apply (outcome_binds q
                (call (parameterName (size (queryParameters q)))) [r]).
  - constructor.
Qed.

(** Whatever the query, a call of a method of the typed query itself
    ends in one of the three ways of [call_outcome]. *)
Lemma runCall_outcome (c : FluentCall) (q : DocumentQuery) :
  isBaseCall c = false → call_outcome q (runCall' c q).
Proof.
  intros Hc. destruct c; try discriminate Hc; simpl;
    try (by apply (outcome_binds q _ []));
    try (by apply bind_one_outcome);
    try (by apply bind_endpoint_outcome).
  - unfold whereIn, mbind, M_bind, lift.
    destruct (transformValuesArray _ _ _) as [ts|e] eqn:Ht.
    + by apply (outcome_binds q (BWhereIn _ _ _) [JArray values]).
    + apply transformValuesArray_error in Ht as ->. constructor.
  - unfold whereBetween, mbind, M_bind.
    destruct (transformOr_cases stringify "*" fieldName0 start exact0 q)
      as [[r ->]| ->]; [|constructor].
    destruct (transformOr_cases stringify "NULL" fieldName0 end_ exact0 q)
      as [[r' ->]| ->]; [|constructor].
    by apply (outcome_binds q (BWhereBetween _ _ _ _) [r; r']).
  - by apply (outcome_binds q (BSearch _ _ _) [searchTerms]).
  - unfold containsAny, mbind, M_bind, lift.
    destruct (transformValuesArray _ _ _) as [ts|e] eqn:Ht.
    + destruct ts as [|t ts]; simpl; [constructor|].
      by apply (outcome_binds q (BWhereIn _ _ _) [JArray (t :: ts)]).
    + apply transformValuesArray_error in Ht as ->. constructor.
  - unfold containsAll, mbind, M_bind, lift.
    destruct (transformValuesArray _ _ _) as [ts|e] eqn:Ht.
    + destruct ts as [|t ts]; simpl; [constructor|].
      by apply (outcome_binds q (BWhereAllIn _ _) [JArray (t :: ts)]).
    + apply transformValuesArray_error in Ht as ->. constructor.
  - by apply (outcome_binds q (BWithinRadiusOf _ _ _ _ _ _)
                [radius; latitude; longitude]).
  - destruct shapeWktOrCriteria as [shapeWkt|criteria]; simpl.
    + by apply (outcome_binds q (BSpatial _ _ _ _) [shapeWkt]).
    + unfold QueryBuilder_spatial, mbind, M_bind.
      rewrite generateNames_bound.
      by apply (outcome_binds q (BSpatialCriteria _ _ _)
                  (criteriaValues criteria)).
  - unfold orderByDistance. destruct (isNullOrOmitted longitude).
    + by apply (outcome_binds q (BOrderByDistance _ _ _)
                  [latitudeOrShapeWkt]).
    + by apply (outcome_binds q (BOrderByDistance _ _ _)
                  [latitudeOrShapeWkt; default JNull longitude]).
  - unfold orderByDistanceDescending. destruct (isNullOrOmitted longitude).
    + by apply (outcome_binds q (BOrderByDistanceDescending _ _ _)
                  [latitudeOrShapeWkt]).
    + by apply (outcome_binds q (BOrderByDistanceDescending _ _ _)
                  [latitudeOrShapeWkt; default JNull longitude]).
Qed.

(** A method of the query base never fails and leaves table and builder
    alone. *)
Lemma runCall_base (c : FluentCall) (q : DocumentQuery) :
  isBaseCall c = true →
  (runCall' c q).1 = Normal tt ∧
  queryParameters (runCall' c q).2 = queryParameters q ∧
  _builder (runCall' c q).2 = _builder q.
Proof. intros Hc. by destruct c. Qed.

Lemma bound_subseteq (v : JsValue) (q : DocumentQuery) :
  params_wf (queryParameters q) →
  queryParameters q ⊆ queryParameters (bound v q).
Proof. intros Hwf. by apply insert_subseteq, params_wf_fresh. Qed.

Lemma boundAll_names (vs : list JsValue) (q : DocumentQuery) :
  params_wf (queryParameters q) →
  params_wf (queryParameters (boundAll vs q)) ∧
  queryParameters q ⊆ queryParameters (boundAll vs q).
Proof.
  revert q. induction vs as [|v vs IH]; intros q Hwf; [done|].
  destruct (IH (bound v q)) as [Hwf' Hsub]; [by apply bound_size|].
  split; [done|]. etrans; [by apply bound_subseteq|done].
Qed.

Lemma call_outcome_names (q q' : DocumentQuery) (r : Completion unit) :
  call_outcome q (r, q') →
  params_wf (queryParameters q) →
  params_wf (queryParameters q') ∧ queryParameters q ⊆ queryParameters q'.
Proof.
  intros Hout Hwf. inversion Hout; subst; try done.
  by apply boundAll_names.
Qed.

Lemma operands_bound_bound (v : JsValue) (q : DocumentQuery) :
  operands_bound q → operands_bound (bound v q).
Proof.
  intros Hq c n Hc Hn. apply lookup_insert_is_Some'. right. by eapply Hq.
Qed.

Lemma operands_bound_boundAll (vs : list JsValue) (q : DocumentQuery) :
  operands_bound q → operands_bound (boundAll vs q).
Proof.
  revert q. induction vs as [|v vs IH]; intros q Hq; [done|].
  by apply IH, operands_bound_bound.
Qed.

Lemma boundAll_is_Some (vs : list JsValue) (q : DocumentQuery) (n : string) :
  is_Some (queryParameters q !! n) →
  is_Some (queryParameters (boundAll vs q) !! n).
Proof.
  revert q. induction vs as [|v vs IH]; intros q Hn; [done|].
  apply IH. apply lookup_insert_is_Some'. by right.
Qed.

(** The names handed back while the values are bound are bound when the
    last value has been bound. *)
Lemma boundNames_bound (vs : list JsValue) (q : DocumentQuery) (n : string) :
  n ∈ boundNames vs q → is_Some (queryParameters (boundAll vs q) !! n).
Proof.
  revert q. induction vs as [|v vs IH]; intros q Hn; simpl in Hn.
  - by apply elem_of_nil in Hn.
  - apply elem_of_cons in Hn as [->|Hn]; [|by apply IH].
    apply (boundAll_is_Some vs (bound v q)). rewrite bound_lookup.
    by eexists.
Qed.

Lemma operands_bound_called (c : BuilderCall) (q : DocumentQuery) :
  operands_bound q →
  (∀ n, n ∈ operands c → is_Some (queryParameters q !! n)) →
  operands_bound (called c q).
Proof.
  intros Hq Hc c' n Hc' Hn. simpl in Hc'.
  apply elem_of_app in Hc' as [Hc'|Hc']; [by eapply Hq|].
  apply list_elem_of_singleton in Hc' as ->. by apply Hc.
Qed.

Lemma call_outcome_operands (q q' : DocumentQuery) (r : Completion unit) :
  call_outcome q (r, q') → operands_bound q → operands_bound q'.
Proof.
  intros Hout Hq. inversion Hout as [| |c vs Hc]; subst; try done.
  apply operands_bound_called; [by apply operands_bound_boundAll|].
  rewrite Hc. apply boundNames_bound.
Qed.

(** Binding writes the table only. *)
Lemma boundAll_frame (vs : list JsValue) (q : DocumentQuery) :
  fixedSettings (boundAll vs q) = fixedSettings q ∧
  _take (boundAll vs q) = _take q ∧ _skip (boundAll vs q) = _skip q ∧
  indexQueryOptions (boundAll vs q) = indexQueryOptions q ∧
  _builder (boundAll vs q) = _builder q.
Proof.
  revert q. induction vs as [|v vs IH]; intros q; [done|].
  simpl. destruct (IH (bound v q)) as (-> & -> & -> & -> & ->). done.
Qed.

(** What one call writes. *)
Lemma runCall_frame (c : FluentCall) (q : DocumentQuery) :
  fixedSettings (runCall' c q).2 = fixedSettings q ∧
  (isTake c = false → _take (runCall' c q).2 = _take q) ∧
  (isSkip c = false → _skip (runCall' c q).2 = _skip q) ∧
  (isFreshness c = false →
   indexQueryOptions (runCall' c q).2 = indexQueryOptions q) ∧
  ∃ added, _builder (runCall' c q).2 = _builder q ++ added ∧
           (length added ≤ if isBaseCall c then 0 else 1)%nat.
Proof.
  destruct (isBaseCall c) eqn:Hc.
  - destruct c; try discriminate Hc; simpl;
      (repeat split; try done; exists []; by rewrite app_nil_r).
  - pose proof (runCall_outcome c q Hc) as Hout.
    destruct (runCall' c q) as [r q']. simpl.
    inversion Hout as [| |b vs Hb]; subst;
      [repeat split; try done; exists [];
       (split; [by rewrite app_nil_r|simpl; lia]) ..|].
    destruct (boundAll_frame vs q) as (Hfixed & Htake & Hskip & Hopt & Hbuild).
    split; [exact Hfixed|]. split; [done|]. split; [done|]. split; [done|].
    exists [b]. simpl. by rewrite Hbuild.
Qed.

Lemma runCalls_cons (c : FluentCall) (cs : list FluentCall)
    (q : DocumentQuery) :
  runCalls' (c :: cs) q
  = match runCall' c q with
    | (Normal _, q1) => runCalls' cs q1
    | (Throw e, q1) => (Throw e, q1)
    end.
Proof. done. Qed.

(** An invariant of single calls is an invariant of chains. *)
Lemma runCalls_invariant (P : DocumentQuery → DocumentQuery → Prop) :
  (∀ q, P q q) →
  (∀ q1 q2 q3, P q1 q2 → P q2 q3 → P q1 q3) →
  (∀ c q, P q (runCall' c q).2) →
  ∀ cs q, P q (runCalls' cs q).2.
Proof.
  intros Hrefl Htrans Hstep cs.
  induction cs as [|c cs IH]; intros q; [apply Hrefl|].
  rewrite runCalls_cons. specialize (Hstep c q).
  destruct (runCall' c q) as [[[]|e] q1]; simpl in *; [|done].
  eapply Htrans; [exact Hstep|apply IH].
Qed.

(** X5.  Along any chain of calls of the chainable members of a typed
    query, the members inherited from the query base included, the table
    keeps the names [p0], [p1], ... up to its size, and no binding made
    before is lost or overwritten.  This holds whether the chain runs to
    its end or stops at a call that fails with the invalid-value error. *)
Theorem fluent_chain_parameter_names (cs : list FluentCall)
    (q : DocumentQuery) (Hwf : params_wf (queryParameters q)) :
  params_wf (queryParameters (runCalls' cs q).2) ∧
  queryParameters q ⊆ queryParameters (runCalls' cs q).2.
Proof.
  revert Hwf.
  apply (runCalls_invariant (λ q q',
    params_wf (queryParameters q) →
    params_wf (queryParameters q') ∧ queryParameters q ⊆ queryParameters q')).
  - done.
  - intros q1 q2 q3 H12 H23 Hwf. destruct (H12 Hwf) as [Hwf2 Hsub].
    destruct (H23 Hwf2) as [Hwf3 Hsub']. split; [done|by etrans].
  - intros c q0 Hwf. destruct (isBaseCall c) eqn:Hc.
    + destruct (runCall_base c q0 Hc) as (_ & -> & _). done.
    + pose proof (runCall_outcome c q0 Hc) as Hout.
      destruct (runCall' c q0) as [r q']. by eapply call_outcome_names.
Qed.

(** X6.  Along any chain of calls of the chainable members of a typed
    query every parameter name that the builder has been handed is bound
    in the table: the names of the filter methods, of [search], of
    [withinRadiusOf], of both forms of [spatial] and of the
    [orderByDistance] pair alike. *)
Theorem fluent_chain_operands_bound (cs : list FluentCall)
    (q : DocumentQuery) (Hq : operands_bound q) :
  operands_bound (runCalls' cs q).2.
Proof.
  revert Hq.
  apply (runCalls_invariant (λ q q', operands_bound q → operands_bound q'));
    [done|auto|].
  intros c q0 Hq. destruct (isBaseCall c) eqn:Hc.
  - destruct (runCall_base c q0 Hc) as (_ & Hps & Hb).
    intros b n. rewrite Hps, Hb. apply Hq.
  - pose proof (runCall_outcome c q0 Hc) as Hout.
    destruct (runCall' c q0) as [r q']. by eapply call_outcome_operands.
Qed.

(** X7.  No chainable member writes the statistics mode, the document
    type, the nested object types or the names of index and collection.
    [take] alone writes the take, [skip] alone the skip, and the three
    freshness methods alone the freshness options; these five methods
    of the query base leave table and builder as they are.  The builder
    receives at most one call per call of another method, after the calls
    it had. *)
Theorem fluent_chain_frame (cs : list FluentCall) (q : DocumentQuery) :
  fixedSettings (runCalls' cs q).2 = fixedSettings q ∧
  (Forall (λ c, isTake c = false) cs → _take (runCalls' cs q).2 = _take q) ∧
  (Forall (λ c, isSkip c = false) cs → _skip (runCalls' cs q).2 = _skip q) ∧
  (Forall (λ c, isFreshness c = false) cs →
   indexQueryOptions (runCalls' cs q).2 = indexQueryOptions q) ∧
  (Forall (λ c, isBaseCall c = true) cs →
   queryParameters (runCalls' cs q).2 = queryParameters q ∧
   _builder (runCalls' cs q).2 = _builder q) ∧
  ∃ added, _builder (runCalls' cs q).2 = _builder q ++ added ∧
           (length added
            ≤ length (filter (λ c, isBaseCall c = false) cs))%nat.
Proof.
  revert q. induction cs as [|c cs IH]; intros q.
  - repeat split; try done. exists []. by rewrite app_nil_r.
  - rewrite runCalls_cons.
    destruct (runCall_frame c q)
      as (Hfixed & Htake & Hskip & Hopt & added & Hb & Hlen).
    pose proof (runCall_base c q) as Hbase.
    assert (Hcount :
      (length (filter (λ c, isBaseCall c = false) (c :: cs))
       = (if isBaseCall c then 0 else 1)
         + length (filter (λ c, isBaseCall c = false) cs))%nat).
    { rewrite filter_cons. destruct (isBaseCall c); by destruct (decide _). }
    destruct (runCall' c q) as [[[]|e] q1]; simpl in *.
    + destruct (IH q1)
        as (Hfixed' & Htake' & Hskip' & Hopt' & Hbase' & added' & Hb' & Hlen').
      split; [congruence|].
      split; [intros [Hc Hcs]%Forall_cons; rewrite Htake', Htake; done|].
      split; [intros [Hc Hcs]%Forall_cons; rewrite Hskip', Hskip; done|].
      split; [intros [Hc Hcs]%Forall_cons; rewrite Hopt', Hopt; done|].
      split.
      { intros [Hc Hcs]%Forall_cons. destruct (Hbase Hc) as (_ & Hps & Hbu).
        destruct (Hbase' Hcs) as [-> ->]. done. }
      exists (added ++ added'). rewrite Hb', Hb, app_assoc, length_app.
      split; [done|lia].
    + split; [done|].
      split; [intros [Hc _]%Forall_cons; auto|].
      split; [intros [Hc _]%Forall_cons; auto|].
      split; [intros [Hc _]%Forall_cons; auto|].
      split.
      { intros [Hc _]%Forall_cons. by destruct (Hbase Hc) as (_ & Hps & Hbu). }
      exists added. split; [done|lia].
Qed.
End FluentCalls.

Lemma fluent_chain_parameter_names_witness :
  params_wf (queryParameters (newQuery "Dogs")) ∧
  params_wf (queryParameters
    (runCalls exampleStringify (JNumber 25000)
       [CallWhereEquals (WherePositional "name" (JString "Rex") None);
        CallTake 5;
        CallSearch "breed" (JObject []) None;
        CallWithinRadiusOf "home" (JNumber 10) (JNumber 52) (JNumber 13)
          None None;
        CallSpatial "home"
          (Criteria {| criteriaValues := [JString "POINT (13 52)";
                                          JNumber 1] |})
          None None;
        CallWhereBetween "age" JNull (JNumber 3) None]
       (newQuery "Dogs")).2).
Proof.
  assert (H : params_wf (queryParameters (newQuery "Dogs")))
    by (vm_compute; reflexivity).
  split; [exact H|].
  exact (proj1 (fluent_chain_parameter_names exampleStringify (JNumber 25000)
    [CallWhereEquals (WherePositional "name" (JString "Rex") None);
     CallTake 5;
     CallSearch "breed" (JObject []) None;
     CallWithinRadiusOf "home" (JNumber 10) (JNumber 52) (JNumber 13)
       None None;
     CallSpatial "home"
       (Criteria {| criteriaValues := [JString "POINT (13 52)";
                                       JNumber 1] |})
       None None;
     CallWhereBetween "age" JNull (JNumber 3) None]
    (newQuery "Dogs") H)).
Defined.

Lemma fluent_chain_operands_bound_witness :
  operands_bound (newQuery "Dogs") ∧
  operands_bound
    (runCalls exampleStringify (JNumber 25000)
       [CallWhereEquals (WherePositional "name" (JString "Rex") None);
        CallNot;
        CallWhereIn "age" [JNumber 3; JArray [JNumber 4]] None;
        CallWaitForNonStaleResults;
        CallOrderByDistance "home" (JNumber 52) (Some (JNumber 13));
        CallSpatial "home"
          (Criteria {| criteriaValues := [JString "POINT (13 52)"] |})
          None None]
       (newQuery "Dogs")).2.
Proof.
  assert (H : operands_bound (newQuery "Dogs")).
  { intros c n Hc. simpl in Hc. by apply elem_of_nil in Hc. }
  split; [exact H|].
  exact (fluent_chain_operands_bound exampleStringify (JNumber 25000)
    [CallWhereEquals (WherePositional "name" (JString "Rex") None);
     CallNot;
     CallWhereIn "age" [JNumber 3; JArray [JNumber 4]] None;
     CallWaitForNonStaleResults;
     CallOrderByDistance "home" (JNumber 52) (Some (JNumber 13));
     CallSpatial "home"
       (Criteria {| criteriaValues := [JString "POINT (13 52)"] |})
       None None]
    (newQuery "Dogs") H).
Defined.

(** ** The other terminal methods *)

Section MoreTerminalMethods.
Context {T : Type}.
Variable conventions : DocumentConventions T.
Variable builderToString : list BuilderCall → Completion string.
Variable execute : IndexQuery → Settled (option IRavenResponse).

#[local] Abbreviation single' := (single conventions builderToString execute).
#[local] Abbreviation first' := (first conventions builderToString execute).
#[local] Abbreviation count' := (count (T:=T) builderToString execute).

Lemma first_then_run (callback : bool) (response : IRavenResponse)
    (convs : list (IDocumentConversionResult T)) (w : QueryRun T) :
  withStatistics (this w) ≠ Some true →
  converted conventions (this w) (tryFetchResults conventions response) convs →
  ∃ more, first_then conventions callback response w
          = (Normal (Fulfilled (head (document <$> convs))),
             after (more ++ if callback
                            then [CallbackEntity (head (document <$> convs))]
                            else []) w).
Proof.
  intros Hstat Hconv.
  destruct (convertResponseToDocuments_plain conventions response convs w
              Hstat Hconv) as (more & Hrun).
  exists more. unfold first_then, mbind, M_bind. rewrite Hrun.
  assert (Hresult :
    (if truthyLength (lengthOf (PlainResults (document <$> convs)))
     then firstOf (PlainResults (document <$> convs)) else None)
    = head (document <$> convs)) by by destruct convs.
  rewrite Hresult. unfold after. destruct callback; simpl.
  - by rewrite app_assoc.
  - by rewrite app_nil_r.
Qed.

(** X9.  [first] submits the query with take 1 and skip 0.  When the
    execution layer answers and the answer is not stale, [first] hands
    back the first entity, or null when there is none (no error); the
    callback, when there is one, gets the same; afterwards the query is
    as it was before the call. *)
Theorem first_returns_first_or_null (callback : bool) (w : QueryRun T)
    (text : string) (answer : option IRavenResponse)
    (response : IRavenResponse)
    (convs : list (IDocumentConversionResult T))
    (Hrender : builderToString (_builder (this w)) = Normal text)
    (Hexecute : execute (indexQueryOf text (forced 1 (Some false) (this w)))
                = Fulfilled answer)
    (Hresponse : response = default emptyEnvelope answer)
    (Hfresh : IsStale response ≠ Some true)
    (Hconv : converted conventions (this w)
               (tryFetchResults conventions response) convs) :
  let query := indexQueryOf text (forced 1 (Some false) (this w)) in
  (iq_take query = 1%Z ∧ iq_skip query = 0%Z) ∧
  (first' callback w).1 = Fulfilled (head (document <$> convs)) ∧
  (callback = true →
   last (effects (first' callback w).2)
   = Some (CallbackEntity (head (document <$> convs)))) ∧
  this (first' callback w).2 = this w.
Proof.
  intros query. split; [done|].
  set (w0 := with_this (forced 1 (Some false) (this w)) w).
  set (w1 := after [EmitDocumentsQueried; ExecuteCommand query] w0).
  destruct (first_then_run callback response convs w1) as (more & Hthen);
    [done|exact Hconv|].
  assert (Henvelope : envelopeOf (execute query) = Fulfilled response).
  { unfold query. rewrite Hexecute, Hresponse. destruct answer as [r|]; simpl.
    - rewrite bool_decide_eq_false_2; [done|]. by rewrite Hresponse in Hfresh.
    - done. }
  assert (Hthen' :
    promise_then (envelopeOf (execute (indexQueryOf text (this w0))))
      (first_then conventions callback)
      (after [EmitDocumentsQueried;
              ExecuteCommand (indexQueryOf text (this w0))] w0)
    = (Normal (Fulfilled (head (document <$> convs))),
       after (more ++ if callback
                      then [CallbackEntity (head (document <$> convs))]
                      else []) w1)).
  { change (indexQueryOf text (this w0)) with query. rewrite Henvelope.
    unfold promise_then. fold w1. by rewrite Hthen. }
  assert (Hrun : first' callback w
    = (Fulfilled (head (document <$> convs)),
       with_this (this w)
         (after (more ++ if callback
                         then [CallbackEntity (head (document <$> convs))]
                         else []) w1))).
  { rewrite first_unfold. unfold async. fold w0.
    rewrite (chain_run _ _ _ _ _ w0 _ _ text _ _ Hrender Hthen'
               (promise_catch_reject _ _ _)).
    by rewrite (finally_restores _ (this w) 1). }
  rewrite Hrun. simpl. split; [done|]. split; [|done].
  intros ->. rewrite !app_assoc. apply last_snoc.
Qed.

(** The whole of [count], once the query text is rendered. *)
Lemma count_run (callback : bool) (w : QueryRun T) (text : string) :
  builderToString (_builder (this w)) = Normal text →
  let query :=
    indexQueryOf text (forced 0 (withStatistics (this w)) (this w)) in
  count' callback w
  = (match envelopeOf (execute query) with
     | Fulfilled response => Fulfilled (default 0%Z (TotalResults response))
     | Rejected e => Rejected e
     end,
     after ([EmitDocumentsQueried; ExecuteCommand query]
            ++ if callback
               then [match envelopeOf (execute query) with
                     | Fulfilled response =>
                       CallbackCount (default 0%Z (TotalResults response))
                     | Rejected e => CallbackError e
                     end]
               else []) w).
Proof.
  intros Hrender query.
  set (w0 := with_this (forced 0 (withStatistics (this w)) (this w)) w).
  set (w1 := after [EmitDocumentsQueried; ExecuteCommand query] w0).
  rewrite count_unfold. unfold async. fold w0.
  destruct (envelopeOf (execute query)) as [response|e] eqn:Henvelope.
  - assert (Hthen :
      promise_then (envelopeOf (execute (indexQueryOf text (this w0))))
        (count_then callback)
        (after [EmitDocumentsQueried;
                ExecuteCommand (indexQueryOf text (this w0))] w0)
      = (Normal (Fulfilled (default 0%Z (TotalResults response))),
         after (if callback
                then [CallbackCount (default 0%Z (TotalResults response))]
                else []) w1)).
    { change (indexQueryOf text (this w0)) with query. rewrite Henvelope.
      unfold promise_then, count_then, after. fold w1.
      destruct callback; simpl; [done|]. by rewrite (app_nil_r (_ ++ _)). }
    rewrite (chain_run _ _ _ _ _ w0 _ _ text _ _ Hrender Hthen
               (promise_catch_reject _ _ _)).
    rewrite finally_restores_paging by done.
    unfold with_this, after. simpl. destruct w. simpl.
    by rewrite <- !app_assoc.
  - assert (Hthen :
      promise_then (envelopeOf (execute (indexQueryOf text (this w0))))
        (count_then callback)
        (after [EmitDocumentsQueried;
                ExecuteCommand (indexQueryOf text (this w0))] w0)
      = (Normal (Rejected e), w1)).
    { change (indexQueryOf text (this w0)) with query. by rewrite Henvelope. }
    rewrite (chain_run _ _ _ _ _ w0 _ _ text _ _ Hrender Hthen
               (promise_catch_reject _ _ _)).
    rewrite finally_restores_paging by by destruct callback.
    unfold with_this, after. destruct callback; simpl; destruct w; simpl.
    + by rewrite <- !app_assoc.
    + done.
Qed.

(** X10.  [count] submits the query with take 0 and skip 0 and leaves
    the statistics mode alone.  It hands back the total the answer
    reports, 0 when the answer reports none or is null; it converts no
    document, so besides the documents-queried notification and the
    command it emits nothing but the delivery to the callback; afterwards
    the query is as it was before the call. *)
Theorem count_returns_total (callback : bool) (w : QueryRun T)
    (text : string) (answer : option IRavenResponse)
    (Hrender : builderToString (_builder (this w)) = Normal text)
    (Hexecute :
       execute (indexQueryOf text
                  (forced 0 (withStatistics (this w)) (this w)))
       = Fulfilled answer)
    (Hfresh : ∀ response, answer = Some response →
                          IsStale response ≠ Some true) :
  let query :=
    indexQueryOf text (forced 0 (withStatistics (this w)) (this w)) in
  let total := default 0%Z (answer ≫= TotalResults) in
  (iq_take query = 0%Z ∧ iq_skip query = 0%Z) ∧
  count' callback w
  = (Fulfilled total,
     after ([EmitDocumentsQueried; ExecuteCommand query]
            ++ if callback then [CallbackCount total] else []) w).
Proof.
  intros query total. split; [done|].
  pose proof (count_run callback w text Hrender) as Hrun.
  cbv zeta in Hrun. rewrite Hexecute in Hrun. rewrite Hrun.
  destruct answer as [response|]; simpl; [|done].
  rewrite bool_decide_eq_false_2 by by apply Hfresh. done.
Qed.
End MoreTerminalMethods.

Section Failures.
Context {T : Type}.
Variable conventions : DocumentConventions T.
Variable builderToString : list BuilderCall → Completion string.
Variable execute : IndexQuery → Settled (option IRavenResponse).

#[local] Abbreviation single' := (single conventions builderToString execute).
#[local] Abbreviation first' := (first conventions builderToString execute).
#[local] Abbreviation count' := (count (T:=T) builderToString execute).

(** A chain whose execution settles as a rejection: the [then] handler
    is passed over. *)
Lemma chain_rejected {B} (h : IRavenResponse → M (QueryRun T) (Settled B))
    (callback : bool) (restore : M (QueryRun T) unit) (w : QueryRun T)
    (text : string) (e : RavenException) :
  builderToString (_builder (this w)) = Normal text →
  envelopeOf (execute (indexQueryOf text (this w))) = Rejected e →
  (p ← executeQuery builderToString execute;
   p ← promise_then p h;
   p ← promise_catch p (λ error, PromiseResolver_reject error callback);
   promise_finally p restore) w
  = promise_finally (Rejected e) restore
      (after ([EmitDocumentsQueried;
               ExecuteCommand (indexQueryOf text (this w))]
              ++ if callback then [CallbackError e] else []) w).
Proof.
  intros Hrender Hrej.
  erewrite (chain_run _ _ h callback restore w _ _ text (Rejected e));
    [| done | by rewrite Hrej | apply promise_catch_reject].
  unfold after. destruct callback; simpl; [|done].
  by rewrite <- app_assoc.
Qed.

(** X11.  When the execution layer rejects the command, or answers with
    a stale index, [single], [first] and [count] reject with that error:
    no document is converted, the callback, when there is one, gets the
    error once, and the query is as it was before the call. *)
Theorem terminal_methods_pass_rejection_on (callback : bool)
    (w : QueryRun T) (text : string) (e : RavenException)
    (Hrender : builderToString (_builder (this w)) = Normal text)
    (Hrejected : ∀ query, envelopeOf (execute query) = Rejected e) :
  let submitted take statistics :=
    [EmitDocumentsQueried;
     ExecuteCommand (indexQueryOf text (forced take statistics (this w)))]
    ++ if callback then [CallbackError e : Effect T] else [] in
  single' callback w = (Rejected e, after (submitted 2%Z (Some false)) w) ∧
  first' callback w = (Rejected e, after (submitted 1%Z (Some false)) w) ∧
  count' callback w
  = (Rejected e, after (submitted 0%Z (withStatistics (this w))) w).
Proof.
  intros submitted. repeat split.
  - rewrite single_unfold. unfold async.
    rewrite (chain_rejected _ _ _ _ text e) by done.
    rewrite (finally_restores _ (this w) 2) by done.
    unfold with_this, after. simpl. by destruct w.
  - rewrite first_unfold. unfold async.
    rewrite (chain_rejected _ _ _ _ text e) by done.
    rewrite (finally_restores _ (this w) 1) by done.
    unfold with_this, after. simpl. by destruct w.
  - rewrite count_unfold. unfold async.
    rewrite (chain_rejected _ _ _ _ text e) by done.
    rewrite finally_restores_paging by done.
    unfold with_this, after. simpl. by destruct w.
Qed.

(** The conversion loop stops at the first raw document that does not
    convert. *)
Lemma convertEach_throw (before rest : list JsValue) (bad : JsValue)
    (convs : list (IDocumentConversionResult T)) (results : list T)
    (e : RavenException) (w : QueryRun T) :
  converted conventions (this w) before convs →
  convertToDocument conventions bad (documentType (this w))
    (nestedObjectTypes (this w)) = Throw e →
  convertEach conventions (before ++ bad :: rest) results w
  = (Throw e,
     after (EmitDocumentFetched <$> fetchedDocuments conventions before convs)
       w).
Proof.
  revert convs results w.
  induction before as [|raw before IH]; intros convs results w Hconv Hbad.
  - apply Forall2_nil_inv_l in Hconv as ->. simpl.
    unfold mbind, M_bind, get, lift. simpl. rewrite Hbad.
    unfold after. simpl. rewrite app_nil_r. by destruct w.
  - apply Forall2_cons_inv_l in Hconv as (c & convs' & Hc & Hconv & ->).
    simpl. unfold mbind, M_bind, get, lift. simpl. rewrite Hc.
    unfold fetchedDocuments. simpl. rewrite filter_cons. simpl.
    destruct (checkIsProjection conventions raw) eqn:Hp; simpl.
    + by rewrite (IH convs').
    + rewrite (IH convs') by done.
      unfold after. simpl. by rewrite <- !app_assoc.
Qed.

(** X12.  When a raw document does not convert, the conversion throws
    the error of the conventions: the documents before it have been
    announced, the documents after it are neither converted nor
    announced, no includes-fetched notification is emitted, and the query
    object is not touched. *)
Theorem conversion_stops_at_failure (response : IRavenResponse)
    (before rest : list JsValue) (bad : JsValue)
    (convs : list (IDocumentConversionResult T)) (e : RavenException)
    (w : QueryRun T)
    (Hdocs : tryFetchResults conventions response = before ++ bad :: rest)
    (Hconv : converted conventions (this w) before convs)
    (Hbad : convertToDocument conventions bad (documentType (this w))
              (nestedObjectTypes (this w)) = Throw e) :
  convertResponseToDocuments conventions response w
  = (Throw e,
     after (EmitDocumentFetched <$>
              (filter (λ rc, checkIsProjection conventions rc.1 = false)
                      (zip before convs)).*2) w).
Proof.
  unfold convertResponseToDocuments. rewrite Hdocs.
  rewrite bool_decide_eq_true_2 by (rewrite length_app; simpl; lia).
  unfold mbind, M_bind. by rewrite (convertEach_throw _ _ _ convs _ e).
Qed.
End Failures.

(** ** [all] *)

Section AllProperties.
Context {T : Type}.
Variable conventions : DocumentConventions T.
Variable builderToString : list BuilderCall → Completion string.
Variable execute : IndexQuery → Settled (option IRavenResponse).

#[local] Abbreviation all' :=
  (DocumentQueryBase.all conventions builderToString execute).

Lemma executeQuery_this :
  preserves_this (executeQuery (T:=T) builderToString execute).
Proof.
  intros w. destruct (builderToString (_builder (this w))) as [text|e] eqn:H.
  - by rewrite (executeQuery_normal _ _ _ text).
  - by rewrite (executeQuery_throw _ _ _ e).
Qed.

(** X13.  [all] never writes the query object: paging, statistics,
    table and builder are the same after it, whether it succeeds, the
    execution fails, the conversion fails or the query text cannot be
    rendered. *)
Theorem all_leaves_query_alone (callback : bool)
    (s : DocumentQueryBase.AllRun T) :
  this (DocumentQueryBase.run (all' callback s).2)
  = this (DocumentQueryBase.run s).
Proof.
  unfold DocumentQueryBase.all, async, mbind, M_bind.
  unfold DocumentQueryBase.onRun at 1.
  pose proof (executeQuery_this (DocumentQueryBase.run s)) as Hexec.
  destruct (executeQuery _ _ _) as [[p|e] w1]; simpl in *; [|done].
  destruct p as [response|e]; simpl.
  - unfold DocumentQueryBase.all_then, mbind, M_bind,
      DocumentQueryBase.onRun. simpl.
    pose proof (convertResponseToDocuments_this conventions response w1)
      as Hconv.
    destruct (convertResponseToDocuments _ _ _) as [[result|e] w2];
      simpl in *.
    + destruct callback; simpl; congruence.
    + unfold promise_catch, DocumentQueryBase.onRun. simpl.
      pose proof (PromiseResolver_reject_this (T:=T) (A:=QueryResults T)
                    e callback w2) as Hrej.
      destruct (PromiseResolver_reject _ _ _) as [[r|e'] w3];
        simpl in *; congruence.
  - unfold promise_catch, DocumentQueryBase.onRun. simpl.
    pose proof (PromiseResolver_reject_this (T:=T) (A:=QueryResults T)
                  e callback w1) as Hrej.
    destruct (PromiseResolver_reject _ _ _) as [[r|e'] w3];
      simpl in *; congruence.
Qed.

(** X14.  [all] submits the query with the paging the query has.  On an
    answer that is not stale and holds at least one raw document, all of
    which convert, it hands back one entity per raw document, in order:
    as the pair of the entities and the whole response in statistics
    mode, as the plain sequence otherwise; the callback, when there is
    one, gets the same value once. *)
Theorem all_returns_every_document (callback : bool)
    (s : DocumentQueryBase.AllRun T) (text : string)
    (response : IRavenResponse)
    (convs : list (IDocumentConversionResult T))
    (Hrender : builderToString (_builder (this (DocumentQueryBase.run s)))
               = Normal text)
    (Hexecute : execute (indexQueryOf text (this (DocumentQueryBase.run s)))
                = Fulfilled (Some response))
    (Hfresh : IsStale response ≠ Some true)
    (Hnonempty : tryFetchResults conventions response ≠ [])
    (Hconv : converted conventions (this (DocumentQueryBase.run s))
               (tryFetchResults conventions response) convs) :
  let q := this (DocumentQueryBase.run s) in
  let result :=
    if bool_decide (withStatistics q = Some true)
    then ResultsWithStatistics (document <$> convs) response
    else PlainResults (document <$> convs) in
  (all' callback s).1 = Fulfilled result ∧
  length (document <$> convs) = length (tryFetchResults conventions response) ∧
  DocumentQueryBase.delivered (all' callback s).2
  = DocumentQueryBase.delivered s ++ (if callback then [result] else []) ∧
  ExecuteCommand
    {| iq_query := text; iq_queryParameters := queryParameters q;
       iq_take := default TypeUtil.MAX_INT32 (_take q);
       iq_skip := default 0%Z (_skip q);
       iq_options := indexQueryOptions q |}
  ∈ effects (DocumentQueryBase.run (all' callback s).2).
Proof.
  intros q result.
  assert (Hlen : length (document <$> convs)
                 = length (tryFetchResults conventions response)).
  { rewrite length_fmap. symmetry. by eapply Forall2_length. }
  assert (Hrun : all' callback s
    = (Fulfilled result,
       {| DocumentQueryBase.run :=
            after ((EmitDocumentFetched <$>
                      fetchedDocuments conventions
                        (tryFetchResults conventions response) convs)
                   ++ includesFetched (tryFetchIncludes conventions response))
              (after [EmitDocumentsQueried;
                      ExecuteCommand (indexQueryOf text q)]
                 (DocumentQueryBase.run s));
          DocumentQueryBase.delivered :=
            DocumentQueryBase.delivered s
            ++ (if callback then [result] else []) |})).
  { unfold DocumentQueryBase.all, async, mbind, M_bind.
    unfold DocumentQueryBase.onRun at 1.
    rewrite (executeQuery_normal _ _ _ text) by done.
    rewrite Hexecute. simpl. rewrite bool_decide_eq_false_2 by done. simpl.
    unfold DocumentQueryBase.all_then, mbind, M_bind, DocumentQueryBase.onRun.
    simpl.
    rewrite (convertResponseToDocuments_normal conventions response convs)
      by done.
    simpl. fold q. fold result.
    destruct callback; simpl; [done|]. by rewrite app_nil_r. }
  rewrite Hrun. simpl. split; [done|]. split; [done|]. split; [done|].
  unfold indexQueryOf. rewrite toJson_id, !elem_of_app, !elem_of_cons. auto.
Qed.
End AllProperties.

(** ** The descriptor, paging and freshness options *)

Section Descriptor.
Context {T : Type}.
Variable builderToString : list BuilderCall → Completion string.

(** X15.  [getIndexQuery] reads the query and writes nothing.  The
    descriptor holds the rendered text, every binding of the table and
    no other, the freshness options, and the paging of the query: a take
    or skip that was set, 0 included, and otherwise the largest 32-bit
    integer for take and 0 for skip. *)
Theorem getIndexQuery_descriptor (w : QueryRun T) (text : string)
    (Hrender : builderToString (_builder (this w)) = Normal text) :
  ∃ d, getIndexQuery builderToString w = (Normal d, w) ∧
       iq_query d = text ∧
       iq_queryParameters d = queryParameters (this w) ∧
       iq_options d = indexQueryOptions (this w) ∧
       (∀ n, _take (this w) = Some n → iq_take d = n) ∧
       (_take (this w) = None → iq_take d = 2147483647%Z) ∧
       (∀ n, _skip (this w) = Some n → iq_skip d = n) ∧
       (_skip (this w) = None → iq_skip d = 0%Z).
Proof.
  exists (indexQueryOf text (this w)).
  split; [by apply getIndexQuery_normal|]. split; [done|].
  split; [apply toJson_id|]. split; [done|]. simpl.
  repeat split; by intros; simplify_option_eq.
Qed.
End Descriptor.

Section PagingProperties.
Context {T : Type}.
Variable builderToString : list BuilderCall → Completion string.

(** X16.  What [take] and [skip] set is what [getIndexQuery] hands to
    the execution layer: the later call wins, a 0 is kept and not
    replaced by the default, and the text, the bindings and the
    freshness options of the descriptor are the same as before the
    calls. *)
Theorem paging_reaches_descriptor (take skip earlier : Z)
    (w : QueryRun T) (text : string)
    (Hrender : builderToString (_builder (this w)) = Normal text) :
  let q' := (DocumentQueryBase.skip skip
               (DocumentQueryBase.take take
                  (DocumentQueryBase.take earlier (this w)).2).2).2 in
  ∃ d d0,
    getIndexQuery builderToString (with_this q' w)
    = (Normal d, with_this q' w) ∧
    getIndexQuery builderToString w = (Normal d0, w) ∧
    iq_take d = take ∧ iq_skip d = skip ∧
    iq_query d = iq_query d0 ∧
    iq_queryParameters d = iq_queryParameters d0 ∧
    iq_options d = iq_options d0.
Proof.
  intros q'. exists (indexQueryOf text q'), (indexQueryOf text (this w)).
  split; [by apply (getIndexQuery_normal builderToString (with_this q' w))|].
  split; [by apply getIndexQuery_normal|]. done.
Qed.
End PagingProperties.

Section FreshnessProperties.
Variable DefaultTimeout : JsValue.

#[local] Abbreviation waitForNonStaleResults' :=
  (DocumentQueryBase.waitForNonStaleResults DefaultTimeout).
#[local] Abbreviation waitForNonStaleResultsAsOf' :=
  (DocumentQueryBase.waitForNonStaleResultsAsOf DefaultTimeout).
#[local] Abbreviation waitForNonStaleResultsAsOfNow' :=
  (DocumentQueryBase.waitForNonStaleResultsAsOfNow DefaultTimeout).

(** X17.  The three freshness methods turn the wait on and write the
    cutoff and the timeout: an omitted timeout and the timeout 0 both
    give the default timeout.  They write no other option: a plain
    [waitForNonStaleResults] after [waitForNonStaleResultsAsOfNow] leaves
    the as-of-now flag on.  Table, builder and paging are not touched. *)
Theorem freshness_options (q : DocumentQuery) (etag : Z)
    (waitTimeout : option Z) (key : string) :
  let o q := indexQueryOptions q in
  let q1 := (waitForNonStaleResults' q).2 in
  let q2 := (waitForNonStaleResultsAsOf' etag waitTimeout q).2 in
  let q3 := (waitForNonStaleResultsAsOfNow' waitTimeout q).2 in
  let timeout :=
    match waitTimeout with
    | Some n => if bool_decide (n = 0%Z) then DefaultTimeout else JNumber n
    | None => DefaultTimeout
    end in
  (o q1 !! "waitForNonStaleResults" = Some (JBool true) ∧
   o q1 !! "cutOffEtag" = Some JNull ∧
   o q1 !! "waitForNonStaleResultsTimeout" = Some DefaultTimeout) ∧
  (o q2 !! "waitForNonStaleResults" = Some (JBool true) ∧
   o q2 !! "cutOffEtag" = Some (JNumber etag) ∧
   o q2 !! "waitForNonStaleResultsTimeout" = Some timeout) ∧
  (o q3 !! "waitForNonStaleResults" = Some (JBool true) ∧
   o q3 !! "cutOffEtag" = Some JNull ∧
   o q3 !! "waitForNonStaleResultsAsOfNow" = Some (JBool true) ∧
   o q3 !! "waitForNonStaleResultsTimeout" = Some timeout) ∧
  (key ∉ ["cutOffEtag"; "waitForNonStaleResults";
          "waitForNonStaleResultsTimeout"] →
   o q1 !! key = o q !! key ∧ o q2 !! key = o q !! key ∧
   (key ≠ "waitForNonStaleResultsAsOfNow" → o q3 !! key = o q !! key)) ∧
  o (waitForNonStaleResults' q3).2 !! "waitForNonStaleResultsAsOfNow"
  = Some (JBool true) ∧
  (∀ q', q' ∈ [q1; q2; q3] →
     set_indexQueryOptions (λ _, indexQueryOptions q) q' = q).
Proof.
  intros o q1 q2 q3 timeout. simpl.
  repeat split; try by simplify_map_eq.
  1-3: match goal with
       | H : _ ∉ _ |- _ =>
         rewrite !not_elem_of_cons in H; destruct H as (? & ? & ? & _)
       end.
  - unfold o. by rewrite !lookup_insert_ne.
  - unfold o. by rewrite !lookup_insert_ne.
  - intros Hnow. unfold o. by rewrite !lookup_insert_ne.
  - intros q' Hq'. rewrite !elem_of_cons, elem_of_nil in Hq'.
    destruct Hq' as [->|[->|[->|[]]]]; by destruct q.
Qed.
End FreshnessProperties.

(** ** Construction *)

Section ConstructionProperties.
Variable getIdPropertyName : string → string.
Variable emptyCollection : string.
Variable singular : string → string.
Variable capitalize : string → string.

#[local] Abbreviation new' :=
  (DocumentQueryBase.new getIdPropertyName emptyCollection singular
     capitalize).
#[local] Abbreviation create' :=
  (DocumentQueryBase.create getIdPropertyName emptyCollection singular
     capitalize).

Lemma truthyString_Some (s : option string) :
  truthyString s = true → ∃ x, s = Some x ∧ x ≠ "".
Proof.
  destruct s as [x|]; [|done]. simpl. intros Hx. exists x. split; [done|].
  intros ->. done.
Qed.

Lemma stringOr_truthy (s fallback : option string) :
  truthyString fallback = true → truthyString (stringOr s fallback) = true.
Proof. unfold stringOr. by destruct (truthyString s) eqn:Hs. Qed.

(** X18.  A new query has exactly one target: the index when a non-empty
    index name is given, and otherwise the collection, [@all_docs] when
    no collection or the empty name is given.  Neither name is ever the
    empty string, the builder is created for the same target, and the
    query starts without bindings, builder calls and paging. *)
Theorem new_query_has_one_target (collection indexName documentType : option string)
    (nestedObjectTypes : option (gmap string string))
    (withStatistics : option (option bool))
    (indexQueryOptions : option (gmap string JsValue)) :
  let q := (new' collection indexName documentType nestedObjectTypes
              withStatistics indexQueryOptions).1 in
  let b := (new' collection indexName documentType nestedObjectTypes
              withStatistics indexQueryOptions).2 in
  (if truthyString indexName
   then _indexName q = indexName ∧ _collectionName q = None
   else _indexName q = None ∧
        _collectionName q
        = (if truthyString collection then collection
           else Some "@all_docs")) ∧
  _indexName q ≠ Some "" ∧ _collectionName q ≠ Some "" ∧
  (is_Some (_indexName q) ↔ _collectionName q = None) ∧
  qb_indexName b = _indexName q ∧ qb_collectionName b = _collectionName q ∧
  queryParameters q = ∅ ∧ _builder q = [] ∧
  _take q = None ∧ _skip q = None ∧
  params_wf (queryParameters q) ∧ operands_bound q.
Proof.
  intros q b. subst q b. unfold DocumentQueryBase.new.
  destruct (if truthyString documentType then _ else _) as [idPropertyName dt].
  assert (Hfresh : params_wf (∅ : gmap string JsValue) ∧
                   ∀ q, _builder q = [] → operands_bound q).
  { split; [apply params_wf_empty|].
    intros q Hq c n Hc. rewrite Hq in Hc. by apply elem_of_nil in Hc. }
  destruct Hfresh as [Hwf Hbound].
  destruct (truthyString indexName) eqn:Hi; simpl.
  - apply truthyString_Some in Hi as (i & -> & Hi).
    repeat split; try done; try (by apply Hbound); try (by eexists).
    by intros [= ->].
  - pose proof (stringOr_truthy collection (Some "@all_docs") eq_refl) as Hc.
    apply truthyString_Some in Hc as (c & Hc & Hne).
    repeat split; try done; try by apply Hbound.
    + rewrite Hc. by intros [= ->].
    + by rewrite Hc.
Qed.
End ConstructionProperties.

Section CreateProperties.
Variable getIdPropertyName : string → string.
Variable emptyCollection : string.
Variable singular : string → string.
Variable capitalize : string → string.

#[local] Abbreviation create' :=
  (DocumentQueryBase.create getIdPropertyName emptyCollection singular
     capitalize).

(** X19.  The factory never turns statistics off by the value false: a
    query made by [create] has statistics on when the options say true,
    and null in every other case, also when the options say false.
    Without options, or without a collection and an index in them, the
    query targets [@all_docs]. *)
Theorem create_defaults (options : option IDocumentQueryOptions) :
  let q := (create' options).1 in
  (withStatistics q
   = if bool_decide (options ≫= opt_withStatistics = Some true)
     then Some true else None) ∧
  withStatistics q ≠ Some false ∧
  (truthyString (options ≫= opt_indexName) = false →
   truthyString (options ≫= opt_collection) = false →
   _indexName q = None ∧ _collectionName q = Some "@all_docs") ∧
  indexQueryOptions q = default ∅ (options ≫= opt_indexQueryOptions) ∧
  nestedObjectTypes q = default ∅ (options ≫= opt_nestedObjectTypes).
Proof.
  intros q. subst q. unfold DocumentQueryBase.create.
  destruct options as [o|]; simpl.
  - unfold DocumentQueryBase.new.
    destruct (if truthyString (stringOr (opt_documentType o) None)
              then _ else _) as [idPropertyName dt].
    assert (Hindex : truthyString (opt_indexName o) = false →
                     truthyString (stringOr (opt_indexName o) None) = false).
    { unfold stringOr. by intros ->. }
    destruct (truthyString (stringOr (opt_indexName o) None)) eqn:Hi; simpl.
    + split; [done|]. split; [by destruct (bool_decide _)|].
      split; [|done]. intros Hno. by specialize (Hindex Hno).
    + split; [done|]. split; [by destruct (bool_decide _)|].
      split; [|done]. intros _ Hc. unfold stringOr. by rewrite Hc.
  - unfold DocumentQueryBase.new. simpl. by repeat split.
Qed.
End CreateProperties.

(** ** Commands *)

Section CommandProperties.
Context {V Response : Type}.
Implicit Types (c : RavenCommand.t V Response) (node : RavenCommand.ServerNode).

(** X20.  The failed nodes of a command: a new command has none; a node
    counts as failed for the command exactly when it has been added, and
    then the command counts as failed; adding a node says nothing about
    other nodes, adding it again changes nothing, and nothing but the set
    of failed nodes is written. *)
Theorem failed_nodes_bookkeeping c node other
    (endPoint : string) (method : option string)
    (params payload : option (gmap string V))
    (headers : option (gmap string string)) :
  let c' := (RavenCommand.addFailedNode node c).2 in
  RavenCommand.wasFailed
    (RavenCommand.new (Response:=Response) endPoint method params payload
       headers) = false ∧
  (RavenCommand.wasFailedWithNode node c = true
   ↔ RavenCommand.ref node ∈ RavenCommand.failedNodes c) ∧
  RavenCommand.wasFailedWithNode node c' = true ∧
  RavenCommand.wasFailed c' = true ∧
  (RavenCommand.ref other ≠ RavenCommand.ref node →
   RavenCommand.wasFailedWithNode other c'
   = RavenCommand.wasFailedWithNode other c) ∧
  (RavenCommand.addFailedNode node c').2 = c' ∧
  (RavenCommand.params c' = RavenCommand.params c ∧
   RavenCommand.endPoint c' = RavenCommand.endPoint c ∧
   RavenCommand._lastResponse c' = RavenCommand._lastResponse c).
Proof.
  intros c'.
  assert (Hiff : ∀ c0 n, RavenCommand.wasFailedWithNode n c0 = true
                 ↔ RavenCommand.ref n ∈ RavenCommand.failedNodes c0).
  { intros c0 n. unfold RavenCommand.wasFailedWithNode, RavenCommand.wasFailed.
    rewrite andb_true_iff, !bool_decide_eq_true. split; [by intros [_ ?]|].
    intros Hin. split; [|done].
    destruct (decide (size (RavenCommand.failedNodes c0) = 0)) as [H0|]; [|lia].
    apply size_empty_iff in H0. apply H0 in Hin.
    by apply elem_of_empty in Hin. }
  assert (Hin : RavenCommand.ref node ∈ RavenCommand.failedNodes c').
  { simpl. apply elem_of_union. left. by apply elem_of_singleton. }
  split; [done|]. split; [apply Hiff|]. split; [by apply Hiff|].
  split.
  { apply Hiff in Hin. unfold RavenCommand.wasFailedWithNode in Hin.
    by apply andb_true_iff in Hin as [? _]. }
  split.
  { intros Hne. apply eq_true_iff_eq. rewrite !Hiff. simpl.
    rewrite elem_of_union, elem_of_singleton. split; [|by right].
    by intros [?|?]. }
  split; [|done].
  unfold c'. simpl. f_equal. rewrite (assoc_L (∪)). f_equal.
  apply union_idemp_L.
Qed.

Lemma foldl_delete_lookup (names : list string) (ps : gmap string V)
    (k : string) :
  foldl (λ ps param, delete param ps) ps names !! k
  = if decide (k ∈ names) then None else ps !! k.
Proof.
  revert ps. induction names as [|n names IH]; intros ps; simpl; [done|].
  rewrite IH.
  destruct (decide (k ∈ names)) as [Hin|Hnin],
    (decide (k ∈ n :: names)) as [Hin'|Hnin']; try done.
  - destruct Hnin'. apply elem_of_cons. by right.
  - apply elem_of_cons in Hin' as [->|?]; [|done]. apply lookup_delete_eq.
  - apply lookup_delete_ne. intros ->. apply Hnin', elem_of_cons. by left.
Qed.

(** X21.  The parameters of a command.  [addParams] with a name binds
    the value under the name and leaves the other parameters; with an
    object it writes every member of the object over the parameters;
    with null it does nothing.  [removeParams] with an array removes the
    names of the array and ignores any further argument; with a name it
    removes the name and the further names.  Removing a name that was
    added to a command that did not have it gives the command back. *)
Theorem params_add_remove c (k k' : string) (v : V)
    (object : gmap string V) (names others : list string) :
  let added := (RavenCommand.addParams (RavenCommand.ParamName k) v c).2 in
  let merged :=
    (RavenCommand.addParams (RavenCommand.ParamsObject object) v c).2 in
  (RavenCommand.addParams RavenCommand.NoParams v c).2 = c ∧
  RavenCommand.params added !! k = Some v ∧
  (k' ≠ k → RavenCommand.params added !! k' = RavenCommand.params c !! k') ∧
  RavenCommand.params merged !! k'
  = (match object !! k' with
     | Some x => Some x
     | None => RavenCommand.params c !! k'
     end) ∧
  RavenCommand.params
    (RavenCommand.removeParams (RavenCommand.NameArray names) others c).2 !! k'
  = (if decide (k' ∈ names) then None else RavenCommand.params c !! k') ∧
  RavenCommand.params
    (RavenCommand.removeParams (RavenCommand.OneName k) others c).2 !! k'
  = (if decide (k' ∈ k :: others) then None
     else RavenCommand.params c !! k') ∧
  (RavenCommand.params c !! k = None →
   (RavenCommand.removeParams (RavenCommand.OneName k) [] added).2 = c).
Proof.
  intros added merged. split; [done|]. split.
  { simpl. rewrite <- insert_union_singleton_l. apply lookup_insert_eq. }
  split.
  { intros Hne. simpl. rewrite <- insert_union_singleton_l.
    by apply lookup_insert_ne. }
  split.
  { simpl. rewrite lookup_union. destruct (object !! k') as [x|] eqn:Ho.
    - by destruct (RavenCommand.params c !! k').
    - by rewrite (left_id None _). }
  split; [apply foldl_delete_lookup|]. split; [apply foldl_delete_lookup|].
  intros Hfresh. unfold added. destruct c. simpl in *.
  unfold RavenCommand.set_params. simpl. f_equal.
  rewrite <- insert_union_singleton_l, delete_insert_eq.
  by apply delete_id.
Qed.

(** X22.  The request options never carry an empty query string or an
    empty body: each is present exactly when the parameters, or the
    payload, hold a member, and then it is the parameters, or the
    payload, themselves.  A command made without parameters has no query
    string, and one parameter added is enough to have one. *)
Theorem request_options_leave_out_empty c (endPoint k : string) (v : V) :
  let options := RavenCommand.toRequestOptions c in
  (RavenCommand.qs options
   = if decide (RavenCommand.params c = ∅) then None
     else Some (RavenCommand.params c)) ∧
  (RavenCommand.body options
   = match RavenCommand.payload c with
     | Some payload => if decide (payload = ∅) then None else Some payload
     | None => None
     end) ∧
  RavenCommand.qs options ≠ Some ∅ ∧ RavenCommand.body options ≠ Some ∅ ∧
  RavenCommand.uri options = RavenCommand.endPoint c ∧
  RavenCommand.qs
    (RavenCommand.toRequestOptions
       (RavenCommand.new (V:=V) (Response:=Response) endPoint None None None
          None))
  = None ∧
  (∃ ps, RavenCommand.qs
           (RavenCommand.toRequestOptions
              (RavenCommand.addParams (RavenCommand.ParamName k) v c).2)
         = Some ps ∧ ps !! k = Some v).
Proof.
  intros options. unfold options, RavenCommand.toRequestOptions,
    RavenCommand.check. simpl.
  split.
  { destruct (decide (RavenCommand.params c = ∅)) as [H|H].
    - by rewrite bool_decide_eq_true_2.
    - by rewrite bool_decide_eq_false_2. }
  split.
  { destruct (RavenCommand.payload c) as [payload|]; [|done].
    destruct (decide (payload = ∅)) as [H|H].
    - by rewrite bool_decide_eq_true_2.
    - by rewrite bool_decide_eq_false_2. }
  split.
  { destruct (bool_decide (RavenCommand.params c = ∅)) eqn:H; simpl; [done|].
    apply bool_decide_eq_false in H. congruence. }
  split.
  { destruct (RavenCommand.payload c) as [payload|]; [|done].
    destruct (bool_decide (payload = ∅)) eqn:H; simpl; [done|].
    apply bool_decide_eq_false in H. congruence. }
  split; [done|]. split; [done|].
  eexists. rewrite bool_decide_eq_false_2.
  - split; [done|]. rewrite <- insert_union_singleton_l. apply lookup_insert_eq.
  - rewrite <- insert_union_singleton_l. apply insert_non_empty.
Qed.

Section Responses.
Variable throwFrom : Response → option RavenException.
Variable bodyOf : Response → V.
Variable truthy : V → bool.

(** X23.  [setResponse] records the response as the last response of
    the command before it validates it: the response is recorded also
    when the validation throws.  A validated response gives its body
    when the body is truthy and nothing otherwise; nothing else of the
    command is written. *)
Theorem setResponse_records_response c (response : Response) :
  let result := RavenCommand.setResponse throwFrom bodyOf truthy response c in
  RavenCommand.serverResponse result.2 = Some response ∧
  result.1
  = (match throwFrom response with
     | Some e => Throw e
     | None => Normal (if truthy (bodyOf response)
                       then Some (bodyOf response) else None)
     end) ∧
  RavenCommand.params result.2 = RavenCommand.params c ∧
  RavenCommand.failedNodes result.2 = RavenCommand.failedNodes c ∧
  RavenCommand.endPoint result.2 = RavenCommand.endPoint c.
Proof.
  intros result. unfold result, RavenCommand.setResponse, mbind, M_bind.
  simpl. destruct (throwFrom response) as [e|]; simpl; [done|].
  by destruct (truthy (bodyOf response)).
Qed.
End Responses.
End CommandProperties.

(** The pattern is a prefix of every string that starts with it. *)
Lemma stripPrefix_app (pattern rest : string) :
  RavenCommand.stripPrefix pattern (pattern +:+ rest) = Some rest.
Proof.
  induction pattern as [|a pattern IH]; simpl; [by destruct rest|].
  by rewrite bool_decide_eq_true_2.
Qed.

Lemma stripPrefix_Some (pattern s rest : string) :
  RavenCommand.stripPrefix pattern s = Some rest → s = pattern +:+ rest.
Proof.
  revert s. induction pattern as [|a pattern IH]; intros s; simpl.
  - by intros [= ->].
  - destruct s as [|b s]; [done|]. case_bool_decide; [|done].
    intros Hrest%IH. by subst.
Qed.

(** The string after the first occurrence of the pattern has been taken
    out, when the occurrence is known. *)
Lemma removeFirst_first_occurrence (pattern before following : string) :
  (∀ before' following',
     before +:+ pattern +:+ following = before' +:+ pattern +:+ following' →
     (String.length before ≤ String.length before')%nat) →
  RavenCommand.removeFirst pattern (before +:+ pattern +:+ following)
  = before +:+ following.
Proof.
  induction before as [|c before IH]; intros Hfirst.
  - pose proof (stripPrefix_app pattern following) as Hstrip. simpl.
    destruct (pattern +:+ following); simpl; by rewrite Hstrip.
  - simpl.
    destruct (RavenCommand.stripPrefix pattern
                (String c (before +:+ pattern +:+ following)))
      as [rest|] eqn:Hstrip.
    + apply stripPrefix_Some in Hstrip.
      specialize (Hfirst "" rest). simpl in Hfirst.
      specialize (Hfirst Hstrip). lia.
    + change (String c before +:+ following)
        with (String c (before +:+ following)).
      f_equal. apply IH. intros before' following' Heq.
      assert (Hle : (String.length (String c before)
                     ≤ String.length (String c before'))%nat).
      { apply (Hfirst (String c before') following').
        change (String c (before +:+ pattern +:+ following)
                = String c (before' +:+ pattern +:+ following')).
        by rewrite Heq. }
      simpl in Hle. lia.
Qed.

Lemma removeFirst_no_occurrence (pattern s : string) :
  (∀ before following, s ≠ before +:+ pattern +:+ following) →
  RavenCommand.removeFirst pattern s = s.
Proof.
  intros Hnone. induction s as [|b s IH].
  - simpl. destruct (RavenCommand.stripPrefix pattern "") as [rest|] eqn:H;
      [|done].
    apply stripPrefix_Some in H. exfalso. by apply (Hnone "" rest).
  - simpl. destruct (RavenCommand.stripPrefix pattern (String b s))
      as [rest|] eqn:H.
    + apply stripPrefix_Some in H. exfalso. by apply (Hnone "" rest).
    + f_equal. apply IH. intros before following Heq.
      apply (Hnone (String b before) following). simpl. by rewrite Heq.
Qed.

Lemma stripPrefix_None (pattern s following : string) :
  RavenCommand.stripPrefix pattern s = None → s ≠ pattern +:+ following.
Proof. intros H ->. by rewrite stripPrefix_app in H. Qed.

(** A string in which the pattern occurs has a first occurrence. *)
Lemma first_occurrence (pattern s : string) :
  (∀ before following, s ≠ before +:+ pattern +:+ following) ∨
  ∃ before following,
    s = before +:+ pattern +:+ following ∧
    ∀ before' following',
      s = before' +:+ pattern +:+ following' →
      (String.length before ≤ String.length before')%nat.
Proof.
  induction s as [|b s IH].
  - destruct (RavenCommand.stripPrefix pattern "") as [rest|] eqn:H.
    + apply stripPrefix_Some in H. right. exists "", rest.
      split; [done|]. intros. simpl. lia.
    + left. intros before following Heq.
      destruct before as [|c before]; [|done].
      apply (stripPrefix_None _ _ following H). exact Heq.
  - destruct (RavenCommand.stripPrefix pattern (String b s))
      as [rest|] eqn:H.
    + apply stripPrefix_Some in H. right. exists "", rest.
      split; [done|]. intros. simpl. lia.
    + destruct IH as [Hnone|(before & following & Heq & Hfirst)].
      * left. intros before following Heq.
        destruct before as [|c before].
        -- apply (stripPrefix_None _ _ following H). exact Heq.
        -- injection Heq as -> Heq. by apply (Hnone before following).
      * right. exists (String b before), following. split.
        -- change (String b s
                   = String b (before +:+ pattern +:+ following)).
           by rewrite Heq.
        -- intros before' following' Heq'.
           destruct before' as [|c before'].
           ++ exfalso. apply (stripPrefix_None _ _ following' H).
              exact Heq'.
           ++ injection Heq' as -> Heq'. simpl.
              specialize (Hfirst before' following' Heq'). lia.
Qed.

(** X24.  [pathWithNode] takes the first occurrence of the url of the
    node out of the end point, wherever in the end point it is: what is
    left is what stands before the occurrence followed by what stands
    after it.  An end point in which the url does not occur is given back
    as it is.  One of the two cases always applies. *)
Theorem pathWithNode_strips_url {V Response : Type}
    (c : RavenCommand.t V Response) (node : RavenCommand.ServerNode) :
  let first_at (before following : string) :=
    RavenCommand.endPoint c
    = before +:+ RavenCommand.url node +:+ following ∧
    ∀ before' following',
      RavenCommand.endPoint c
      = before' +:+ RavenCommand.url node +:+ following' →
      (String.length before ≤ String.length before')%nat in
  let absent :=
    ∀ before following,
      RavenCommand.endPoint c
      ≠ before +:+ RavenCommand.url node +:+ following in
  (∀ before following,
     first_at before following →
     RavenCommand.pathWithNode node c = before +:+ following) ∧
  (absent → RavenCommand.pathWithNode node c = RavenCommand.endPoint c) ∧
  (absent ∨ ∃ before following, first_at before following).
Proof.
  intros first_at absent. unfold RavenCommand.pathWithNode.
  split; [|split].
  - intros before following [Heq Hfirst]. rewrite Heq.
    apply removeFirst_first_occurrence. by rewrite <- Heq.
  - apply removeFirst_no_occurrence.
  - apply first_occurrence.
Qed.

(** ** The further theorems at work *)

Lemma first_returns_first_or_null_witness :
  let w := exampleRun (set_take (Some 10%Z) (newQuery "Dogs")) in
  QueryBuilder_toString exampleText (_builder (this w))
  = Normal "from @all_docs /0" ∧
  (first exampleConventions (QueryBuilder_toString exampleText)
     (exampleServer [rex; bo] []) true w).1
  = Fulfilled (Some [("name", JString "Rex")]) ∧
  (first exampleConventions (QueryBuilder_toString exampleText)
     (exampleServer [] []) true w).1
  = Fulfilled None ∧
  this (first exampleConventions (QueryBuilder_toString exampleText)
          (exampleServer [rex; bo] []) true w).2
  = set_take (Some 10%Z) (newQuery "Dogs").
Proof.
  intros w. split; [reflexivity|].
  destruct (first_returns_first_or_null exampleConventions
    (QueryBuilder_toString exampleText) (exampleServer [rex; bo] []) true w
    "from @all_docs /0"
    (Some {| Results := [rex]; Includes := []; TotalResults := Some 2%Z;
             IsStale := Some false |})
    {| Results := [rex]; Includes := []; TotalResults := Some 2%Z;
       IsStale := Some false |}
    [{| document := [("name", JString "Rex")]; rawEntity := rex;
        metadata := JNull |}]
    eq_refl eq_refl eq_refl ltac:(discriminate)
    ltac:(repeat constructor)) as (_ & Hfirst & _ & Hthis).
  destruct (first_returns_first_or_null exampleConventions
    (QueryBuilder_toString exampleText) (exampleServer [] []) true w
    "from @all_docs /0"
    (Some {| Results := []; Includes := []; TotalResults := Some 0%Z;
             IsStale := Some false |})
    {| Results := []; Includes := []; TotalResults := Some 0%Z;
       IsStale := Some false |}
    []
    eq_refl eq_refl eq_refl ltac:(discriminate)
    ltac:(repeat constructor)) as (_ & Hnone & _).
  split; [exact Hfirst|]. split; [exact Hnone|exact Hthis].
Defined.

Lemma count_returns_total_witness :
  let w := exampleRun (set_skip (Some 5%Z) (newQuery "Dogs")) in
  QueryBuilder_toString exampleText (_builder (this w))
  = Normal "from @all_docs /0" ∧
  (count (QueryBuilder_toString exampleText) (exampleServer [rex; bo] [])
     false w).1
  = Fulfilled 2%Z ∧
  this (count (QueryBuilder_toString exampleText)
          (exampleServer [rex; bo] []) false w).2
  = set_skip (Some 5%Z) (newQuery "Dogs").
Proof.
  intros w. split; [reflexivity|].
  destruct (count_returns_total (T:=exampleEntity)
    (QueryBuilder_toString exampleText) (exampleServer [rex; bo] []) false w
    "from @all_docs /0"
    (Some {| Results := []; Includes := []; TotalResults := Some 2%Z;
             IsStale := Some false |})
    eq_refl eq_refl
    ltac:(intros response [= <-]; discriminate)) as (_ & Hcount).
  split; [exact (f_equal fst Hcount)|exact (f_equal (λ r, this r.2) Hcount)].
Defined.

Lemma terminal_methods_pass_rejection_on_witness :
  let w := exampleRun (set_take (Some 10%Z) (newQuery "Dogs")) in
  let e := OtherException "The server is down" in
  QueryBuilder_toString exampleText (_builder (this w))
  = Normal "from @all_docs /0" ∧
  single exampleConventions (QueryBuilder_toString exampleText)
    (λ _, Rejected e) true w
  = (Rejected e,
     after [EmitDocumentsQueried;
            ExecuteCommand
              (indexQueryOf "from @all_docs /0"
                 (forced 2 (Some false) (this w)));
            CallbackError e] w).
Proof.
  intros w e. split; [reflexivity|].
  exact (proj1 (terminal_methods_pass_rejection_on exampleConventions
    (QueryBuilder_toString exampleText) (λ _, Rejected e) true w
    "from @all_docs /0" e eq_refl (λ _, eq_refl))).
Defined.

Lemma conversion_stops_at_failure_witness :
  let w := exampleRun (newQuery "Dogs") in
  let response := {| Results := [rex; JString "x"; bo]; Includes := [];
                     TotalResults := Some 3%Z; IsStale := Some false |} in
  let e := OtherException "Cannot convert a value that is not an object" in
  convertToDocument exampleConventions (JString "x") (documentType (this w))
    (nestedObjectTypes (this w)) = Throw e ∧
  convertResponseToDocuments exampleConventions response w
  = (Throw e,
     after [EmitDocumentFetched
              {| document := [("name", JString "Rex")]; rawEntity := rex;
                 metadata := JNull |}] w).
Proof.
  intros w response e. split; [reflexivity|].
  exact (conversion_stops_at_failure exampleConventions response
    [rex] [bo] (JString "x")
    [{| document := [("name", JString "Rex")]; rawEntity := rex;
        metadata := JNull |}]
    e w eq_refl ltac:(repeat constructor) eq_refl).
Defined.

Lemma all_returns_every_document_witness :
  let s := {| DocumentQueryBase.run :=
                exampleRun (set_withStatistics (Some true) (newQuery "Dogs"));
              DocumentQueryBase.delivered := [] |} in
  let response := {| Results := [rex; bo]; Includes := [];
                     TotalResults := Some 2%Z; IsStale := Some false |} in
  QueryBuilder_toString exampleText
    (_builder (this (DocumentQueryBase.run s)))
  = Normal "from @all_docs /0" ∧
  (DocumentQueryBase.all exampleConventions
     (QueryBuilder_toString exampleText) (exampleServer [rex; bo] [])
     true s).1
  = Fulfilled
      (ResultsWithStatistics
         [[("name", JString "Rex")];
          [("@projection", JBool true); ("name", JString "Bo")]]
         response).
Proof.
  intros s response. split; [reflexivity|].
  exact (proj1 (all_returns_every_document exampleConventions
    (QueryBuilder_toString exampleText) (exampleServer [rex; bo] []) true s
    "from @all_docs /0" response
    [{| document := [("name", JString "Rex")]; rawEntity := rex;
        metadata := JNull |};
     {| document := [("@projection", JBool true); ("name", JString "Bo")];
        rawEntity := bo; metadata := JNull |}]
    eq_refl eq_refl ltac:(discriminate) ltac:(discriminate)
    ltac:(repeat constructor))).
Defined.

Lemma getIndexQuery_descriptor_witness :
  let w := exampleRun (set_take (Some 0%Z) (newQuery "Dogs")) in
  QueryBuilder_toString exampleText (_builder (this w))
  = Normal "from @all_docs /0" ∧
  ∃ d, getIndexQuery (QueryBuilder_toString exampleText) w = (Normal d, w) ∧
       iq_take d = 0%Z ∧ iq_skip d = 0%Z.
Proof.
  intros w. split; [reflexivity|].
  destruct (getIndexQuery_descriptor (T:=exampleEntity)
    (QueryBuilder_toString exampleText) w "from @all_docs /0" eq_refl)
    as (d & Hrun & _ & _ & _ & Htake & _ & _ & Hskip).
  exists d. split; [exact Hrun|].
  split; [exact (Htake 0%Z eq_refl)|exact (Hskip eq_refl)].
Defined.

(** ** Raw parameters *)

Section RawParameters.
Context {T : Type}.
Variable builderToString : list BuilderCall → Completion string.

(** X25.  A parameter added to a raw query is in the descriptor that
    [getIndexQuery] builds afterwards, under the name the caller chose
    and with the value as given, a date included: it replaces what the
    name was bound to, the other bindings are those of the descriptor
    before the call, and so are text, paging and freshness options. *)
Theorem addParameter_reaches_descriptor (name other : string)
    (value : JsValue) (w : QueryRun T) (text : string)
    (Hrender : builderToString (_builder (this w)) = Normal text) :
  let w' := with_this (addParameter name value (this w)).2 w in
  ∃ d d0,
    getIndexQuery builderToString w' = (Normal d, w') ∧
    getIndexQuery builderToString w = (Normal d0, w) ∧
    iq_queryParameters d !! name = Some value ∧
    (other ≠ name →
     iq_queryParameters d !! other = iq_queryParameters d0 !! other) ∧
    iq_query d = iq_query d0 ∧ iq_take d = iq_take d0 ∧
    iq_skip d = iq_skip d0 ∧ iq_options d = iq_options d0.
Proof.
  intros w'.
  exists (indexQueryOf text (this w')), (indexQueryOf text (this w)).
  split; [by apply getIndexQuery_normal|].
  split; [by apply getIndexQuery_normal|].
  unfold indexQueryOf. simpl. rewrite !toJson_id.
  split; [apply lookup_insert_eq|]. split; [|done].
  intros Hne. by apply lookup_insert_ne.
Qed.
End RawParameters.

Lemma paging_reaches_descriptor_witness :
  let w := exampleRun (newQuery "Dogs") in
  QueryBuilder_toString exampleText (_builder (this w))
  = Normal "from @all_docs /0" ∧
  ∃ d, getIndexQuery (QueryBuilder_toString exampleText)
         (with_this (set_skip (Some 20%Z) (set_take (Some 0%Z) (this w))) w)
       = (Normal d,
          with_this (set_skip (Some 20%Z) (set_take (Some 0%Z) (this w))) w) ∧
       iq_take d = 0%Z ∧ iq_skip d = 20%Z.
Proof.
  intros w. split; [reflexivity|].
  destruct (paging_reaches_descriptor (T:=exampleEntity)
    (QueryBuilder_toString exampleText) 0 20 5 w "from @all_docs /0" eq_refl)
    as (d & d0 & Hrun & _ & Htake & Hskip & _).
  exists d. split; [exact Hrun|]. split; [exact Htake|exact Hskip].
Defined.

Lemma addParameter_reaches_descriptor_witness :
  let w := exampleRun (newQuery "Dogs") in
  QueryBuilder_toString exampleText (_builder (this w))
  = Normal "from @all_docs /0" ∧
  ∃ d, getIndexQuery (QueryBuilder_toString exampleText)
         (with_this (addParameter "born" (JDate 5) (this w)).2 w)
       = (Normal d, with_this (addParameter "born" (JDate 5) (this w)).2 w) ∧
       iq_queryParameters d !! "born" = Some (JDate 5).
Proof.
  intros w. split; [reflexivity|].
  destruct (addParameter_reaches_descriptor (T:=exampleEntity)
    (QueryBuilder_toString exampleText) "born" "other" (JDate 5) w
    "from @all_docs /0" eq_refl)
    as (d & d0 & Hrun & _ & Hborn & _).
  exists d. split; [exact Hrun|exact Hborn].
Defined.
